(** * A shallow embedding of [scraper.py]

    The configuration-driven scraper is modelled function by function:
    [get_driver], [scrape_static], [scrape_dynamic], [scrape_api] and
    [run_scraper].  Network and browser collaborators are parameters (an HTTP
    oracle, a driver interface); every effect the code performs on them is
    recorded in an event trace, and Python exceptions are an explicit
    result. *)

From Stdlib Require Import ZArith List String Ascii Bool Lia DecimalString.
Import ListNotations.
Local Open Scope string_scope.
Local Open Scope list_scope.
Set Warnings "-register-all".

(** ** Python data *)

(** Exceptions the code raises or catches.  [RequestException] is the only
    class the static and the API fetchers catch; the dynamic walker catches
    [Exception], that is every constructor here. *)
Inductive exn : Type :=
| ValueError
| KeyError (key : string)
| AttributeError
| RequestException
| NoSuchElementException
| StaleElementReferenceException
| TimeoutException
| WebDriverException
| IndexError.

(** The outcome of a call that may raise. *)
Inductive res (A : Type) : Type :=
| Ok (a : A)
| Raise (e : exn).
Arguments Ok {A} a.
Arguments Raise {A} e.

(** A value stored under a field of an extraction record: [None], a [str],
    or a list. *)
Inductive value : Type :=
| VNone
| VStr (s : string)
| VList (l : list value).

Definition is_null (v : value) : bool :=
  match v with
  | VNone => true
  | _ => false
  end.

(** A record is a Python [dict]: insertion ordered, keys unique. *)
Definition record : Type := list (string * value).

(** [d[k] = v] *)
Fixpoint dict_set (k : string) (v : value) (d : record) : record :=
  match d with
  | [] => [(k, v)]
  | (k', v') :: d' =>
      if String.eqb k' k then (k, v) :: d' else (k', v') :: dict_set k v d'
  end.

Fixpoint dict_get (k : string) (d : record) : option value :=
  match d with
  | [] => None
  | (k', v') :: d' => if String.eqb k' k then Some v' else dict_get k d'
  end.

Definition all_null (d : record) : bool :=
  forallb (fun kv => is_null (snd kv)) d.

(** ** Python string helpers *)

(** A [str] is modelled by its UTF-8 encoding, one [ascii] per byte.
    Equality, concatenation and the search for an ASCII substring are the
    same on the encoding as on the characters; the operations below that
    look at characters decode what they need. *)

(** [str.lower], on ASCII letters.  The code only compares the result with
    ASCII words that have no k ("images", "colors", "sizes", "chrome",
    "firefox", "safari"), and the Kelvin sign is the only character outside
    ASCII that [lower] sends to an ASCII letter, so leaving the other bytes
    alone decides those comparisons as Python does. *)
Definition lower_ascii (c : ascii) : ascii :=
  let n := nat_of_ascii c in
  if ((65 <=? n) && (n <=? 90))%nat then ascii_of_nat (n + 32) else c.

Fixpoint lower (s : string) : string :=
  match s with
  | EmptyString => EmptyString
  | String c r => String (lower_ascii c) (lower r)
  end.

(** The white space of [str.strip()] (the characters for which
    [str.isspace] holds), by the length of the encoding.  One byte:
    TAB..CR, FS..US and the space. *)
Definition is_space (c : ascii) : bool :=
  let n := nat_of_ascii c in
  (((9 <=? n) && (n <=? 13)) || ((28 <=? n) && (n <=? 32)))%nat.

(** Two bytes: U+0085 and U+00A0. *)
Definition is_space2 (c d : ascii) : bool :=
  let a := nat_of_ascii c in
  let b := nat_of_ascii d in
  ((a =? 194) && ((b =? 133) || (b =? 160)))%nat.

(** Three bytes: U+1680, U+2000..U+200A, U+2028, U+2029, U+202F, U+205F
    and U+3000. *)
Definition is_space3 (c d e : ascii) : bool :=
  let a := nat_of_ascii c in
  let b := nat_of_ascii d in
  let f := nat_of_ascii e in
  (((a =? 225) && (b =? 154) && (f =? 128))
   || ((a =? 226) && (b =? 128)
       && (((128 <=? f) && (f <=? 138)) || (f =? 168) || (f =? 169) || (f =? 175)))
   || ((a =? 226) && (b =? 129) && (f =? 159))
   || ((a =? 227) && (b =? 128) && (f =? 128)))%nat.

(** [str.lstrip()] *)
Fixpoint lstrip (s : string) : string :=
  match s with
  | EmptyString => EmptyString
  | String c r =>
      if is_space c then lstrip r
      else
        match r with
        | String d r2 =>
            if is_space2 c d then lstrip r2
            else
              match r2 with
              | String e r3 => if is_space3 c d e then lstrip r3 else s
              | EmptyString => s
              end
        | EmptyString => s
        end
  end.

(** [str.rstrip()]: cut where all that is left is white space. *)
Fixpoint rstrip (s : string) : string :=
  match s with
  | EmptyString => EmptyString
  | String c r =>
      if String.eqb (lstrip s) "" then "" else String c (rstrip r)
  end.

(** [str.strip()] *)
Definition strip (s : string) : string := rstrip (lstrip s).

(** A byte that continues a character (10xxxxxx). *)
Definition is_continuation (c : ascii) : bool :=
  let n := nat_of_ascii c in
  ((128 <=? n) && (n <=? 191))%nat.

(** [s[:n]]: the first [n] characters. *)
Fixpoint take_chars (n : nat) (s : string) : string :=
  match s with
  | EmptyString => EmptyString
  | String c r =>
      if is_continuation c then String c (take_chars n r)
      else
        match n with
        | O => EmptyString
        | S k => String c (take_chars k r)
        end
  end.

(** [len(s)]: the number of characters. *)
Fixpoint char_length (s : string) : nat :=
  match s with
  | EmptyString => O
  | String c r =>
      if is_continuation c then char_length r else S (char_length r)
  end.

(** Truthiness of a [str]: non-empty. *)
Definition truthy_str (s : string) : bool := negb (String.eqb s "").

(** Truthiness of a value that is [None] or a [str]. *)
Definition truthy_opt (o : option string) : bool :=
  match o with
  | Some s => truthy_str s
  | None => false
  end.

(** Truthiness of a list: non-empty. *)
Definition truthy_list {A : Type} (l : list A) : bool :=
  match l with
  | [] => false
  | _ :: _ => true
  end.

(** [x in [..]] over strings. *)
Definition str_in (x : string) (l : list string) : bool :=
  existsb (String.eqb x) l.

(** ** Logging and the event trace *)

Inductive level : Type := INFO | WARNING | ERROR.

(** One constructor per format string of the source; the interpolated
    exception text is left out. *)
Inductive logmsg : Type :=
| FailedInitDriver (browser : string)
| FailedFetch (url : string)
| ScrapedStaticPage (pages : Z) (url : option string)
| TimeoutWaiting (url : string)
| ErrorScraping (name url : string)
| ErrorClickingColor (idx : nat) (url : string)
| ErrorClickingSize (idx : nat) (url : string)
| ErrorScrapingVariation (name : string) (cidx sidx : nat) (url : string)
| NoNextPage (url : string)
| ScrapedDynamicPage (pages : Z) (url : option string)
| ApiSuccess (url : string)
| ApiAttemptFailed (attempt : Z) (url : string)
| ApiFailedAfter (retries : Z) (url : string)
| InvalidConfig (name : string)
| Scraping (url type : string)
| UnknownType (type url : string)
| NoValidData (url : string)
| SavedSheet (sheet out : string)
| NoDataScraped (url : string)
| Completed (out : string).

(** A handle on a node of the browser's live document. *)
Definition elem : Type := nat.

Inductive event : Type :=
| EvHttpGet (url : string)          (* requests.get *)
| EvSleep (secs : Z)                (* time.sleep *)
| EvLog (lvl : level) (msg : logmsg)
| EvLaunch (browser : string)       (* webdriver.Chrome / Firefox / Safari *)
| EvNavigate (url : string)         (* driver.get *)
| EvClick (el : elem)               (* driver.execute_script click *)
| EvQuit                            (* driver.quit *)
| EvSheet (sheet : string)          (* df.to_excel *)
| EvPartialSheet.                   (* a sheet left behind by a failed df.to_excel *)

Definition is_http_get (e : event) : bool :=
  match e with EvHttpGet _ => true | _ => false end.
Definition is_sleep (e : event) : bool :=
  match e with EvSleep _ => true | _ => false end.
Definition is_navigate (e : event) : bool :=
  match e with EvNavigate _ => true | _ => false end.
Definition is_quit (e : event) : bool :=
  match e with EvQuit => true | _ => false end.

Definition is_sheet (e : event) : bool :=
  match e with EvSheet _ => true | _ => false end.

(** The event puts a sheet into the workbook of the writer. *)
Definition in_workbook (e : event) : bool :=
  match e with EvSheet _ | EvPartialSheet => true | _ => false end.

Definition count (p : event -> bool) (t : list event) : nat :=
  List.length (filter p t).

(** The events of the work on one page: clicks and log lines. *)
Definition page_event (e : event) : bool :=
match e with
| EvClick _ | EvLog _ _ => true
| _ => false
end.

(** How one pass through the body of a [while] loop ends. *)
Inductive step (A : Type) : Type :=
| Break (a : A)
| Next (a : A).
Arguments Break {A} a.
Arguments Next {A} a.

(** ** Static pages: the BeautifulSoup side *)

(** A tag: its descendant text nodes in document order, and its
    attributes. *)
Record Tag : Type := mkTag {
  tag_strings : list string;
  tag_attrs : list (string * string)
}.

(** [el.get(attr)] *)
Fixpoint assoc (k : string) (l : list (string * string)) : option string :=
  match l with
  | [] => None
  | (k', v) :: l' => if String.eqb k' k then Some v else assoc k l'
  end.

Definition tag_get (attr : string) (el : Tag) : option string :=
  assoc attr (tag_attrs el).

(** [el.get_text(strip=True)]: every text node stripped, the empty ones
    dropped, the rest joined. *)
Definition get_text_strip (el : Tag) : string :=
  String.concat "" (filter truthy_str (map strip (tag_strings el))).

(** A parsed document, seen through [soup.select]; the selectors of a
    configuration are taken to be well formed, so that [select] returns. *)
Definition Soup : Type := string -> list Tag.

(** [soup.select_one(sel)] *)
Definition select_one (soup : Soup) (sel : string) : option Tag :=
  hd_error (soup sel).

Definition opt_value (o : option string) : value :=
  match o with
  | Some s => VStr s
  | None => VNone
  end.

Definition reserved_static (name : string) : bool :=
  str_in (lower name) ["images"; "colors"; "sizes"].

(** Lines 61-65: the value stored for a field whose selector matched
    [elements]. *)
Definition static_value (name : string) (elements : list Tag) : value :=
  if reserved_static name then
    VList (map (fun el =>
                  if String.eqb (lower name) "images"
                  then opt_value (tag_get "src" el)
                  else VStr (get_text_strip el)) elements)
  else
    let texts := filter truthy_str (map get_text_strip elements) in
    if (1 <? List.length texts)%nat then VList (map VStr texts)
    else match texts with
         | t :: _ => VStr t
         | [] => VNone
         end.

(** Lines 57-67: one turn of the loop over [selectors.items()]. *)
Definition static_field (soup : Soup) (acc : record * bool)
  (ns : string * string) : record * bool :=
  let '(data, any_data_found) := acc in
  let '(name, selector) := ns in
  let elements := soup selector in
  if truthy_list elements
  then (dict_set name (static_value name elements) data, true)
  else (dict_set name VNone data, any_data_found).

(** Lines 55-67. *)
Definition static_extract (selectors : list (string * string)) (soup : Soup)
  : record * bool :=
  fold_left (static_field soup) selectors ([], false).

(** What lines 58-67 store under [name] for the selector [sel]. *)
Definition static_stored (soup : Soup) (name sel : string) : value :=
if truthy_list (soup sel) then static_value name (soup sel) else VNone.

Record static_state : Type := mkStatic {
  st_url : option string;      (* current_url *)
  st_pages : Z;                (* pages_scraped *)
  st_results : list record;    (* results *)
  st_trace : list event
}.

Section Static.
(** [http_get n u]: what the request number [n] of this call, to [u],
    answers; [None] is a [RequestException] (from [requests.get] or from
    [raise_for_status]). *)
Variable http_get : nat -> string -> option Soup.
Variable urljoin : string -> string -> string.

Variable url : string.
Variable selectors : list (string * string).
Variable pagination_selector : option string.
Variable limit : Z.

(** Lines 71-78. *)
Definition static_next (soup : Soup) : option string :=
  if truthy_opt pagination_selector then
    match pagination_selector with
    | Some sel =>
        match select_one soup sel with
        | Some next_page =>
            if truthy_opt (tag_get "href" next_page)
            then option_map (urljoin url) (tag_get "href" next_page)
            else None
        | None => None
        end
    | None => None
    end
  else None.

(** Line 45. *)
Definition static_cond (st : static_state) : bool :=
  truthy_opt (st_url st) && (st_pages st <? limit)%Z.

(** Lines 46-81. *)
Definition static_body (st : static_state) : step static_state :=
  match st_url st with
  | None => Break st
  | Some current_url =>
      match http_get (Z.to_nat (st_pages st)) current_url with
      | None =>
          Break (mkStatic (st_url st) (st_pages st) (st_results st)
                   (st_trace st ++ [EvHttpGet current_url;
                                    EvLog ERROR (FailedFetch current_url)]))
      | Some soup =>
          let '(data, any_data_found) := static_extract selectors soup in
          let results := if any_data_found then st_results st ++ [data]
                         else st_results st in
          let next := static_next soup in
          let pages := (st_pages st + 1)%Z in
          Next (mkStatic next pages results
                  (st_trace st ++ [EvHttpGet current_url;
                                   EvLog INFO (ScrapedStaticPage pages next)]))
      end
  end.

(** The [while] loop; [None] when the fuel runs out first. *)
Fixpoint static_loop (fuel : nat) (st : static_state) : option static_state :=
  if static_cond st then
    match fuel with
    | O => None
    | S fuel' =>
        match static_body st with
        | Break st' => Some st'
        | Next st' => static_loop fuel' st'
        end
    end
  else Some st.

Definition static_init : static_state := mkStatic (Some url) 0 [] [].

(** [scrape_static(url, selectors, pagination_selector, limit)]: the
    returned list and the trace of the call.  [limit] turns are enough
    (lemma [static_loop_total]). *)
Definition scrape_static : list record * list event :=
  match static_loop (Z.to_nat limit) static_init with
  | Some st => (st_results st, st_trace st)
  | None => ([], [])
  end.
End Static.

(** ** Dynamic pages: the Selenium side *)

(** What the code asks of a browser session whose state has type [St].
    An operation that can raise returns a [res]; an operation that changes
    the page returns the new state with the exception it raised, if any. *)
Class Driver (St : Type) : Type := {
  (* webdriver.Chrome / Firefox / Safari (options=options) *)
  launch : string -> res St;
  (* driver.get(url) *)
  navigate : St -> string -> St * option exn;
  (* driver.find_elements(By.CSS_SELECTOR, sel) *)
  find_elements : St -> string -> res (list elem);
  (* driver.find_element(By.CSS_SELECTOR, sel) *)
  find_element : St -> string -> res elem;
  (* el.find_element(By.TAG_NAME, "img").get_attribute("src") *)
  img_src : St -> elem -> res (option string);
  (* el.text *)
  text : St -> elem -> res string;
  (* el.is_enabled() *)
  is_enabled : St -> elem -> res bool;
  (* driver.execute_script("arguments[0].click();", el) *)
  click : St -> elem -> St * option exn;
  (* driver.current_url *)
  current_url : St -> string;
  (* the page as it is one poll interval later *)
  tick : St -> St;
  (* how many further polls fit in a timeout of that many seconds *)
  polls : Z -> nat;
  (* driver.quit() *)
  quit : St -> option exn
}.

Record dyn_state (St : Type) : Type := mkDyn {
  dy_browser : St;
  dy_url : option string;      (* current_url *)
  dy_pages : Z;                (* pages_scraped *)
  dy_results : list record;    (* results *)
  dy_trace : list event
}.
Arguments mkDyn {St} _ _ _ _ _.
Arguments dy_browser {St} _.
Arguments dy_url {St} _.
Arguments dy_pages {St} _.
Arguments dy_results {St} _.
Arguments dy_trace {St} _.

(** How one pass through the body of the dynamic [while] loop ends. *)
Inductive dstep (A : Type) : Type :=
| DBreak (a : A)
| DNext (a : A)
| DRaise (a : A) (e : exn).
Arguments DBreak {A} a.
Arguments DNext {A} a.
Arguments DRaise {A} a e.

(** The state a turn ends in. *)
Definition dstep_state {A : Type} (d : dstep A) : A :=
match d with
| DBreak a | DNext a | DRaise a _ => a
end.

Fixpoint mapM {A B : Type} (f : A -> res B) (l : list A) : res (list B) :=
  match l with
  | [] => Ok []
  | a :: l' =>
      match f a with
      | Raise e => Raise e
      | Ok b =>
          match mapM f l' with
          | Raise e => Raise e
          | Ok bs => Ok (b :: bs)
          end
      end
  end.

Definition READY : string := "h1.ty-product-block-title bdi".

(** A Python function object is truthy, whatever it computes. *)
Definition callable_truthy {A B : Type} (f : A -> B) : bool := true.

(** [a or b] on two callables: [a] when [a] is truthy, else [b]. *)
Definition py_or {A B : Type} (a b : A -> B) : A -> B :=
  if callable_truthy a then a else b.

Section Dynamic.
Context {St : Type} {D : Driver St}.

(** Lines 22-36. *)
Definition get_driver (browser : string) : res St * list event :=
  let attempt :=
    if String.eqb (lower browser) "chrome" then (launch "chrome", [EvLaunch "chrome"])
    else if String.eqb (lower browser) "firefox" then (launch "firefox", [EvLaunch "firefox"])
    else if String.eqb (lower browser) "safari" then (launch "safari", [EvLaunch "safari"])
    else (Raise ValueError, []) in
  match fst attempt with
  | Ok d => (Ok d, snd attempt)
  | Raise e => (Raise e, snd attempt ++ [EvLog ERROR (FailedInitDriver browser)])
  end.

(** *** Expected conditions and [WebDriverWait.until] *)

(** [EC.staleness_of(el)] *)
Definition staleness_of (el : elem) (st : St) : res bool :=
  match is_enabled st el with
  | Ok _ => Ok false
  | Raise StaleElementReferenceException => Ok true
  | Raise e => Raise e
  end.

(** [EC.presence_of_element_located((By.CSS_SELECTOR, sel))]: the element,
    which is truthy. *)
Definition presence_of_element_located (sel : string) (st : St) : res bool :=
  match find_element st sel with
  | Ok _ => Ok true
  | Raise e => Raise e
  end.

(** [EC.url_changes(url)] *)
Definition url_changes (url : string) (st : St) : res bool :=
  Ok (negb (String.eqb url (current_url st))).

(** [WebDriverWait(driver, t).until(cond)] with [extra] polls after the
    first: a truthy poll returns, a falsy poll or a
    [NoSuchElementException] waits one interval and polls again, any other
    exception leaves at once, and [TimeoutException] ends the wait. *)
Fixpoint until (extra : nat) (cond : St -> res bool) (st : St) : St * res unit :=
  match cond st with
  | Ok true => (st, Ok tt)
  | Ok false | Raise NoSuchElementException =>
      match extra with
      | O => (st, Raise TimeoutException)
      | S extra' => until extra' cond (tick st)
      end
  | Raise e => (st, Raise e)
  end.

(** Lines 135-136 and 144-145: the click and the wait that follows it. *)
Definition click_and_wait (st : St) (el : elem) : St * res unit :=
  let '(st1, r) := click st el in
  match r with
  | Some e => (st1, Raise e)
  | None =>
      until (polls 5)
        (py_or (staleness_of el) (presence_of_element_located READY)) st1
  end.

(** *** Field extraction *)

(** Lines 111 and 163. *)
Definition dyn_images (st : St) (elements : list elem) : res value :=
  match mapM (img_src st) elements with
  | Raise e => Raise e
  | Ok srcs =>
      Ok (VList (map opt_value (filter truthy_opt srcs)))
  end.

(** The list [[el.text.strip() for el in elements if el.text.strip()]]. *)
Definition dyn_texts (st : St) (elements : list elem) : res (list string) :=
  match mapM (text st) elements with
  | Raise e => Raise e
  | Ok ts => Ok (filter truthy_str (map strip ts))
  end.

(** Lines 110-116 and 162-168. *)
Definition dynamic_value (st : St) (name : string) (elements : list elem)
  : res value :=
  if str_in (lower name) ["images"] then dyn_images st elements
  else if str_in (lower name) ["colors"; "sizes"] then
    match dyn_texts st elements with
    | Raise e => Raise e
    | Ok texts => Ok (VList (map VStr texts))
    end
  else
    match dyn_texts st elements with
    | Raise e => Raise e
    | Ok texts => Ok (match texts with
                      | t :: _ => VStr t
                      | [] => VNone
                      end)
    end.

(** Lines 103-121 and 155-173: one turn of the loop over
    [selectors.items()]; [warn] builds the warning of the [except]
    branch. *)
Definition dynamic_field (st : St) (warn : string -> logmsg)
  (acc : record * bool * list event) (ns : string * string)
  : record * bool * list event :=
  let '(data, any_data_found, log) := acc in
  let '(name, selector) := ns in
  if str_in name ["color_variation"; "size_variation"] then acc
  else
    match find_elements st selector with
    | Raise _ =>
        (dict_set name VNone data, any_data_found,
         log ++ [EvLog WARNING (warn name)])
    | Ok elements =>
        if truthy_list elements then
          match dynamic_value st name elements with
          | Ok v => (dict_set name v data, true, log)
          | Raise _ =>
              (dict_set name VNone data, true,
               log ++ [EvLog WARNING (warn name)])
          end
        else (dict_set name VNone data, any_data_found, log)
    end.

Definition dynamic_extract (selectors : list (string * string)) (st : St)
  (warn : string -> logmsg) (seed : record) : record * bool * list event :=
  fold_left (dynamic_field st warn) selectors (seed, false, []).

(** What lines 107-121 (and 159-173) store under [name] for [sel]. *)
Definition dynamic_stored (st : St) (name sel : string) : value :=
match find_elements st sel with
| Raise _ => VNone
| Ok elements =>
    if truthy_list elements then
      match dynamic_value st name elements with
      | Ok v => v
      | Raise _ => VNone
      end
    else VNone
end.
End Dynamic.

Section DynamicWalk.
Context {St : Type} {D : Driver St}.

Variable url : string.
Variable selectors : list (string * string).
Variable pagination_selector : option string.
Variable limit : Z.
Variable browser : string.

Definition set_browser (w : dyn_state St) (st : St) (evs : list event)
  : dyn_state St :=
  mkDyn st (dy_url w) (dy_pages w) (dy_results w) (dy_trace w ++ evs).

Definition add_result (w : dyn_state St) (found : bool) (r : record)
  (evs : list event) : dyn_state St :=
  mkDyn (dy_browser w) (dy_url w) (dy_pages w)
    (if found then dy_results w ++ [r] else dy_results w)
    (dy_trace w ++ evs).

(** Lines 133-139 and 142-148: nothing to do for the placeholder [None];
    otherwise click, wait, and on any exception log [warn] and tell the
    caller to [continue]. *)
Definition trigger (el : option elem) (warn : logmsg) (w : dyn_state St)
  : dyn_state St * bool :=
  match el with
  | None => (w, true)
  | Some e =>
      let '(st1, r) := click_and_wait (dy_browser w) e in
      match r with
      | Ok _ => (set_browser w st1 [EvClick e], true)
      | Raise _ => (set_browser w st1 [EvClick e; EvLog WARNING warn], false)
      end
  end.

(** Lines 151-152: [el.text.strip() if el else "N/A"]. *)
Definition label (st : St) (el : option elem) : res string :=
  match el with
  | Some e =>
      match text st e with
      | Ok t => Ok (strip t)
      | Raise x => Raise x
      end
  | None => Ok "N/A"
  end.

(** Lines 141-175: the loop over [enumerate(size_elements)]. *)
Fixpoint size_loop (cur : string) (color_idx : nat) (color_el : option elem)
  (size_idx : nat) (size_elements : list (option elem)) (w : dyn_state St)
  : dyn_state St * option exn :=
  match size_elements with
  | [] => (w, None)
  | size_el :: rest =>
      let '(w1, ok) := trigger size_el (ErrorClickingSize size_idx cur) w in
      if ok then
        match label (dy_browser w1) color_el with
        | Raise e => (w1, Some e)
        | Ok variation_color =>
            match label (dy_browser w1) size_el with
            | Raise e => (w1, Some e)
            | Ok variation_size =>
                let '(var_data, any_var_data_found, log) :=
                  dynamic_extract selectors (dy_browser w1)
                    (fun name => ErrorScrapingVariation name color_idx size_idx cur)
                    [("variation_color", VStr variation_color);
                     ("variation_size", VStr variation_size)] in
                size_loop cur color_idx color_el (S size_idx) rest
                  (add_result w1 any_var_data_found var_data log)
            end
        end
      else size_loop cur color_idx color_el (S size_idx) rest w1
  end.

(** Lines 132-175: the loop over [enumerate(color_elements)]. *)
Fixpoint color_loop (cur : string) (size_elements : list (option elem))
  (color_idx : nat) (color_elements : list (option elem)) (w : dyn_state St)
  : dyn_state St * option exn :=
  match color_elements with
  | [] => (w, None)
  | color_el :: rest =>
      let '(w1, ok) := trigger color_el (ErrorClickingColor color_idx cur) w in
      if ok then
        match size_loop cur color_idx color_el 0 size_elements w1 with
        | (w2, Some e) => (w2, Some e)
        | (w2, None) => color_loop cur size_elements (S color_idx) rest w2
        end
      else color_loop cur size_elements (S color_idx) rest w1
  end.

(** Lines 129-130: the matched elements, or the placeholder [[None]] when
    the selector is not configured. *)
Definition axis (st : St) (sel : option string) : res (list (option elem)) :=
  if truthy_opt sel then
    match sel with
    | Some s =>
        match find_elements st s with
        | Ok els => Ok (map Some els)
        | Raise e => Raise e
        end
    | None => Ok [None]
    end
  else Ok [None].

(** Lines 126-175. *)
Definition variations (cur : string) (w : dyn_state St)
  : dyn_state St * option exn :=
  let color_variation_selector := assoc "color_variation" selectors in
  let size_variation_selector := assoc "size_variation" selectors in
  if truthy_opt color_variation_selector || truthy_opt size_variation_selector
  then
    match axis (dy_browser w) color_variation_selector with
    | Raise e => (w, Some e)
    | Ok color_elements =>
        match axis (dy_browser w) size_variation_selector with
        | Raise e => (w, Some e)
        | Ok size_elements => color_loop cur size_elements 0 color_elements w
        end
    end
  else (w, None).

(** Lines 177-187: the browser after the attempt, the next [current_url],
    and the events. *)
Definition paginate (cur : string) (st : St) : St * option string * list event :=
  if truthy_opt pagination_selector then
    match pagination_selector with
    | Some sel =>
        match find_element st sel with
        | Raise _ => (st, None, [EvLog INFO (NoNextPage cur)])
        | Ok next_btn =>
            let '(st1, r) := click st next_btn in
            match r with
            | Some _ => (st1, None, [EvClick next_btn; EvLog INFO (NoNextPage cur)])
            | None =>
                let '(st2, r2) := until (polls 5) (url_changes cur) st1 in
                match r2 with
                | Raise _ =>
                    (st2, None, [EvClick next_btn; EvLog INFO (NoNextPage cur)])
                | Ok _ => (st2, Some (current_url st2), [EvClick next_btn])
                end
            end
        end
    | None => (st, None, [])
    end
  else (st, None, []).

(** Line 92. *)
Definition dynamic_cond (w : dyn_state St) : bool :=
  truthy_opt (dy_url w) && (dy_pages w <? limit)%Z.

(** Lines 101-123: the base record of the page shown by [st]. *)
Definition base_extract (cur : string) (st : St) : record * bool * list event :=
  dynamic_extract selectors st (fun name => ErrorScraping name cur) [].

(** Lines 93-190. *)
Definition dynamic_body (w : dyn_state St) : dstep (dyn_state St) :=
  match dy_url w with
  | None => DBreak w
  | Some cur =>
      let '(st1, r) := navigate (dy_browser w) cur in
      let w1 := set_browser w st1 [EvNavigate cur] in
      match r with
      | Some e => DRaise w1 e
      | None =>
          let '(st2, r2) :=
            until (polls 10) (presence_of_element_located READY) st1 in
          match r2 with
          | Raise _ => DBreak (set_browser w1 st2 [EvLog ERROR (TimeoutWaiting cur)])
          | Ok _ =>
              let '(base_data, any_data_found, log) := base_extract cur st2 in
              let w2 := add_result (set_browser w1 st2 []) any_data_found
                          base_data log in
              match variations cur w2 with
              | (w3, Some e) => DRaise w3 e
              | (w3, None) =>
                  let '(st4, next, evs) := paginate cur (dy_browser w3) in
                  let pages := (dy_pages w3 + 1)%Z in
                  DNext (mkDyn st4 next pages (dy_results w3)
                           (dy_trace w3 ++ evs
                            ++ [EvLog INFO (ScrapedDynamicPage pages next)]))
              end
          end
      end
  end.

(** The [while] loop of line 92; [None] when the fuel runs out first. *)
Fixpoint dynamic_loop (fuel : nat) (w : dyn_state St)
  : option (dyn_state St * option exn) :=
  if dynamic_cond w then
    match fuel with
    | O => None
    | S fuel' =>
        match dynamic_body w with
        | DBreak w' => Some (w', None)
        | DNext w' => dynamic_loop fuel' w'
        | DRaise w' e => Some (w', Some e)
        end
    end
  else Some (w, None).

(** Lines 192-195: [finally: driver.quit()], then the [return] or the
    pending exception; an exception of [quit] itself replaces both. *)
Definition dynamic_finally (out : dyn_state St * option exn)
  : res (list record) * list event :=
  let '(w, pending) := out in
  let trace := dy_trace w ++ [EvQuit] in
  match quit (dy_browser w) with
  | Some e => (Raise e, trace)
  | None =>
      match pending with
      | Some e => (Raise e, trace)
      | None => (Ok (dy_results w), trace)
      end
  end.

(** [scrape_dynamic(url, selectors, pagination_selector, limit, browser)];
    [limit] turns are enough (lemma [dynamic_loop_total]). *)
Definition scrape_dynamic : res (list record) * list event :=
  match get_driver browser with
  | (Raise e, log) => (Raise e, log)
  | (Ok driver, log) =>
      match dynamic_loop (Z.to_nat limit) (mkDyn driver (Some url) 0 [] log) with
      | Some out => dynamic_finally out
      | None => (Ok [], log)
      end
  end.
End DynamicWalk.

(** ** Notions used to state the properties of the dynamic walker *)

Section WalkNotions.
Context {St : Type} {D : Driver St}.
Variable selectors : list (string * string).
Variable cur : string.

(** [w'] comes from [w] by work on the current page only. *)
Definition same_page (w w' : dyn_state St) : Prop :=
dy_url w' = dy_url w /\ dy_pages w' = dy_pages w /\
exists evs, dy_trace w' = dy_trace w ++ evs /\ forallb page_event evs = true.

(** The page states that clicks and poll intervals lead to from [s0]. *)
Inductive after (s0 : St) : St -> Prop :=
| after_here : after s0 s0
| after_click st el : after s0 st -> after s0 (fst (click st el))
| after_tick st : after s0 st -> after s0 (tick st).

(** The variation record built on the page state [st] from the labels
    [tc] and [ts]. *)
Definition var_record (st : St) (tc ts : string) : record :=
fst (fst (dynamic_extract selectors st (fun name => ErrorScraping name cur)
            [("variation_color", VStr (strip tc));
             ("variation_size", VStr (strip ts))])).

(** [r] is the variation record of the color element and the size element
    of [cs], read on a page state that follows [s0]. *)
Definition seeded_from (s0 : St) (r : record) (cs : elem * elem) : Prop :=
exists st tc ts,
  after s0 st /\ text st (fst cs) = Ok tc /\ text st (snd cs) = Ok ts /\
  r = var_record st tc ts.
End WalkNotions.

(** ** The API fetcher *)

Inductive json : Type :=
| JNull
| JBool (b : bool)
| JNum (z : Z)
| JStr (s : string)
| JList (l : list json)
| JDict (d : list (string * json)).

Fixpoint jassoc (k : string) (d : list (string * json)) : option json :=
  match d with
  | [] => None
  | (k', v) :: d' => if String.eqb k' k then Some v else jassoc k d'
  end.

(** Lines 203-204: [for key in json_path: data = data.get(key, {})]; only
    a [dict] has [get]. *)
Fixpoint descend (data : json) (json_path : list string) : res json :=
  match json_path with
  | [] => Ok data
  | key :: rest =>
      match data with
      | JDict d =>
          descend (match jassoc key d with
                   | Some v => v
                   | None => JDict []
                   end) rest
      | _ => Raise AttributeError
      end
  end.

(** Line 206: [[data] if isinstance(data, dict) else data]. *)
Definition wrap_dict (data : json) : json :=
  match data with
  | JDict _ => JList [data]
  | _ => data
  end.

Definition headers : Type := list (string * string).

Section Api.
(** [api_get n url headers]: the parsed body that attempt number [n]
    (from 0) obtains from [requests.get], [raise_for_status] and
    [response.json()], or the exception one of them raises. *)
Variable api_get : nat -> string -> headers -> res json.

Variable url : string.
Variable json_path : list string.
Variable hdrs : option headers.
Variable retries : Z.

(** Lines 200-204 and 206: the [try] body up to its [return] value. *)
Definition api_try (attempt : Z) : res json :=
  match api_get (Z.to_nat attempt) url
          (match hdrs with
           | Some ((_ :: _) as h) => h
           | _ => []
           end) with
  | Raise e => Raise e
  | Ok body =>
      match descend body json_path with
      | Raise e => Raise e
      | Ok data => Ok (wrap_dict data)
      end
  end.

(** Lines 198-212: the turns of [for attempt in range(retries)] that are
    left, [todo] of them, starting at [attempt].  Python's [None] is
    [JNull]. *)
Fixpoint api_attempts (todo : nat) (attempt : Z) (trace : list event)
  : res json * list event :=
  match todo with
  | O => (Ok JNull, trace)
  | S todo' =>
      match api_try attempt with
      | Ok data =>
          (Ok data, trace ++ [EvHttpGet url; EvLog INFO (ApiSuccess url)])
      | Raise RequestException =>
          let trace1 :=
            trace ++ [EvHttpGet url;
                      EvLog WARNING (ApiAttemptFailed (attempt + 1) url)] in
          if (attempt =? retries - 1)%Z
          then (Ok JNull, trace1 ++ [EvLog ERROR (ApiFailedAfter retries url)])
          else api_attempts todo' (attempt + 1)%Z (trace1 ++ [EvSleep 2])
      | Raise e => (Raise e, trace ++ [EvHttpGet url])
      end
  end.

(** [scrape_api(url, json_path, headers, retries)] *)
Definition scrape_api : res json * list event :=
  api_attempts (Z.to_nat retries) 0 [].
End Api.

(** What [k] failed attempts that are not the last leave in the trace, the
    first of them being attempt number [a]. *)
Fixpoint failed_attempts (url : string) (a : Z) (k : nat) : list event :=
  match k with
  | O => []
  | S k' =>
      [EvHttpGet url; EvLog WARNING (ApiAttemptFailed (a + 1) url); EvSleep 2]
        ++ failed_attempts url (a + 1) k'
  end.

(** ** The orchestrator *)

(** One entry of [configs["websites"]]; [None] is an absent key. *)
Record site : Type := mkSite {
  site_url : option string;
  site_type : option string;
  site_selectors : option (list (string * string));
  site_pagination : option string;
  site_limit : option Z;
  site_browser : option string;
  site_json_path : option (list string);
  site_api_key : option string;
  site_name : option string
}.

(** What a walker hands back as [data]. *)
Inductive scraped : Type :=
| Records (l : list record)
| ApiData (j : json).

(** Truthiness of a JSON value as a Python object. *)
Definition truthy_json (j : json) : bool :=
  match j with
  | JNull => false
  | JBool b => b
  | JNum z => negb (z =? 0)%Z
  | JStr s => truthy_str s
  | JList l => truthy_list l
  | JDict d => truthy_list d
  end.

(** Line 249: [if data]. *)
Definition truthy_scraped (d : scraped) : bool :=
  match d with
  | Records l => truthy_list l
  | ApiData j => truthy_json j
  end.

Definition get_default {A : Type} (o : option A) (d : A) : A :=
  match o with
  | Some a => a
  | None => d
  end.

(** Line 228: [all(key in site for key in ["url", "type", "selectors"])]. *)
Definition has_required (s : site) : bool :=
  match site_url s, site_type s, site_selectors s with
  | Some _, Some _, Some _ => true
  | _, _, _ => false
  end.

(** What lines 250-258 come to for the data of one site. *)
Inductive saving : Type :=
| Saved                                 (* the sheet is written *)
| EmptyFrame                            (* line 251: [df.empty] *)
| SaveRaised (e : exn) (sheet_left : bool).
                                        (* an exception on the way; [sheet_left]
                                           when [df.to_excel] raised it after the
                                           writer had added the sheet *)

(** [writer.close()] at the exit of [with pd.ExcelWriter(...)], after a
    loop whose events are [tr]: the workbook is saved, and a workbook needs
    at least one sheet. *)
Definition writer_close (tr : list event) : option exn :=
  if existsb in_workbook tr then None else Some IndexError.

Section Orchestrator.
Context {St : Type} {D : Driver St}.
Variable http_get : nat -> string -> option Soup.
Variable urljoin : string -> string -> string.
Variable api_get : nat -> string -> headers -> res json.
(** Lines 250-258, the pandas side, for a sheet name, the URL and the
    data. *)
Variable to_excel : string -> string -> scraped -> saving.
(** Line 257: the sheet name derived from the host and the index. *)
Variable host_sheet : string -> nat -> string.
Variable output_file : string.

(** Lines 249-261. *)
Definition save (idx : nat) (s : site) (u : string) (data : scraped)
  : res unit * list event :=
  if truthy_scraped data then
    let sheet_name :=
      take_chars 31 (get_default (site_name s) (host_sheet u idx)) in
    match to_excel sheet_name u data with
    | SaveRaised e sheet_left =>
        (Raise e, if sheet_left then [EvPartialSheet] else [])
    | EmptyFrame => (Ok tt, [EvLog WARNING (NoValidData u)])
    | Saved =>
        (Ok tt, [EvSheet sheet_name;
                 EvLog INFO (SavedSheet sheet_name output_file)])
    end
  else (Ok tt, [EvLog WARNING (NoDataScraped u)]).

Definition then_save (idx : nat) (s : site) (u : string)
  (walked : res scraped * list event) : res unit * list event :=
  match walked with
  | (Raise e, tr) => (Raise e, tr)
  | (Ok data, tr) =>
      let '(r, tr') := save idx s u data in (r, tr ++ tr')
  end.

(** Lines 228-261: one turn of the loop over the sites. *)
Definition process_site (idx : nat) (s : site) : res unit * list event :=
  match site_url s, site_type s, site_selectors s with
  | Some u, Some ty, Some selectors =>
      let hello := [EvLog INFO (Scraping u ty)] in
      let '(r, tr) :=
        if String.eqb ty "static" then
          let '(data, tr) :=
            scrape_static http_get urljoin u selectors (site_pagination s)
              (get_default (site_limit s) 5%Z) in
          then_save idx s u (Ok (Records data), tr)
        else if String.eqb ty "dynamic" then
          match scrape_dynamic u selectors (site_pagination s)
                  (get_default (site_limit s) 5%Z)
                  (get_default (site_browser s) "chrome") with
          | (Raise e, tr) => (Raise e, tr)
          | (Ok data, tr) => then_save idx s u (Ok (Records data), tr)
          end
        else if String.eqb ty "api" then
          let hdrs :=
            match site_api_key s with
            | Some k => [("Authorization", ("Bearer " ++ k)%string)]
            | None => []
            end in
          match site_json_path s with
          | None => (Raise (KeyError "json_path"), [])
          | Some json_path =>
              match scrape_api api_get u json_path (Some hdrs) 3%Z with
              | (Raise e, tr) => (Raise e, tr)
              | (Ok data, tr) => then_save idx s u (Ok (ApiData data), tr)
              end
          end
        else (Ok tt, [EvLog WARNING (UnknownType ty u)]) in
      (r, hello ++ tr)
  | _, _, _ =>
      (Ok tt, [EvLog ERROR (InvalidConfig (get_default (site_name s) "unknown"))])
  end.

(** Line 227: the loop over [enumerate(configs.get("websites", []))]; an
    exception of a turn ends the loop. *)
Fixpoint sites_loop (idx : nat) (sites : list site) : res unit * list event :=
  match sites with
  | [] => (Ok tt, [])
  | s :: rest =>
      match process_site idx s with
      | (Raise e, tr) => (Raise e, tr)
      | (Ok _, tr) =>
          let '(r, tr') := sites_loop (S idx) rest in (r, tr ++ tr')
      end
  end.

(** Lines 226-263, once the configuration is loaded.  Leaving the [with]
    block closes the writer, whether the loop ended or raised, and the close
    saves the workbook; when the workbook got no sheet the save raises
    [IndexError], which then is the exception of the run, also in place of
    one raised by the loop.  Line 263 is reached when nothing was raised. *)
Definition run_scraper (websites : list site) : res unit * list event :=
  let '(r, tr) := sites_loop 0 websites in
  match writer_close tr with
  | Some e => (Raise e, tr)
  | None =>
      match r with
      | Raise e => (Raise e, tr)
      | Ok _ => (Ok tt, tr ++ [EvLog INFO (Completed output_file)])
      end
  end.
End Orchestrator.

(** ** The cells and the sheet names of [run_scraper] *)

(** The items of a list as strings, when they all are. *)
Fixpoint strs_of (l : list value) : option (list string) :=
  match l with
  | [] => Some []
  | VStr s :: l' => option_map (cons s) (strs_of l')
  | _ :: _ => None
  end.

(** Line 255, the function applied to every cell:
    [", ".join(x) if isinstance(x, list) else x]; [None] stands for the
    [TypeError] that [join] raises on an item that is not a [str]. *)
Definition flatten_cell (x : value) : option value :=
  match x with
  | VList l => option_map (fun ss => VStr (String.concat ", " ss)) (strs_of l)
  | _ => Some x
  end.

(** [s.replace(old, new)] for a non-empty [old], scanning from the left;
    [skip] counts the characters of the occurrence being replaced that are
    still to pass. *)
Fixpoint replace_from (old new : string) (skip : nat) (s : string) : string :=
  match s with
  | EmptyString => EmptyString
  | String c r =>
      match skip with
      | S k => replace_from old new k r
      | O =>
          if prefix old s
          then (new ++ replace_from old new (String.length old - 1) r)%string
          else String c (replace_from old new 0 r)
      end
  end.

Definition str_replace (old new s : string) : string := replace_from old new 0 s.

(** [s.split(sep)[0]] for a separator of one character. *)
Fixpoint before (sep : ascii) (s : string) : string :=
  match s with
  | EmptyString => EmptyString
  | String c r => if Ascii.eqb c sep then EmptyString else String c (before sep r)
  end.

(** [str(n)] *)
Definition decimal (n : nat) : string := NilEmpty.string_of_uint (Nat.to_uint n).

(** Line 257, the default of [site.get("name", ...)]:
    [f"{url.replace('https://', '').replace('http://', '').split('/')[0]}_{idx}"]. *)
Definition host_sheet_name (u : string) (idx : nat) : string :=
  (before "/" (str_replace "http://" "" (str_replace "https://" "" u))
   ++ "_" ++ decimal idx)%string.

(** The string holds the character. *)
Fixpoint has_char (c : ascii) (s : string) : bool :=
  match s with
  | EmptyString => false
  | String a r => Ascii.eqb a c || has_char c r
  end.

(** A cell that [flatten_cell] turns into a scalar or leaves [None]. *)
Definition flattens (x : value) : Prop :=
exists y, flatten_cell x = Some y /\ forall l, y <> VList l.

(** ** Notions used to state further properties *)

Definition is_error (e : event) : bool :=
match e with
| EvLog ERROR _ => true
| _ => false
end.

Definition is_trigger (name : string) : bool :=
str_in name ["color_variation"; "size_variation"].

(** The record has both variation labels as keys. *)
Definition has_labels (r : record) : Prop :=
dict_get "variation_color" r <> None /\ dict_get "variation_size" r <> None.

Section LabelledRecords.
Context {St : Type} {D : Driver St}.
Variable selectors : list (string * string).
Variable cur : string.

(** The variation record built on the page state [st] with the labels
    [lc] and [ls] as they are. *)
Definition labelled (st : St) (lc ls : string) : record :=
fst (fst (dynamic_extract selectors st (fun name => ErrorScraping name cur)
            [("variation_color", VStr lc); ("variation_size", VStr ls)])).

(** [r] is the variation record of the pair [cs] (elements or
    placeholders), read on a page state that follows [s0]. *)
Definition seeded_opt (s0 : St) (r : record) (cs : option elem * option elem)
  : Prop :=
exists st lc ls,
  after s0 st /\ label st (fst cs) = Ok lc /\ label st (snd cs) = Ok ls /\
  r = labelled st lc ls.
End LabelledRecords.

(** The kinds of events each part of the program can produce. *)
Definition static_event (e : event) : bool :=
match e with
| EvHttpGet _ | EvLog _ _ => true
| _ => false
end.

Definition api_event (e : event) : bool :=
match e with
| EvHttpGet _ | EvSleep _ | EvLog _ _ => true
| _ => false
end.

Definition dynamic_event (e : event) : bool :=
match e with
| EvLaunch _ | EvNavigate _ | EvClick _ | EvQuit | EvLog _ _ => true
| _ => false
end.

Definition save_event (e : event) : bool :=
match e with
| EvSheet _ | EvPartialSheet | EvLog _ _ => true
| _ => false
end.

(** The requests or navigations [run_scraper] allows one site: three
    attempts for an API site that has its [json_path] (line 244 passes no
    [retries]), [limit] pages, 5 by default, for a static or a dynamic
    site, none for a site that is skipped (a required key missing, an
    unknown type) or that has no [json_path]. *)
Definition site_budget (s : site) : nat :=
match site_url s, site_type s, site_selectors s with
| Some _, Some ty, Some _ =>
    if String.eqb ty "api" then
      match site_json_path s with
      | Some _ => 3%nat
      | None => 0%nat
      end
    else if String.eqb ty "static" || String.eqb ty "dynamic"
    then Z.to_nat (get_default (site_limit s) 5%Z)
    else 0%nat
| _, _, _ => 0%nat
end.

Definition is_log_line (e : event) : bool :=
match e with
| EvLog _ _ => true
| _ => false
end.

(** What suits the trace of one site: the walker's part [walk] and what
    follows it. *)
Definition walk_ok (s : site) (walk : list event) : Prop :=
count is_sheet walk = 0%nat
/\ (count is_sleep walk <= 2)%nat
/\ (count is_http_get walk + count is_navigate walk <= site_budget s)%nat.

Definition saved_ok (saved : list event) : Prop :=
(count is_sheet saved <= 1)%nat
/\ count is_sleep saved = 0%nat
/\ count is_http_get saved = 0%nat
/\ count is_navigate saved = 0%nat
/\ Forall (fun e => forall n, e = EvSheet n -> (char_length n <= 31)%nat) saved.

(** * Scenarios *)

(** An endpoint that fails twice and then answers
    [{"data": {"items": [1, 2]}}]. *)
Definition flaky_api (n : nat) (u : string) (h : headers) : res json :=
if (n <? 2)%nat then Raise RequestException
else Ok (JDict [("data", JDict [("items", JList [JNum 1; JNum 2])])]).

(** An endpoint that never answers. *)
Definition dead_api (n : nat) (u : string) (h : headers) : res json :=
Raise RequestException.

(** The two pages of the example of the specification: page 1 has a title
    and a next link, page 2 has a title only. *)
Definition page1 : Soup :=
fun sel =>
  if String.eqb sel "h1" then [mkTag ["A"] []]
  else if String.eqb sel "a.next" then [mkTag ["next"] [("href", "/p2")]]
  else [].

Definition page2 : Soup :=
fun sel => if String.eqb sel "h1" then [mkTag ["B"] []] else [].

(** A page whose only heading holds white space. *)
Definition blank_page : Soup :=
fun sel => if String.eqb sel "h1" then [mkTag ["  "] []] else [].

(** A page with two paragraphs and one heading. *)
Definition list_page : Soup :=
fun sel =>
  if String.eqb sel "p" then [mkTag [" A "] []; mkTag [""] []; mkTag ["B"] []]
  else if String.eqb sel "h1" then [mkTag ["Title"] []]
  else [].

Definition web (n : nat) (u : string) : option Soup :=
if String.eqb u "https://x.test/p1" then Some page1
else if String.eqb u "https://x.test/p2" then Some page2
else if String.eqb u "https://x.test/blank" then Some blank_page
else if String.eqb u "https://x.test/list" then Some list_page
else None.

Definition join (base href : string) : string := ("https://x.test" ++ href)%string.

(** A product page in a browser: two color swatches (1, 2), three size
    buttons (3, 4, 5), a title (10), two prices (11, 12), an empty note
    (20), no next button.  The state counts the clicks.  With [stale] a
    handle answers [StaleElementReferenceException] to [is_enabled], as after
    a reload; without it the page updates in place and no handle goes
    stale. *)
Definition shop_find (sel : string) : list elem :=
if String.eqb sel ".color" then [1; 2]%nat
else if String.eqb sel ".size" then [3; 4; 5]%nat
else if String.eqb sel "h1" then [10]%nat
else if String.eqb sel ".price" then [11; 12]%nat
else if String.eqb sel ".note" then [20]%nat
else if String.eqb sel READY then [10]%nat
else [].

Definition shop_text (e : elem) : string :=
if (e =? 1)%nat then "Red"
else if (e =? 2)%nat then " Blue "
else if (e =? 3)%nat then "S"
else if (e =? 4)%nat then "M"
else if (e =? 5)%nat then "L"
else if (e =? 10)%nat then "Shirt"
else if (e =? 11)%nat then "10 EUR"
else if (e =? 12)%nat then "12 EUR"
else "".

Definition shop (stale : bool) : Driver nat := {|
  launch := fun _ => Ok 0%nat;
  navigate := fun st _ => (st, None);
  find_elements := fun _ sel => Ok (shop_find sel);
  find_element := fun _ sel =>
    match shop_find sel with
    | e :: _ => Ok e
    | [] => Raise NoSuchElementException
    end;
  img_src := fun _ _ => Raise NoSuchElementException;
  text := fun _ e => Ok (shop_text e);
  is_enabled := fun _ _ =>
    if stale then Raise StaleElementReferenceException else Ok true;
  click := fun st _ => (S st, None);
  current_url := fun _ => "https://shop.test/p1";
  tick := fun st => st;
  polls := fun t => Z.to_nat (2 * t);
  quit := fun _ => None
|}.

(** A browser that opens but whose pages fail: with [nav_fails] the
    navigation raises, without it the ready marker never shows up. *)
Definition broken (nav_fails : bool) : Driver nat := {|
  launch := fun _ => Ok 0%nat;
  navigate := fun st _ =>
    (st, if nav_fails then Some WebDriverException else None);
  find_elements := fun _ _ => Ok [];
  find_element := fun _ _ => Raise NoSuchElementException;
  img_src := fun _ _ => Raise NoSuchElementException;
  text := fun _ _ => Raise StaleElementReferenceException;
  is_enabled := fun _ _ => Raise StaleElementReferenceException;
  click := fun st _ => (S st, None);
  current_url := fun _ => "https://down.test/";
  tick := fun st => st;
  polls := fun t => Z.to_nat (2 * t);
  quit := fun _ => None
|}.

(** The fields scraped from the shop page, with both variation triggers
    configured. *)
Definition shop_selectors : list (string * string) :=
[("title", "h1"); ("color_variation", ".color"); ("size_variation", ".size")].

(** The labels a variation record was seeded with. *)
Definition labels (r : record) : option value * option value :=
(dict_get "variation_color" r, dict_get "variation_size" r).

(** A sink that writes every sheet, and a stand-in for the derived sheet
    name. *)
Definition xlsx (sheet u : string) (data : scraped) : saving := Saved.
Definition host_name (u : string) (idx : nat) : string := "sheet".

(** A dynamic site that asks for a browser the code does not support. *)
Definition opera_site : site :=
mkSite (Some "https://shop.test/p1") (Some "dynamic") (Some [("title", "h1")])
  None None (Some "opera") None None (Some "shop").

(** The static site of the example of the specification. *)
Definition example_site : site :=
mkSite (Some "https://x.test/p1") (Some "static") (Some [("title", "h1")])
  (Some "a.next") (Some 2%Z) None None None (Some "example").

(** An API site without [json_path]. *)
Definition api_site : site :=
mkSite (Some "https://api.test/v1") (Some "api") (Some []) None None None None
  None (Some "api").

(** A site without [selectors], and one of a type the code does not know. *)
Definition bare_site : site :=
mkSite (Some "https://x.test/p1") (Some "static") None None None None None None None.
Definition ftp_site : site :=
mkSite (Some "ftp://x.test/") (Some "ftp") (Some []) None None None None None None.

(** A page with two images, the second without [src], and two size
    labels, the second blank. *)
Definition gallery_page : Soup :=
fun sel =>
  if String.eqb sel "img" then [mkTag [] [("src", "a.png")]; mkTag [] [("alt", "b")]]
  else if String.eqb sel ".size" then [mkTag ["S"] []; mkTag [" "] []]
  else [].

(** The shop fields with the color trigger only. *)
Definition color_only : list (string * string) :=
[("title", "h1"); ("color_variation", ".color")].

(** An API site with a key and a path. *)
Definition keyed_api_site : site :=
mkSite (Some "https://api.test/v1") (Some "api") (Some []) None None None
  (Some ["data"]) (Some "k") None.

(** A catalogue of two pages in a browser: the next button (30) leads
    from page 1 to page 2 and does nothing on page 2.  The state counts the
    clicks. *)
Definition pager : Driver nat := {|
  launch := fun _ => Ok 0%nat;
  navigate := fun st _ => (st, None);
  find_elements := fun _ sel => Ok (if String.eqb sel "h1" then [10%nat] else []);
  find_element := fun _ sel =>
    if String.eqb sel "a.next" then Ok 30%nat
    else if String.eqb sel READY then Ok 10%nat
    else Raise NoSuchElementException;
  img_src := fun _ _ => Raise NoSuchElementException;
  text := fun _ _ => Ok "Catalogue";
  is_enabled := fun _ _ => Ok true;
  click := fun st _ => (S st, None);
  current_url := fun st =>
    if (st =? 0)%nat then "https://shop.test/p1" else "https://shop.test/p2";
  tick := fun st => st;
  polls := fun t => Z.to_nat (2 * t);
  quit := fun _ => None
|}.

(** Text outside ASCII, as its UTF-8 bytes: the no-break space U+00A0, the
    em space U+2003 and the letter U+00E9. *)
Definition nbsp : string :=
String (ascii_of_nat 194) (String (ascii_of_nat 160) "").
Definition emsp : string :=
String (ascii_of_nat 226) (String (ascii_of_nat 128) (String (ascii_of_nat 131) "")).
Definition e_acute : string :=
String (ascii_of_nat 195) (String (ascii_of_nat 169) "").

(** A sink whose [to_excel] refuses the title of the sheet it has just
    added to the workbook. *)
Definition bad_title (sheet u : string) (data : scraped) : saving :=
SaveRaised ValueError true.

(** * Facts about the embedding *)

(** [strip] removes the white space outside ASCII too, at both ends and
    not inside; a heading that holds a no-break space only has no text;
    [[:2]] cuts after two characters, not after two bytes. *)
Lemma strip_unicode :
strip (nbsp ++ " a" ++ emsp ++ e_acute ++ " " ++ emsp)
= ("a" ++ emsp ++ e_acute)%string
/\ strip (nbsp ++ emsp) = ""
/\ static_value "title" [mkTag [nbsp] []] = VNone
/\ static_value "sizes" [mkTag [(nbsp ++ "S")%string] []; mkTag [nbsp] []]
   = VList [VStr "S"; VStr ""]
/\ take_chars 2 (e_acute ++ "t" ++ e_acute ++ "s") = (e_acute ++ "t")%string
/\ char_length (e_acute ++ "t" ++ e_acute ++ "s") = 4%nat.
Proof.
repeat split; reflexivity.
Qed.


Lemma count_app (p : event -> bool) (a b : list event) :
  count p (a ++ b) = (count p a + count p b)%nat.
Proof. unfold count. rewrite filter_app, length_app. reflexivity. Qed.

Lemma dict_get_set (k k' : string) (v : value) (d : record) :
  dict_get k (dict_set k' v d) =
  if String.eqb k' k then Some v else dict_get k d.
Proof.
  induction d as [|[k0 v0] d IH]; simpl.
  - reflexivity.
  - destruct (String.eqb k0 k') eqn:E0; simpl.
    + apply String.eqb_eq in E0. subst k0.
      destruct (String.eqb k' k); reflexivity.
    + destruct (String.eqb k0 k) eqn:E1.
      * apply String.eqb_eq in E1. subst k0.
        rewrite String.eqb_sym in E0. rewrite E0. reflexivity.
      * exact IH.
Qed.

(** ** The static walker *)

Section StaticFacts.
Variable http_get : nat -> string -> option Soup.
Variable urljoin : string -> string -> string.
Variable url : string.
Variable selectors : list (string * string).
Variable pagination_selector : option string.
Variable limit : Z.

Let body := static_body http_get urljoin url selectors pagination_selector.
Let loop := static_loop http_get urljoin url selectors pagination_selector limit.
Let cond := static_cond limit.

Lemma static_body_next (st st' : static_state) :
  body st = Next st' ->
  st_pages st' = (st_pages st + 1)%Z /\
  count is_http_get (st_trace st') = S (count is_http_get (st_trace st)).
Proof.
  unfold body, static_body.
  destruct (st_url st) as [cur|]; [|discriminate].
  destruct (http_get _ cur) as [soup|]; [|discriminate].
  destruct (static_extract selectors soup) as [data found].
  intros H. injection H as <-. simpl. split; [reflexivity|].
  rewrite count_app. unfold count. simpl. lia.
Qed.

Lemma static_body_break (st st' : static_state) :
  body st = Break st' ->
  (count is_http_get (st_trace st') <= S (count is_http_get (st_trace st)))%nat.
Proof.
  unfold body, static_body.
  destruct (st_url st) as [cur|].
  - destruct (http_get _ cur) as [soup|].
    + destruct (static_extract selectors soup); discriminate.
    + intros H. injection H as <-. simpl. rewrite count_app.
      unfold count. simpl. lia.
  - intros H. injection H as <-. lia.
Qed.

(** The loop ends: [limit - pages_scraped] turns are enough. *)
Lemma static_loop_total (fuel : nat) :
  forall st, (Z.to_nat (limit - st_pages st) <= fuel)%nat ->
             exists st', loop fuel st = Some st'.
Proof.
  induction fuel as [|fuel IH]; intros st Hf; simpl.
  - unfold loop. simpl. unfold static_cond.
    destruct (truthy_opt (st_url st)); simpl; [|eauto].
    destruct (Z.ltb_spec (st_pages st) limit) as [Hlt|Hge]; [lia|eauto].
  - unfold loop. simpl. fold loop. unfold static_cond.
    destruct (truthy_opt (st_url st)); simpl; [|eauto].
    destruct (Z.ltb_spec (st_pages st) limit) as [Hlt|Hge]; [|eauto].
    fold body. destruct (body st) as [st'|st'] eqn:Eb; [eauto|].
    apply static_body_next in Eb. destruct Eb as [Hp _].
    apply IH. rewrite Hp. lia.
Qed.

(** Each turn makes one request, and there are at most
    [limit - pages_scraped] turns. *)
Lemma static_loop_gets (fuel : nat) :
  forall st st', loop fuel st = Some st' ->
    (count is_http_get (st_trace st')
     <= count is_http_get (st_trace st) + Z.to_nat (limit - st_pages st))%nat.
Proof.
  induction fuel as [|fuel IH]; intros st st'; unfold loop; simpl; fold loop;
    unfold static_cond.
  - destruct (truthy_opt (st_url st)); simpl.
    + destruct (Z.ltb_spec (st_pages st) limit) as [Hlt|Hge]; [discriminate|].
      intros H. injection H as <-. lia.
    + intros H. injection H as <-. lia.
  - destruct (truthy_opt (st_url st)); simpl.
    + destruct (Z.ltb_spec (st_pages st) limit) as [Hlt|Hge].
      * fold body. destruct (body st) as [st1|st1] eqn:Eb.
        -- intros H. injection H as <-.
           apply static_body_break in Eb. lia.
        -- intros H. apply IH in H.
           apply static_body_next in Eb. destruct Eb as [Hp Hc].
           rewrite Hp, Hc in H. lia.
      * intros H. injection H as <-. lia.
    + intros H. injection H as <-. lia.
Qed.

(** After a turn that leaves no next URL, or that reaches [limit], the
    loop is over. *)
Lemma static_loop_stops (fuel : nat) (st st' : static_state) :
  cond st = true ->
  body st = Next st' ->
  st_url st' = None \/ (limit <= st_pages st + 1)%Z ->
  loop (S fuel) st = Some st'.
Proof.
  intros Hc Hb Hstop. unfold loop. simpl. fold cond. rewrite Hc.
  fold body. rewrite Hb.
  assert (Hc' : static_cond limit st' = false).
  { unfold static_cond. apply static_body_next in Hb. destruct Hb as [Hp _].
    destruct Hstop as [Hn|Hl].
    - rewrite Hn. reflexivity.
    - apply andb_false_iff. right. apply Z.ltb_ge. lia. }
  destruct fuel; simpl; rewrite Hc'; reflexivity.
Qed.

(** The next URL of a turn is what lines 71-78 find on the page. *)
Lemma static_body_url (st : static_state) (cur : string) (soup : Soup) :
  st_url st = Some cur ->
  http_get (Z.to_nat (st_pages st)) cur = Some soup ->
  exists st', body st = Next st' /\
              st_url st' = static_next urljoin url pagination_selector soup.
Proof.
  intros Hu Hg. unfold body, static_body. rewrite Hu, Hg.
  destruct (static_extract selectors soup) as [data found].
  eexists. split; reflexivity.
Qed.

Lemma static_next_none (soup : Soup) :
  (truthy_opt pagination_selector = false \/
   (exists sel, pagination_selector = Some sel /\
      (select_one soup sel = None \/
       exists t, select_one soup sel = Some t /\
                 truthy_opt (tag_get "href" t) = false))) ->
  static_next urljoin url pagination_selector soup = None.
Proof.
  unfold static_next. intros [H|[sel [E H]]].
  - rewrite H. reflexivity.
  - rewrite E. destruct (truthy_opt (Some sel)); [|reflexivity].
    destruct H as [H|[t [H1 H2]]].
    + rewrite H. reflexivity.
    + rewrite H1, H2. reflexivity.
Qed.
End StaticFacts.

(** ** The API fetcher *)

Lemma failed_attempts_gets (url : string) (k : nat) :
  forall a, count is_http_get (failed_attempts url a k) = k.
Proof.
  induction k as [|k IH]; intros a; [reflexivity|].
  simpl. unfold count in *. simpl. rewrite IH. reflexivity.
Qed.

Lemma failed_attempts_sleeps (url : string) (k : nat) :
  forall a, filter is_sleep (failed_attempts url a k) = repeat (EvSleep 2) k.
Proof.
  induction k as [|k IH]; intros a; [reflexivity|].
  simpl. rewrite IH. reflexivity.
Qed.

Ltac two_seconds :=
  simpl;
  repeat (apply Forall_cons;
          [simpl; first [discriminate | intros _; reflexivity]|]);
  apply Forall_nil.

Section ApiFacts.
Variable api_get : nat -> string -> headers -> res json.
Variable url : string.
Variable json_path : list string.
Variable hdrs : option headers.
Variable retries : Z.

Let try := api_try api_get url json_path hdrs.
Let attempts := api_attempts api_get url json_path hdrs retries.

(** [k] failing attempts, none of them the last, are each followed by the
    same sleep and by the next attempt. *)
Lemma api_attempts_failures (k : nat) :
  forall todo a trace,
    (a + Z.of_nat todo = retries)%Z ->
    (k < todo)%nat ->
    (forall i, (i < k)%nat -> try (a + Z.of_nat i)%Z = Raise RequestException) ->
    attempts todo a trace =
    attempts (todo - k)%nat (a + Z.of_nat k)%Z (trace ++ failed_attempts url a k).
Proof.
  induction k as [|k IH]; intros todo a trace Hsum Hk Hfail.
  - simpl. rewrite Nat.sub_0_r, Z.add_0_r, app_nil_r. reflexivity.
  - destruct todo as [|todo]; [lia|].
    unfold attempts. simpl. fold attempts. fold try.
    assert (H0 : try a = Raise RequestException).
    { specialize (Hfail 0%nat). rewrite Z.add_0_r in Hfail. apply Hfail. lia. }
    rewrite H0.
    destruct (Z.eqb_spec a (retries - 1)) as [E|E]; [lia|].
    rewrite (IH todo (a + 1)%Z); try lia.
    + f_equal; [lia|]. rewrite <- !app_assoc. reflexivity.
    + intros i Hi. replace (a + 1 + Z.of_nat i)%Z with (a + Z.of_nat (S i))%Z by lia.
      apply Hfail. lia.
Qed.

(** No turn of the loop makes more than one request. *)
Lemma api_attempts_gets (todo : nat) :
  forall a trace,
    (count is_http_get (snd (attempts todo a trace))
     <= count is_http_get trace + todo)%nat.
Proof.
  induction todo as [|todo IH]; intros a trace.
  - simpl. lia.
  - unfold attempts. simpl. fold attempts. fold try.
    destruct (try a) as [data|e].
    + simpl. rewrite count_app. unfold count. simpl. lia.
    + assert (Hother : (count is_http_get (trace ++ [EvHttpGet url])
                        <= count is_http_get trace + S todo)%nat).
      { rewrite count_app. unfold count. simpl. lia. }
      destruct e; simpl; try exact Hother.
      destruct (Z.eqb_spec a (retries - 1)) as [E|E]; simpl.
      * rewrite !count_app. unfold count. simpl. lia.
      * etransitivity; [apply IH|].
        rewrite !count_app. unfold count. simpl. lia.
Qed.

(** Every wait of the fetcher lasts two seconds. *)
Lemma api_attempts_sleeps (todo : nat) :
  forall a trace,
    Forall (fun e => is_sleep e = true -> e = EvSleep 2) trace ->
    Forall (fun e => is_sleep e = true -> e = EvSleep 2)
      (snd (attempts todo a trace)).
Proof.
  induction todo as [|todo IH]; intros a trace Ht.
  - exact Ht.
  - unfold attempts. simpl. fold attempts. fold try.
    assert (Hget : forall l,
               Forall (fun e => is_sleep e = true -> e = EvSleep 2) l ->
               Forall (fun e => is_sleep e = true -> e = EvSleep 2)
                 (trace ++ l)).
    { intros l Hl. apply Forall_app. split; assumption. }
    destruct (try a) as [data|e].
    + simpl. apply Hget. two_seconds.
    + destruct e; simpl; try (apply Hget; two_seconds).
      destruct (Z.eqb_spec a (retries - 1)) as [E|E]; simpl.
      * rewrite <- app_assoc. apply Hget. two_seconds.
      * apply IH. rewrite <- app_assoc. apply Hget. two_seconds.
Qed.
End ApiFacts.

(** ** Field extraction *)

Lemma static_field_get (soup : Soup) (acc : record * bool) (n s k : string) :
dict_get k (fst (static_field soup acc (n, s))) =
if String.eqb n k then Some (static_stored soup n s) else dict_get k (fst acc).
Proof.
destruct acc as [data found]. unfold static_field, static_stored.
destruct (truthy_list (soup s)); simpl; apply dict_get_set.
Qed.

Lemma static_fold_other (soup : Soup) (k : string) (l : list (string * string)) :
forall acc, ~ In k (map fst l) ->
            dict_get k (fst (fold_left (static_field soup) l acc)) = dict_get k (fst acc).
Proof.
induction l as [|[n s] l IH]; intros acc Hk; simpl; [reflexivity|].
simpl in Hk. rewrite IH by tauto. rewrite static_field_get.
destruct (String.eqb_spec n k); [tauto|reflexivity].
Qed.

(** With the keys of [selectors] distinct, as in a [dict], the record of a
    page holds under each field what lines 58-67 stored for it. *)
Lemma static_extract_get (soup : Soup) (selectors : list (string * string))
  (name sel : string) :
NoDup (map fst selectors) ->
In (name, sel) selectors ->
dict_get name (fst (static_extract selectors soup)) = Some (static_stored soup name sel).
Proof.
unfold static_extract. generalize (@nil (string * value), false).
induction selectors as [|[n s] l IH]; intros acc Hnd Hin; [contradiction|].
simpl in Hnd. inversion Hnd as [|? ? Hn Hl]; subst.
destruct Hin as [E|Hin]; simpl.
- injection E as -> ->. rewrite static_fold_other by assumption.
  rewrite static_field_get, String.eqb_refl. reflexivity.
- apply IH; assumption.
Qed.

Section DynamicExtractFacts.
Context {St : Type} {D : Driver St}.

Lemma dynamic_field_get (st : St) (warn : string -> logmsg)
  (acc : record * bool * list event) (n s k : string) :
str_in n ["color_variation"; "size_variation"] = false ->
dict_get k (fst (fst (dynamic_field st warn acc (n, s)))) =
if String.eqb n k then Some (dynamic_stored st n s) else dict_get k (fst (fst acc)).
Proof.
intros Hn. destruct acc as [[data found] log].
unfold dynamic_field, dynamic_stored. rewrite Hn.
destruct (find_elements st s) as [els|e]; simpl; [|apply dict_get_set].
destruct (truthy_list els); simpl; [|apply dict_get_set].
destruct (dynamic_value st n els); simpl; apply dict_get_set.
Qed.

Lemma dynamic_fold_other (st : St) (warn : string -> logmsg) (k : string)
  (l : list (string * string)) :
forall acc, ~ In k (map fst l) ->
            dict_get k (fst (fst (fold_left (dynamic_field st warn) l acc)))
            = dict_get k (fst (fst acc)).
Proof.
induction l as [|[n s] l IH]; intros acc Hk; simpl; [reflexivity|].
simpl in Hk. rewrite IH by tauto.
destruct (str_in n ["color_variation"; "size_variation"]) eqn:Hn.
- destruct acc as [[data found] log]. unfold dynamic_field. rewrite Hn. reflexivity.
- rewrite dynamic_field_get by assumption.
  destruct (String.eqb_spec n k); [tauto|reflexivity].
Qed.

(** The same for the dynamic records, base or variation, whatever the seed:
    a field that is not a variation trigger holds what lines 107-121
    stored. *)
Lemma dynamic_extract_get (st : St) (warn : string -> logmsg) (seed : record)
  (selectors : list (string * string)) (name sel : string) :
NoDup (map fst selectors) ->
In (name, sel) selectors ->
str_in name ["color_variation"; "size_variation"] = false ->
dict_get name (fst (fst (dynamic_extract selectors st warn seed)))
= Some (dynamic_stored st name sel).
Proof.
unfold dynamic_extract. generalize (seed, false, @nil event).
induction selectors as [|[n s] l IH]; intros acc Hnd Hin Hname; [contradiction|].
simpl in Hnd. inversion Hnd as [|? ? Hn Hl]; subst.
destruct Hin as [E|Hin]; simpl.
- injection E as -> ->. rewrite dynamic_fold_other by assumption.
  rewrite dynamic_field_get, String.eqb_refl by assumption. reflexivity.
- apply IH; assumption.
Qed.

Lemma dynamic_field_warn (st : St) (warn warn' : string -> logmsg)
  (acc acc' : record * bool * list event) (ns : string * string) :
fst acc = fst acc' ->
fst (dynamic_field st warn acc ns) = fst (dynamic_field st warn' acc' ns).
Proof.
destruct acc as [[data found] log], acc' as [[data' found'] log'], ns as [n s].
intros E. simpl in E. injection E as <- <-. unfold dynamic_field.
destruct (str_in n ["color_variation"; "size_variation"]); [reflexivity|].
destruct (find_elements st s) as [els|e]; [|reflexivity].
destruct (truthy_list els); [|reflexivity].
destruct (dynamic_value st n els); reflexivity.
Qed.

(** The record does not depend on the warning the [except] branch logs. *)
Lemma dynamic_extract_warn (st : St) (warn warn' : string -> logmsg)
  (seed : record) (selectors : list (string * string)) :
fst (dynamic_extract selectors st warn seed)
= fst (dynamic_extract selectors st warn' seed).
Proof.
unfold dynamic_extract.
assert (H : forall l acc acc', fst acc = fst acc' ->
            fst (fold_left (dynamic_field st warn) l acc)
            = fst (fold_left (dynamic_field st warn') l acc')).
{ induction l as [|x l IH]; intros acc acc' E; simpl; [exact E|].
  apply IH. apply dynamic_field_warn. exact E. }
apply H. reflexivity.
Qed.

Lemma dyn_texts_nonempty (st : St) (elements : list elem) (t : string)
  (rest : list string) :
dyn_texts st elements = Ok (t :: rest) -> truthy_list elements = true.
Proof.
destruct elements; [discriminate|reflexivity].
Qed.
End DynamicExtractFacts.

(** ** The dynamic walker *)

Lemma page_events_count (evs : list event) :
forallb page_event evs = true ->
count is_navigate evs = 0%nat /\ count is_quit evs = 0%nat.
Proof.
unfold count. induction evs as [|e evs IH]; simpl; [tauto|].
intros H. apply andb_prop in H. destruct H as [He Hevs].
destruct e; try discriminate; simpl; auto.
Qed.

Section DynamicFacts.
Context {St : Type} {D : Driver St}.
Variable url : string.
Variable selectors : list (string * string).
Variable pagination_selector : option string.
Variable limit : Z.

Lemma same_page_refl (w : dyn_state St) : same_page w w.
Proof.
repeat split. exists []. rewrite app_nil_r. split; reflexivity.
Qed.

Lemma same_page_trans (w1 w2 w3 : dyn_state St) :
same_page w1 w2 -> same_page w2 w3 -> same_page w1 w3.
Proof.
intros (Hu & Hp & e1 & Ht & He) (Hu' & Hp' & e2 & Ht' & He').
repeat split; try congruence.
exists (e1 ++ e2). rewrite Ht', Ht, app_assoc, forallb_app, He, He'.
split; reflexivity.
Qed.

Lemma same_page_set_browser (w : dyn_state St) (st : St) (evs : list event) :
forallb page_event evs = true -> same_page w (set_browser w st evs).
Proof.
intros H. repeat split. exists evs. split; [reflexivity|exact H].
Qed.

Lemma extract_log_page (st : St) (warn : string -> logmsg) (seed : record) :
forallb page_event (snd (dynamic_extract selectors st warn seed)) = true.
Proof.
unfold dynamic_extract.
assert (H : forall l acc, forallb page_event (snd acc) = true ->
            forallb page_event (snd (fold_left (dynamic_field st warn) l acc)) = true).
{ induction l as [|[n s] l IH]; intros acc Hacc; simpl; [exact Hacc|].
  apply IH. destruct acc as [[data found] log]. simpl in Hacc.
  unfold dynamic_field.
  destruct (str_in n ["color_variation"; "size_variation"]); [exact Hacc|].
  destruct (find_elements st s) as [els|e]; simpl.
  - destruct (truthy_list els); [|exact Hacc].
    destruct (dynamic_value st n els); simpl; [exact Hacc|].
    rewrite forallb_app, Hacc. reflexivity.
  - rewrite forallb_app, Hacc. reflexivity. }
apply H. reflexivity.
Qed.

Lemma same_page_add_result (w : dyn_state St) (found : bool) (r : record)
  (evs : list event) :
forallb page_event evs = true -> same_page w (add_result w found r evs).
Proof.
intros H. repeat split. exists evs. split; [reflexivity|exact H].
Qed.

Lemma same_page_trigger (el : option elem) (warn : logmsg) (w w' : dyn_state St)
  (ok : bool) :
trigger el warn w = (w', ok) -> same_page w w'.
Proof.
unfold trigger. destruct el as [e|].
- destruct (click_and_wait (dy_browser w) e) as [st1 [u|x]];
    intros H; injection H as <- _; apply same_page_set_browser; reflexivity.
- intros H. injection H as <- _. apply same_page_refl.
Qed.

Lemma same_page_size_loop (cur : string) (ci : nat) (c : option elem)
  (sizes : list (option elem)) :
forall si w w' r,
  size_loop selectors cur ci c si sizes w = (w', r) -> same_page w w'.
Proof.
induction sizes as [|s sizes IH]; intros si w w' r; simpl.
- intros H. injection H as <- _. apply same_page_refl.
- destruct (trigger s (ErrorClickingSize si cur) w) as [w1 ok] eqn:Et.
  apply same_page_trigger in Et.
  destruct ok.
  + destruct (label (dy_browser w1) c) as [vc|e].
    * destruct (label (dy_browser w1) s) as [vs|e].
      -- destruct (dynamic_extract _ _ _ _) as [[var_data found] log] eqn:Ex.
         intros H. apply IH in H.
         eapply same_page_trans; [exact Et|].
         eapply same_page_trans; [|exact H].
         apply same_page_add_result.
         pose proof (extract_log_page (dy_browser w1)
           (fun name => ErrorScrapingVariation name ci si cur)
           [("variation_color", VStr vc); ("variation_size", VStr vs)]) as Hl.
         rewrite Ex in Hl. exact Hl.
      -- intros H. injection H as <- _. exact Et.
    * intros H. injection H as <- _. exact Et.
  + intros H. apply IH in H. eapply same_page_trans; eassumption.
Qed.

Lemma same_page_color_loop (cur : string) (sizes colors : list (option elem)) :
forall ci w w' r,
  color_loop selectors cur sizes ci colors w = (w', r) -> same_page w w'.
Proof.
induction colors as [|c colors IH]; intros ci w w' r; simpl.
- intros H. injection H as <- _. apply same_page_refl.
- destruct (trigger c (ErrorClickingColor ci cur) w) as [w1 ok] eqn:Et.
  apply same_page_trigger in Et.
  destruct ok.
  + destruct (size_loop selectors cur ci c 0 sizes w1) as [w2 [e|]] eqn:Es;
      apply same_page_size_loop in Es.
    * intros H. injection H as <- _. eapply same_page_trans; eassumption.
    * intros H. apply IH in H.
      eapply same_page_trans; [exact Et|].
      eapply same_page_trans; eassumption.
  + intros H. apply IH in H. eapply same_page_trans; eassumption.
Qed.

Lemma same_page_variations (cur : string) (w w' : dyn_state St) (r : option exn) :
variations selectors cur w = (w', r) -> same_page w w'.
Proof.
unfold variations.
destruct (truthy_opt (assoc "color_variation" selectors)
          || truthy_opt (assoc "size_variation" selectors)).
- destruct (axis (dy_browser w) (assoc "color_variation" selectors)) as [cs|e].
  + destruct (axis (dy_browser w) (assoc "size_variation" selectors)) as [ss|e].
    * apply same_page_color_loop.
    * intros H. injection H as <- _. apply same_page_refl.
  + intros H. injection H as <- _. apply same_page_refl.
- intros H. injection H as <- _. apply same_page_refl.
Qed.
End DynamicFacts.

Section DynamicLoopFacts.
Context {St : Type} {D : Driver St}.
Variable selectors : list (string * string).
Variable pagination_selector : option string.
Variable limit : Z.

Let body := dynamic_body (St := St) selectors pagination_selector.
Let loop := dynamic_loop (St := St) selectors pagination_selector limit.

Lemma same_page_counts (w w' : dyn_state St) :
same_page w w' ->
count is_navigate (dy_trace w') = count is_navigate (dy_trace w) /\
count is_quit (dy_trace w') = count is_quit (dy_trace w).
Proof.
intros (_ & _ & evs & -> & Hevs). apply page_events_count in Hevs.
rewrite !count_app. lia.
Qed.

Lemma paginate_events (cur : string) (st : St) :
forallb page_event (snd (paginate pagination_selector cur st)) = true.
Proof.
unfold paginate. destruct (truthy_opt pagination_selector); [|reflexivity].
destruct pagination_selector as [sel|]; [|reflexivity].
destruct (find_element st sel) as [btn|e]; [|reflexivity].
destruct (click st btn) as [st1 [e|]]; [reflexivity|].
destruct (until (polls 5) (url_changes cur) st1) as [st2 [u|e]]; reflexivity.
Qed.

(** One turn navigates once and never quits. *)
Lemma dynamic_body_counts (w : dyn_state St) :
(count is_navigate (dy_trace (dstep_state (body w)))
 <= S (count is_navigate (dy_trace w)))%nat /\
count is_quit (dy_trace (dstep_state (body w))) = count is_quit (dy_trace w).
Proof.
unfold body, dynamic_body.
destruct (dy_url w) as [cur|]; [|simpl; lia].
destruct (navigate (dy_browser w) cur) as [st1 [e|]].
{ simpl. rewrite !count_app. unfold count. simpl. lia. }
destruct (until (polls 10) (presence_of_element_located READY) st1) as [st2 [u|e]].
2:{ simpl. rewrite !count_app. unfold count. simpl. lia. }
destruct (base_extract selectors cur st2) as [[base found] log] eqn:Eb.
assert (Hlog : forallb page_event log = true).
{ pose proof (extract_log_page selectors st2 (fun name => ErrorScraping name cur) [])
    as H. unfold base_extract in Eb. rewrite Eb in H. exact H. }
apply page_events_count in Hlog.
destruct (variations selectors cur _) as [w3 r] eqn:Ev.
apply same_page_variations, same_page_counts in Ev. simpl in Ev.
rewrite !count_app in Ev.
assert (H1 : count is_navigate [EvNavigate cur] = 1%nat) by reflexivity.
assert (H2 : count is_quit [EvNavigate cur] = 0%nat) by reflexivity.
assert (H3 : count is_navigate (@nil event) = 0%nat) by reflexivity.
assert (H4 : count is_quit (@nil event) = 0%nat) by reflexivity.
destruct r as [e|]; [simpl; lia|].
destruct (paginate pagination_selector cur (dy_browser w3)) as [[st4 next] evs] eqn:Ep.
pose proof (paginate_events cur (dy_browser w3)) as Hp. rewrite Ep in Hp.
apply page_events_count in Hp. simpl in Hp.
simpl. rewrite !count_app.
assert (H5 : forall n, count is_navigate [EvLog INFO (ScrapedDynamicPage n next)] = 0%nat)
  by reflexivity.
assert (H6 : forall n, count is_quit [EvLog INFO (ScrapedDynamicPage n next)] = 0%nat)
  by reflexivity.
rewrite H5, H6. lia.
Qed.

Lemma dynamic_body_pages (w w' : dyn_state St) :
body w = DNext w' -> dy_pages w' = (dy_pages w + 1)%Z.
Proof.
unfold body, dynamic_body.
destruct (dy_url w) as [cur|]; [|discriminate].
destruct (navigate (dy_browser w) cur) as [st1 [e|]]; [discriminate|].
destruct (until (polls 10) (presence_of_element_located READY) st1) as [st2 [u|e]];
  [|discriminate].
destruct (base_extract selectors cur st2) as [[base found] log].
destruct (variations selectors cur _) as [w3 r] eqn:Ev.
apply same_page_variations in Ev. destruct Ev as (_ & Hp & _). simpl in Hp.
destruct r as [e|]; [discriminate|].
destruct (paginate pagination_selector cur (dy_browser w3)) as [[st4 next] evs].
intros H. injection H as <-. simpl. rewrite Hp. reflexivity.
Qed.

(** The loop ends: [limit - pages_scraped] turns are enough. *)
Lemma dynamic_loop_total (fuel : nat) :
forall w, (Z.to_nat (limit - dy_pages w) <= fuel)%nat ->
          exists out, loop fuel w = Some out.
Proof.
induction fuel as [|fuel IH]; intros w Hf; unfold loop; simpl; fold loop;
  unfold dynamic_cond.
- destruct (truthy_opt (dy_url w)); simpl; [|eauto].
  destruct (Z.ltb_spec (dy_pages w) limit) as [Hlt|Hge]; [lia|eauto].
- destruct (truthy_opt (dy_url w)); simpl; [|eauto].
  destruct (Z.ltb_spec (dy_pages w) limit) as [Hlt|Hge]; [|eauto].
  fold body. destruct (body w) as [w'|w'|w' e] eqn:Eb; eauto.
  apply dynamic_body_pages in Eb. apply IH. rewrite Eb. lia.
Qed.

(** At most [limit - pages_scraped] further navigations, and no quit,
    whichever way the loop is left. *)
Lemma dynamic_loop_counts (fuel : nat) :
forall w w' r, loop fuel w = Some (w', r) ->
  (count is_navigate (dy_trace w')
   <= count is_navigate (dy_trace w) + Z.to_nat (limit - dy_pages w))%nat /\
  count is_quit (dy_trace w') = count is_quit (dy_trace w).
Proof.
induction fuel as [|fuel IH]; intros w w' r; unfold loop; simpl; fold loop;
  unfold dynamic_cond.
- destruct (truthy_opt (dy_url w)); simpl.
  + destruct (Z.ltb_spec (dy_pages w) limit) as [Hlt|Hge]; [discriminate|].
    intros H. injection H as <- _. lia.
  + intros H. injection H as <- _. lia.
- destruct (truthy_opt (dy_url w)); simpl.
  + destruct (Z.ltb_spec (dy_pages w) limit) as [Hlt|Hge].
    * fold body. pose proof (dynamic_body_counts w) as [Hn Hq].
      fold body in Hn, Hq.
      destruct (body w) as [w1|w1|w1 e] eqn:Eb; simpl in Hn, Hq.
      -- intros H. injection H as <- _. lia.
      -- intros H. apply IH in H. apply dynamic_body_pages in Eb.
         rewrite Eb in H. lia.
      -- intros H. injection H as <- _. lia.
    * intros H. injection H as <- _. lia.
  + intros H. injection H as <- _. lia.
Qed.

(** After a turn that leaves no next URL, or that reaches [limit], the
    loop is over. *)
Lemma dynamic_loop_stops (fuel : nat) (w w' : dyn_state St) :
dynamic_cond limit w = true ->
body w = DNext w' ->
dy_url w' = None \/ (limit <= dy_pages w + 1)%Z ->
loop (S fuel) w = Some (w', None).
Proof.
intros Hc Hb Hstop. unfold loop. simpl. rewrite Hc. fold body. rewrite Hb.
assert (Hc' : dynamic_cond limit w' = false).
{ unfold dynamic_cond. apply dynamic_body_pages in Hb.
  destruct Hstop as [Hn|Hl].
  - rewrite Hn. reflexivity.
  - apply andb_false_iff. right. apply Z.ltb_ge. lia. }
destruct fuel; simpl; rewrite Hc'; reflexivity.
Qed.

Lemma paginate_none (cur : string) (st : St) :
(truthy_opt pagination_selector = false \/
 exists sel e, pagination_selector = Some sel /\ find_element st sel = Raise e) ->
snd (fst (paginate pagination_selector cur st)) = None.
Proof.
unfold paginate. intros [H|(sel & e & E & H)].
- rewrite H. reflexivity.
- rewrite E. destruct (truthy_opt (Some sel)); [|reflexivity].
  rewrite H. reflexivity.
Qed.

(** The next URL of a turn is what lines 177-187 obtain. *)
Lemma dynamic_body_url (w w' : dyn_state St) :
body w = DNext w' ->
exists cur st, dy_url w = Some cur /\
               dy_url w' = snd (fst (paginate pagination_selector cur st)).
Proof.
unfold body, dynamic_body.
destruct (dy_url w) as [cur|]; [|discriminate].
destruct (navigate (dy_browser w) cur) as [st1 [e|]]; [discriminate|].
destruct (until (polls 10) (presence_of_element_located READY) st1) as [st2 [u|e]];
  [|discriminate].
destruct (base_extract selectors cur st2) as [[base found] log].
destruct (variations selectors cur _) as [w3 [e|]]; [discriminate|].
destruct (paginate pagination_selector cur (dy_browser w3)) as [[st4 next] evs] eqn:Ep.
intros H. injection H as <-. exists cur, (dy_browser w3). rewrite Ep. split; reflexivity.
Qed.

Lemma get_driver_no_quit (browser : string) :
count is_quit (snd (get_driver (St := St) browser)) = 0%nat /\
count is_navigate (snd (get_driver (St := St) browser)) = 0%nat.
Proof.
unfold get_driver.
destruct (String.eqb (lower browser) "chrome"); simpl.
{ destruct (launch "chrome"); split; reflexivity. }
destruct (String.eqb (lower browser) "firefox"); simpl.
{ destruct (launch "firefox"); split; reflexivity. }
destruct (String.eqb (lower browser) "safari"); simpl.
{ destruct (launch "safari"); split; reflexivity. }
split; reflexivity.
Qed.
End DynamicLoopFacts.

(** ** The variation enumeration *)

Section Enumeration.
Context {St : Type} {D : Driver St}.
Variable selectors : list (string * string).
Variable cur : string.

Lemma after_until (s0 : St) (cond : St -> res bool) (extra : nat) :
forall st, after s0 st -> after s0 (fst (until extra cond st)).
Proof.
induction extra as [|extra IH]; intros st Hst; simpl.
- destruct (cond st) as [[|]|e]; simpl; try exact Hst.
  destruct e; exact Hst.
- destruct (cond st) as [[|]|e]; simpl; try exact Hst.
  + apply IH. constructor. exact Hst.
  + destruct e; simpl; try exact Hst. apply IH. constructor. exact Hst.
Qed.

Lemma after_click_and_wait (s0 st : St) (el : elem) :
after s0 st -> after s0 (fst (click_and_wait st el)).
Proof.
intros Hst. unfold click_and_wait.
pose proof (after_click s0 st el Hst) as Hc.
destruct (click st el) as [st1 [e|]]; simpl in *; [exact Hc|].
apply after_until. exact Hc.
Qed.

Variable s0 : St.
Variables colors sizes : list elem.

(** No trigger fails. *)
Hypothesis clicks_ok :
  forall st el, after s0 st -> In el (colors ++ sizes) ->
                snd (click_and_wait st el) = Ok tt.
(** No label read fails. *)
Hypothesis texts_ok :
  forall st el, after s0 st -> In el (colors ++ sizes) ->
                exists t, text st el = Ok t.
(** Data is found on every combination. *)
Hypothesis data_found :
  forall st warn seed, after s0 st ->
                       snd (fst (dynamic_extract selectors st warn seed)) = true.

Lemma trigger_ok (el : elem) (warn : logmsg) (w : dyn_state St) :
after s0 (dy_browser w) -> In el (colors ++ sizes) ->
exists w1, trigger (Some el) warn w = (w1, true) /\
           after s0 (dy_browser w1) /\ dy_results w1 = dy_results w.
Proof.
intros Hw Hel. unfold trigger.
pose proof (clicks_ok _ el Hw Hel) as Hc.
pose proof (after_click_and_wait s0 _ el Hw) as Ha.
destruct (click_and_wait (dy_browser w) el) as [st1 r]. simpl in *. subst r.
eexists. split; [reflexivity|]. split; [exact Ha|reflexivity].
Qed.

Lemma size_loop_all (ci : nat) (c : elem) (Hc : In c colors) :
forall sizes' si w,
  incl sizes' sizes -> after s0 (dy_browser w) ->
  exists w' vs,
    size_loop selectors cur ci (Some c) si (map Some sizes') w = (w', None) /\
    after s0 (dy_browser w') /\
    dy_results w' = dy_results w ++ vs /\
    Forall2 (seeded_from selectors cur s0) vs (map (pair c) sizes').
Proof.
induction sizes' as [|s sizes' IH]; intros si w Hincl Hw.
- exists w, []. simpl. rewrite app_nil_r. repeat split; auto.
- assert (Hs : In s (colors ++ sizes)).
  { apply in_or_app. right. apply Hincl. left. reflexivity. }
  assert (Hc' : In c (colors ++ sizes)) by (apply in_or_app; left; exact Hc).
  destruct (trigger_ok s (ErrorClickingSize si cur) w Hw Hs) as (w1 & Et & H1 & R1).
  destruct (texts_ok _ c H1 Hc') as [tc Htc].
  destruct (texts_ok _ s H1 Hs) as [ts Hts].
  cbn [size_loop map]. rewrite Et. unfold label. rewrite Htc, Hts.
  pose proof (data_found (dy_browser w1)
    (fun name => ErrorScrapingVariation name ci si cur)
    [("variation_color", VStr (strip tc)); ("variation_size", VStr (strip ts))] H1)
    as Hf.
  pose proof (dynamic_extract_warn (dy_browser w1)
    (fun name => ErrorScrapingVariation name ci si cur)
    (fun name => ErrorScraping name cur)
    [("variation_color", VStr (strip tc)); ("variation_size", VStr (strip ts))]
    selectors) as Hwarn.
  destruct (dynamic_extract selectors (dy_browser w1) _ _) as [[var_data found] log].
  simpl in Hf. subst found.
  destruct (IH (S si) (add_result w1 true var_data log)) as (w' & vs & El & H' & R' & F').
  { intros x Hx. apply Hincl. right. exact Hx. }
  { exact H1. }
  exists w', (var_data :: vs). split; [exact El|]. split; [exact H'|]. split.
  + rewrite R'. simpl. rewrite R1, <- app_assoc. reflexivity.
  + constructor; [|exact F'].
    exists (dy_browser w1), tc, ts. simpl. repeat split; try assumption.
    unfold var_record. rewrite <- Hwarn. reflexivity.
Qed.

Lemma color_loop_all :
forall colors' ci w,
  incl colors' colors -> after s0 (dy_browser w) ->
  exists w' vs,
    color_loop selectors cur (map Some sizes) ci (map Some colors') w = (w', None) /\
    after s0 (dy_browser w') /\
    dy_results w' = dy_results w ++ vs /\
    Forall2 (seeded_from selectors cur s0) vs (list_prod colors' sizes).
Proof.
induction colors' as [|c colors' IH]; intros ci w Hincl Hw.
- exists w, []. simpl. rewrite app_nil_r. repeat split; auto.
- assert (Hc : In c colors) by (apply Hincl; left; reflexivity).
  assert (Hc' : In c (colors ++ sizes)) by (apply in_or_app; left; exact Hc).
  destruct (trigger_ok c (ErrorClickingColor ci cur) w Hw Hc') as (w1 & Et & H1 & R1).
  destruct (size_loop_all ci c Hc sizes 0%nat w1 (incl_refl _) H1)
    as (w2 & vs & Es & H2 & R2 & F2).
  destruct (IH (S ci) w2) as (w3 & vs' & Ec & H3 & R3 & F3).
  { intros x Hx. apply Hincl. right. exact Hx. }
  { exact H2. }
  exists w3, (vs ++ vs'). cbn [color_loop map list_prod]. rewrite Et, Es.
  split; [exact Ec|].
  split; [exact H3|]. split.
  + rewrite R3, R2, R1, app_assoc. reflexivity.
  + apply Forall2_app; assumption.
Qed.
End Enumeration.

(** * Properties of the scraper *)

(** C6: the API fetcher makes at most [retries] requests; every wait
    between two attempts lasts the same two seconds; when the first [k]
    attempts fail and attempt [k] succeeds it returns that result at once,
    after [k + 1] requests and [k] waits; when all [retries] attempts fail
    it returns [None] after [retries] requests and [retries - 1] waits. *)
Theorem C6_api_retries (api_get : nat -> string -> headers -> res json)
  (url : string) (json_path : list string) (hdrs : option headers) (retries : Z) :
(count is_http_get (snd (scrape_api api_get url json_path hdrs retries))
 <= Z.to_nat retries)%nat
/\ Forall (fun e => is_sleep e = true -> e = EvSleep 2)
     (snd (scrape_api api_get url json_path hdrs retries))
/\ (forall (k : nat) (data : json),
      (k < Z.to_nat retries)%nat ->
      (forall i, (i < k)%nat ->
         api_try api_get url json_path hdrs (Z.of_nat i) = Raise RequestException) ->
      api_try api_get url json_path hdrs (Z.of_nat k) = Ok data ->
      scrape_api api_get url json_path hdrs retries =
      (Ok data,
       failed_attempts url 0 k ++ [EvHttpGet url; EvLog INFO (ApiSuccess url)]))
/\ ((0 < retries)%Z ->
    (forall i, (i < Z.to_nat retries)%nat ->
       api_try api_get url json_path hdrs (Z.of_nat i) = Raise RequestException) ->
    scrape_api api_get url json_path hdrs retries =
    (Ok JNull,
     failed_attempts url 0 (Z.to_nat retries - 1)
     ++ [EvHttpGet url; EvLog WARNING (ApiAttemptFailed retries url);
         EvLog ERROR (ApiFailedAfter retries url)])).
Proof.
unfold scrape_api. split; [|split; [|split]].
- pose proof (api_attempts_gets api_get url json_path hdrs retries
                (Z.to_nat retries) 0 []) as H.
  exact H.
- apply api_attempts_sleeps. constructor.
- intros k data Hk Hfail Hok.
  rewrite (api_attempts_failures api_get url json_path hdrs retries k); try lia.
  + destruct (Z.to_nat retries - k)%nat as [|m] eqn:Em; [lia|].
    simpl. rewrite Hok. reflexivity.
  + intros i Hi. apply Hfail. exact Hi.
- intros Hpos Hfail.
  rewrite (api_attempts_failures api_get url json_path hdrs retries
             (Z.to_nat retries - 1)); try lia.
  + replace (Z.to_nat retries - (Z.to_nat retries - 1))%nat with 1%nat by lia.
    simpl.
    replace (Z.of_nat (Z.to_nat retries - 1)) with (retries - 1)%Z by lia.
    replace (retries - 1)%Z with (Z.of_nat (Z.to_nat retries - 1)) at 1 by lia.
    rewrite Hfail by lia.
    rewrite Z.eqb_refl. simpl.
    replace (retries - 1 + 1)%Z with retries by lia.
    rewrite <- app_assoc. reflexivity.
  + intros i Hi. apply Hfail. lia.
Qed.

(** The flaky endpoint with three tries: two failures, two waits, then the
    items; the dead endpoint: three requests, two waits, [None]. *)
Lemma C6_api_retries_witness :
scrape_api flaky_api "https://api.test/v1" ["data"; "items"] None 3 =
(Ok (JList [JNum 1; JNum 2]),
 failed_attempts "https://api.test/v1" 0 2
 ++ [EvHttpGet "https://api.test/v1"; EvLog INFO (ApiSuccess "https://api.test/v1")])
/\ scrape_api dead_api "https://api.test/v1" [] None 3 =
   (Ok JNull,
    failed_attempts "https://api.test/v1" 0 2
    ++ [EvHttpGet "https://api.test/v1";
        EvLog WARNING (ApiAttemptFailed 3 "https://api.test/v1");
        EvLog ERROR (ApiFailedAfter 3 "https://api.test/v1")]).
Proof.
split.
- apply (proj1 (proj2 (proj2
    (C6_api_retries flaky_api "https://api.test/v1" ["data"; "items"] None 3)))
    2%nat).
  + simpl. lia.
  + intros i Hi. destruct i as [|[|i]]; [reflexivity|reflexivity|lia].
  + reflexivity.
- apply (proj2 (proj2 (proj2
    (C6_api_retries dead_api "https://api.test/v1" [] None 3)))).
  + lia.
  + intros i Hi. reflexivity.
Defined.

(** C9: with [retries] zero or negative the fetcher returns [None] and
    does nothing else: no request, no wait, no log line. *)
Theorem C9_api_no_retries (api_get : nat -> string -> headers -> res json)
  (url : string) (json_path : list string) (hdrs : option headers) (retries : Z) :
(retries <= 0)%Z ->
scrape_api api_get url json_path hdrs retries = (Ok JNull, []).
Proof.
intros H. unfold scrape_api.
replace (Z.to_nat retries) with 0%nat by lia. reflexivity.
Qed.

Lemma C9_api_no_retries_witness :
scrape_api flaky_api "https://api.test/v1" ["data"] None 0 = (Ok JNull, [])
/\ scrape_api flaky_api "https://api.test/v1" ["data"] None (-2) = (Ok JNull, []).
Proof.
split; apply C9_api_no_retries; lia.
Defined.

(** C7: both walkers end within [limit] turns and fetch at most [limit]
    pages; a turn that reaches [limit] is the last one even when it found a
    next URL; a turn that found no next link or trigger, or ran without a
    pagination selector, leaves no next URL and is the last one. *)
Theorem C7_page_limit {St : Type} {D : Driver St}
  (http_get : nat -> string -> option Soup) (urljoin : string -> string -> string)
  (url : string) (selectors : list (string * string))
  (pagination_selector : option string) (limit : Z) (browser : string) :
(* the static walker *)
((exists st,
    static_loop http_get urljoin url selectors pagination_selector limit
      (Z.to_nat limit) (static_init url) = Some st)
 /\ (count is_http_get
       (snd (scrape_static http_get urljoin url selectors pagination_selector limit))
     <= Z.to_nat limit)%nat
 /\ (forall fuel st st',
       static_cond limit st = true ->
       static_body http_get urljoin url selectors pagination_selector st = Next st' ->
       st_url st' = None \/ (limit <= st_pages st + 1)%Z ->
       static_loop http_get urljoin url selectors pagination_selector limit
         (S fuel) st = Some st')
 /\ (forall st cur soup,
       st_url st = Some cur ->
       http_get (Z.to_nat (st_pages st)) cur = Some soup ->
       (truthy_opt pagination_selector = false \/
        (exists sel, pagination_selector = Some sel /\
           (select_one soup sel = None \/
            exists t, select_one soup sel = Some t /\
                      truthy_opt (tag_get "href" t) = false))) ->
       exists st',
         static_body http_get urljoin url selectors pagination_selector st = Next st'
         /\ st_url st' = None))
(* the dynamic walker *)
/\ ((forall w, dy_pages w = 0%Z ->
       exists out,
         dynamic_loop selectors pagination_selector limit (Z.to_nat limit) w
         = Some out)
    /\ (count is_navigate
          (snd (scrape_dynamic url selectors pagination_selector limit browser))
        <= Z.to_nat limit)%nat
    /\ (forall fuel w w',
          dynamic_cond limit w = true ->
          dynamic_body selectors pagination_selector w = DNext w' ->
          dy_url w' = None \/ (limit <= dy_pages w + 1)%Z ->
          dynamic_loop selectors pagination_selector limit (S fuel) w
          = Some (w', None))
    /\ (forall w w',
          dynamic_body selectors pagination_selector w = DNext w' ->
          exists cur st,
            dy_url w = Some cur /\
            dy_url w' = snd (fst (paginate pagination_selector cur st)) /\
            ((truthy_opt pagination_selector = false \/
              exists sel e, pagination_selector = Some sel /\
                            find_element st sel = Raise e) ->
             dy_url w' = None))).
Proof.
split; [split; [|split; [|split]]|split; [|split; [|split]]].
- apply static_loop_total. simpl. lia.
- unfold scrape_static.
  destruct (static_loop _ _ _ _ _ _ _ _) as [st|] eqn:E; [|simpl; unfold count; simpl; lia].
  apply static_loop_gets in E. simpl in *.
  replace (limit - 0)%Z with limit in E by lia. exact E.
- intros fuel st st'. apply static_loop_stops.
- intros st cur soup Hu Hg Hnone.
  destruct (static_body_url http_get urljoin url selectors pagination_selector
              st cur soup Hu Hg) as (st' & Hb & Hn).
  exists st'. split; [exact Hb|]. rewrite Hn. apply static_next_none. exact Hnone.
- intros w Hw. apply dynamic_loop_total. rewrite Hw. lia.
- unfold scrape_dynamic.
  pose proof (get_driver_no_quit (St := St) browser) as [_ Hn].
  destruct (get_driver browser) as [[d|e] log]; simpl in Hn; [|simpl; lia].
  destruct (dynamic_loop _ _ _ _ _) as [[w r]|] eqn:E; [|simpl; lia].
  apply dynamic_loop_counts in E. simpl in E. destruct E as [E _].
  replace (limit - 0)%Z with limit in E by lia.
  unfold dynamic_finally.
  assert (Hq : count is_navigate (dy_trace w ++ [EvQuit])
               = count is_navigate (dy_trace w)).
  { rewrite count_app. unfold count. simpl. lia. }
  destruct (quit (dy_browser w)); [simpl; lia|].
  destruct r; simpl; lia.
- intros fuel w w'. apply dynamic_loop_stops.
- intros w w' Hb.
  destruct (dynamic_body_url selectors pagination_selector w w' Hb)
    as (cur & st & Hu & Hn).
  exists cur, st. split; [exact Hu|]. split; [exact Hn|].
  intros Hnone. rewrite Hn. apply paginate_none. exact Hnone.
Qed.

(** With [limit = 1] the static walker stops after page 1 of the example
    although that page has a next link, which the turn resolved. *)
Lemma C7_page_limit_witness :
exists st',
  static_loop web join "https://x.test/p1" [("title", "h1")] (Some "a.next") 1
    1 (static_init "https://x.test/p1") = Some st'
  /\ st_url st' = Some "https://x.test/p2"
  /\ st_results st' = [[("title", VStr "A")]].
Proof.
eexists. split.
- apply (proj1 (proj2 (proj2 (proj1
    (@C7_page_limit nat (shop true) web join "https://x.test/p1"
       [("title", "h1")] (Some "a.next") 1 "chrome"))))
    0%nat (static_init "https://x.test/p1")).
  + reflexivity.
  + reflexivity.
  + right. simpl. lia.
- split; reflexivity.
Defined.

(** C8: once [get_driver] has returned a session, the page loop ends, and
    however it ends (condition false, [break], or exception [pending])
    [driver.quit()] is the next and last event of the call, and the only
    quit; the call then returns the results or re-raises [pending]. *)
Theorem C8_session_released {St : Type} {D : Driver St}
  (url : string) (selectors : list (string * string))
  (pagination_selector : option string) (limit : Z) (browser : string)
  (driver : St) (log : list event) :
get_driver browser = (Ok driver, log) ->
exists w pending,
  dynamic_loop selectors pagination_selector limit (Z.to_nat limit)
    (mkDyn driver (Some url) 0 [] log) = Some (w, pending)
  /\ snd (scrape_dynamic url selectors pagination_selector limit browser)
     = dy_trace w ++ [EvQuit]
  /\ count is_quit (dy_trace w) = 0%nat
  /\ (quit (dy_browser w) = None ->
      fst (scrape_dynamic url selectors pagination_selector limit browser)
      = match pending with
        | Some e => Raise e
        | None => Ok (dy_results w)
        end).
Proof.
intros Hg.
destruct (dynamic_loop_total selectors pagination_selector limit (Z.to_nat limit)
            (mkDyn driver (Some url) 0 [] log)) as [[w pending] Hl].
{ simpl. lia. }
exists w, pending. split; [exact Hl|].
pose proof (get_driver_no_quit (St := St) browser) as [Hq _].
rewrite Hg in Hq. simpl in Hq.
pose proof (dynamic_loop_counts selectors pagination_selector limit _ _ _ _ Hl)
  as [_ Hc].
simpl in Hc.
unfold scrape_dynamic. rewrite Hg, Hl. unfold dynamic_finally.
split; [|split].
- destruct (quit (dy_browser w)); [reflexivity|]. destruct pending; reflexivity.
- lia.
- intros Hquit. rewrite Hquit. destruct pending; reflexivity.
Qed.

(** The three ways out, each ending in the quit: the shop page is walked
    to the end; the marker never shows up and the loop breaks; the
    navigation raises. *)
Lemma C8_session_released_witness :
(exists tr rs,
   @scrape_dynamic nat (shop true) "https://shop.test/p1" [("title", "h1")]
     None 5 "chrome" = (Ok rs, tr ++ [EvQuit]))
/\ (exists tr,
      @scrape_dynamic nat (broken false) "https://down.test/" [("title", "h1")]
        None 5 "Firefox" = (Ok [], tr ++ [EvQuit]))
/\ (exists tr,
      @scrape_dynamic nat (broken true) "https://down.test/" [("title", "h1")]
        None 5 "chrome" = (Raise WebDriverException, tr ++ [EvQuit])).
Proof.
split; [|split].
- destruct (@C8_session_released nat (shop true) "https://shop.test/p1"
              [("title", "h1")] None 5 "chrome" 0%nat [EvLaunch "chrome"] eq_refl)
    as (w & pending & Hl & Ht & _ & Hr).
  vm_compute in Hl. injection Hl as <- <-.
  eexists. eexists. apply injective_projections; [apply Hr; reflexivity|exact Ht].
- destruct (@C8_session_released nat (broken false) "https://down.test/"
              [("title", "h1")] None 5 "Firefox" 0%nat [EvLaunch "firefox"] eq_refl)
    as (w & pending & Hl & Ht & _ & Hr).
  vm_compute in Hl. injection Hl as <- <-.
  eexists. apply injective_projections; [apply Hr; reflexivity|exact Ht].
- destruct (@C8_session_released nat (broken true) "https://down.test/"
              [("title", "h1")] None 5 "chrome" 0%nat [EvLaunch "chrome"] eq_refl)
    as (w & pending & Hl & Ht & _ & Hr).
  vm_compute in Hl. injection Hl as <- <-.
  eexists. apply injective_projections; [apply Hr; reflexivity|exact Ht].
Defined.

(** C5: on a page that loads, whose color selector matches [colors] and
    whose size selector matches [sizes], with no click, wait or label read
    failing and data found on every page state the enumeration passes
    through, the turn appends the base record and then one variation record
    per pair of [list_prod colors sizes], in that order (color-major,
    size-minor, both in the order of the matched elements): [m * n] of
    them. *)
Theorem C5_variation_order {St : Type} {D : Driver St}
  (selectors : list (string * string)) (pagination_selector : option string)
  (w : dyn_state St) (cur : string) (st1 st2 : St) (csel ssel : string)
  (colors sizes : list elem) :
dy_url w = Some cur ->
navigate (dy_browser w) cur = (st1, None) ->
until (polls 10) (presence_of_element_located READY) st1 = (st2, Ok tt) ->
assoc "color_variation" selectors = Some csel -> truthy_str csel = true ->
assoc "size_variation" selectors = Some ssel -> truthy_str ssel = true ->
find_elements st2 csel = Ok colors ->
find_elements st2 ssel = Ok sizes ->
(forall st el, after st2 st -> In el (colors ++ sizes) ->
               snd (click_and_wait st el) = Ok tt) ->
(forall st el, after st2 st -> In el (colors ++ sizes) ->
               exists t, text st el = Ok t) ->
(forall st warn seed, after st2 st ->
                      snd (fst (dynamic_extract selectors st warn seed)) = true) ->
exists w' vars,
  dynamic_body selectors pagination_selector w = DNext w'
  /\ dy_results w'
     = dy_results w ++ fst (fst (base_extract selectors cur st2)) :: vars
  /\ List.length vars = (List.length colors * List.length sizes)%nat
  /\ Forall2 (seeded_from selectors cur st2) vars (list_prod colors sizes).
Proof.
intros Hu Hnav Hready Hc Hct Hs Hst Hfc Hfs Hclick Htext Hfound.
unfold dynamic_body. rewrite Hu, Hnav, Hready.
pose proof (Hfound st2 (fun name => ErrorScraping name cur) [] (after_here st2))
  as Hbase.
unfold base_extract.
destruct (dynamic_extract selectors st2 (fun name => ErrorScraping name cur) [])
  as [[base found] log] eqn:Eb.
simpl in Hbase. subst found.
set (w2 := add_result (set_browser (set_browser w st1 [EvNavigate cur]) st2 [])
             true base log).
destruct (color_loop_all selectors cur st2 colors sizes Hclick Htext Hfound
            colors 0%nat w2 (incl_refl _) (after_here st2))
  as (w3 & vars & Ecl & _ & Hres & Hall).
assert (Ev : variations selectors cur w2 = (w3, None)).
{ unfold variations. rewrite Hc, Hs. simpl truthy_opt. rewrite Hct, Hst.
  simpl orb. unfold axis. simpl truthy_opt. rewrite Hct, Hst.
  change (dy_browser w2) with st2. rewrite Hfc, Hfs. exact Ecl. }
rewrite Ev.
destruct (paginate pagination_selector cur (dy_browser w3)) as [[st4 next] evs].
eexists. exists vars. split; [reflexivity|]. split; [|split].
- simpl. rewrite Hres. simpl. rewrite <- app_assoc. reflexivity.
- rewrite (Forall2_length Hall). apply length_prod.
- exact Hall.
Qed.

(** The shop page, two colors and three sizes: the base record and six
    variation records, seven in all, Red before Blue and S, M, L under
    each. *)
Lemma C5_variation_order_witness :
(exists w' vars,
   @dynamic_body nat (shop true) shop_selectors None
     (mkDyn 0%nat (Some "https://shop.test/p1") 0 [] []) = DNext w'
   /\ dy_results w' = [("title", VStr "Shirt")] :: vars
   /\ List.length vars = 6%nat)
/\ option_map (map labels)
     (match fst (@scrape_dynamic nat (shop true) "https://shop.test/p1"
                   shop_selectors None 5 "chrome") with
      | Ok rs => Some rs
      | Raise _ => None
      end)
   = Some [(None, None);
           (Some (VStr "Red"), Some (VStr "S"));
           (Some (VStr "Red"), Some (VStr "M"));
           (Some (VStr "Red"), Some (VStr "L"));
           (Some (VStr "Blue"), Some (VStr "S"));
           (Some (VStr "Blue"), Some (VStr "M"));
           (Some (VStr "Blue"), Some (VStr "L"))].
Proof.
split; [|reflexivity].
destruct (@C5_variation_order nat (shop true) shop_selectors None
            (mkDyn 0%nat (Some "https://shop.test/p1") 0 [] [])
            "https://shop.test/p1" 0%nat 0%nat ".color" ".size"
            [1; 2]%nat [3; 4; 5]%nat)
  as (w' & vars & Hb & Hr & Hl & _); try reflexivity.
- intros st el _ _. eexists. reflexivity.
- exists w', vars. split; [exact Hb|]. split; [exact Hr|exact Hl].
Defined.

(** C2, as stated, fails on the dynamic path: the two prices of the shop
    page are both non-empty, and the base record keeps the first one
    only. *)
Lemma C2_dynamic_keeps_first :
@dyn_texts nat (shop true) 0%nat (shop_find ".price") = Ok ["10 EUR"; "12 EUR"]
/\ dict_get "price"
     (fst (fst (@base_extract nat (shop true) [("price", ".price")]
                  "https://shop.test/p1" 0%nat)))
   = Some (VStr "10 EUR")
/\ Some (VStr "10 EUR") <> Some (VList [VStr "10 EUR"; VStr "12 EUR"]).
Proof.
split; [reflexivity|]. split; [reflexivity|discriminate].
Qed.

(** C2, amended: for a field that is not images, colors or sizes, the
    static record holds the scalar when exactly one non-empty trimmed text
    was matched and the list of all of them, in the order of the matches,
    when there are two or more; the dynamic record (the field not being a
    variation trigger) holds the first non-empty trimmed text, however many
    there are. *)
Theorem C2_scalar_or_list {St : Type} {D : Driver St}
  (soup : Soup) (st : St) (warn : string -> logmsg) (seed : record)
  (selectors : list (string * string)) (name sel : string) :
NoDup (map fst selectors) ->
In (name, sel) selectors ->
reserved_static name = false ->
(forall t,
   filter truthy_str (map get_text_strip (soup sel)) = [t] ->
   dict_get name (fst (static_extract selectors soup)) = Some (VStr t))
/\ (forall texts,
      filter truthy_str (map get_text_strip (soup sel)) = texts ->
      (2 <= List.length texts)%nat ->
      dict_get name (fst (static_extract selectors soup))
      = Some (VList (map VStr texts)))
/\ (str_in name ["color_variation"; "size_variation"] = false ->
    forall elements t rest,
      find_elements st sel = Ok elements ->
      dyn_texts st elements = Ok (t :: rest) ->
      dict_get name (fst (fst (dynamic_extract selectors st warn seed)))
      = Some (VStr t)).
Proof.
intros Hnd Hin Hres.
assert (Hmatched : forall texts,
          filter truthy_str (map get_text_strip (soup sel)) = texts ->
          texts <> [] -> truthy_list (soup sel) = true).
{ intros texts E Hne. destruct (soup sel); [|reflexivity].
  simpl in E. congruence. }
split; [|split].
- intros t Ht. rewrite (static_extract_get soup selectors name sel Hnd Hin).
  unfold static_stored. rewrite (Hmatched [t] Ht) by discriminate.
  unfold static_value. rewrite Hres, Ht. reflexivity.
- intros texts Ht Hlen. rewrite (static_extract_get soup selectors name sel Hnd Hin).
  unfold static_stored. rewrite (Hmatched texts Ht).
  + unfold static_value. rewrite Hres, Ht.
    destruct (Nat.ltb_spec 1 (List.length texts)); [reflexivity|lia].
  + intros ->. simpl in Hlen. lia.
- intros Htrig elements t rest Hf Ht.
  rewrite (dynamic_extract_get st warn seed selectors name sel Hnd Hin Htrig).
  unfold dynamic_stored. rewrite Hf, (dyn_texts_nonempty st elements t rest Ht).
  unfold dynamic_value. unfold reserved_static in Hres. simpl in Hres.
  apply orb_false_elim in Hres. destruct Hres as [Hi Hcs].
  simpl. rewrite Hi, Hcs, Ht. reflexivity.
Qed.

(** On the page with two non-empty paragraphs and one heading, the static
    record holds the list under [para] and the scalar under [title]; on the
    shop page the dynamic record holds the first price. *)
Lemma C2_scalar_or_list_witness :
dict_get "title" (fst (static_extract [("para", "p"); ("title", "h1")] list_page))
= Some (VStr "Title")
/\ dict_get "para" (fst (static_extract [("para", "p"); ("title", "h1")] list_page))
   = Some (VList [VStr "A"; VStr "B"])
/\ dict_get "price"
     (fst (fst (@dynamic_extract nat (shop true) [("price", ".price")] 0%nat
                  (fun name => ErrorScraping name "https://shop.test/p1") [])))
   = Some (VStr "10 EUR").
Proof.
assert (Hnd : NoDup (map fst [("para", "p"); ("title", "h1")])).
{ repeat constructor; simpl; intuition discriminate. }
split; [|split].
- apply (proj1 (@C2_scalar_or_list nat (shop true) list_page 0%nat
                  (fun name => ErrorScraping name "") []
                  [("para", "p"); ("title", "h1")] "title" "h1" Hnd
                  (or_intror (or_introl eq_refl)) eq_refl)).
  reflexivity.
- apply (proj1 (proj2 (@C2_scalar_or_list nat (shop true) list_page 0%nat
                  (fun name => ErrorScraping name "") []
                  [("para", "p"); ("title", "h1")] "para" "p" Hnd
                  (or_introl eq_refl) eq_refl)) ["A"; "B"]).
  + reflexivity.
  + simpl. lia.
- assert (Hnd' : NoDup (map fst [("price", ".price")])).
  { repeat constructor; simpl; intuition. }
  apply (proj2 (proj2 (@C2_scalar_or_list nat (shop true) list_page 0%nat
                  (fun name => ErrorScraping name "https://shop.test/p1") []
                  [("price", ".price")] "price" ".price" Hnd'
                  (or_introl eq_refl) eq_refl)) eq_refl
           [11; 12]%nat "10 EUR" ["12 EUR"]); reflexivity.
Defined.

(** C4 fails on a page whose matched elements hold no text: the selector
    matched, so [any_data_found] is set, while the only field is [None];
    the record is appended all the same, by the static walker (blank page)
    and by the dynamic one (the empty note of the shop page). *)
Theorem C4_all_null_record_appended :
fst (scrape_static web join "https://x.test/blank" [("title", "h1")] None 5)
= [[("title", VNone)]]
/\ fst (@scrape_dynamic nat (shop true) "https://shop.test/p1" [("note", ".note")]
          None 5 "chrome")
   = Ok [[("note", VNone)]]
/\ all_null [("title", VNone)] = true
/\ all_null [("note", VNone)] = true.
Proof.
repeat split; reflexivity.
Qed.

(** C3 fails: the argument of [until] is [staleness_of(el) or presence...],
    which is [staleness_of(el)] alone, so the wait never asks for the ready
    marker.  On the shop page that updates in place the marker is there at
    every poll, yet the wait after the click on the first color ends in
    [TimeoutException]; both colors are skipped and no variation record is
    produced. *)
Theorem C3_wait_polls_staleness_only :
(forall (St : Type) (D : Driver St) (st : St) (el : elem),
   click_and_wait st el =
   (let '(st1, r) := click st el in
    match r with
    | Some e => (st1, Raise e)
    | None => until (polls 5) (staleness_of el) st1
    end))
/\ (forall st : nat, @presence_of_element_located nat (shop false) READY st = Ok true)
/\ @click_and_wait nat (shop false) 0%nat 1%nat = (1%nat, Raise TimeoutException)
/\ fst (@scrape_dynamic nat (shop false) "https://shop.test/p1" shop_selectors
          None 5 "chrome")
   = Ok [[("title", VStr "Shirt")]].
Proof.
split; [reflexivity|]. split; [reflexivity|]. split; reflexivity.
Qed.

(** ** The orchestrator *)

Section OrchestratorFacts.
Context {St : Type} {D : Driver St}.
Variable http_get : nat -> string -> option Soup.
Variable urljoin : string -> string -> string.
Variable api_get : nat -> string -> headers -> res json.
Variable to_excel : string -> string -> scraped -> saving.
Variable host_sheet : string -> nat -> string.
Variable output_file : string.

Let process := process_site http_get urljoin api_get to_excel host_sheet output_file.
Let sites := sites_loop http_get urljoin api_get to_excel host_sheet output_file.
Let run := run_scraper http_get urljoin api_get to_excel host_sheet output_file.

(** A turn that returns is followed by the turns of the remaining sites. *)
Lemma sites_loop_continue (idx : nat) (s : site) (rest : list site)
  (tr : list event) :
process idx s = (Ok tt, tr) ->
sites idx (s :: rest) = (fst (sites (S idx) rest), tr ++ snd (sites (S idx) rest)).
Proof.
intros H. unfold sites. simpl. fold process. rewrite H.
destruct (sites_loop _ _ _ _ _ _ (S idx) rest). reflexivity.
Qed.

(** A turn that raises ends the loop: no later site is processed. *)
Lemma sites_loop_raise (idx : nat) (s : site) (rest : list site) (e : exn)
  (tr : list event) :
process idx s = (Raise e, tr) ->
sites idx (s :: rest) = (Raise e, tr).
Proof.
intros H. unfold sites. simpl. fold process. rewrite H. reflexivity.
Qed.

(** The same after sites that were processed without an exception. *)
Lemma sites_loop_raise_after (pre : list site) (s : site) (rest : list site)
  (e : exn) (tr : list event) :
forall idx tp u,
  sites idx pre = (Ok u, tp) ->
  process (idx + List.length pre) s = (Raise e, tr) ->
  sites idx (pre ++ s :: rest) = (Raise e, tp ++ tr).
Proof.
induction pre as [|p pre IH]; intros idx tp u Hpre Hs.
- simpl in Hpre. injection Hpre as _ <-. simpl in Hs. rewrite Nat.add_0_r in Hs.
  simpl. apply sites_loop_raise. exact Hs.
- simpl in Hs.
  assert (Hi : forall t1, sites (S idx) pre = (Ok u, t1) ->
                 sites (S idx) (pre ++ s :: rest) = (Raise e, t1 ++ tr)).
  { intros t1 H1. apply (IH (S idx) t1 u H1).
    replace (S idx + List.length pre)%nat with (idx + S (List.length pre))%nat
      by lia.
    exact Hs. }
  unfold sites in Hpre, Hi |- *. simpl in Hpre |- *.
  destruct (process_site http_get urljoin api_get to_excel host_sheet output_file
              idx p) as [[u0|e0] t0]; [|discriminate Hpre].
  destruct (sites_loop http_get urljoin api_get to_excel host_sheet output_file
              (S idx) pre) as [r1 t1] eqn:E1.
  injection Hpre as Hr Ht. subst r1. rewrite <- Ht.
  rewrite (Hi t1 eq_refl). rewrite app_assoc. reflexivity.
Qed.

(** How a run ends when its loop raised: with [IndexError] when no sheet
    was written, with the exception of the loop otherwise. *)
Lemma run_scraper_raise (l : list site) (e : exn) (tr : list event) :
sites 0 l = (Raise e, tr) ->
run l = (Raise (if existsb in_workbook tr then e else IndexError), tr).
Proof.
intros H. unfold run, run_scraper. fold sites. rewrite H. unfold writer_close.
destruct (existsb in_workbook tr); reflexivity.
Qed.

Lemma get_driver_no_sheet (browser : string) :
existsb in_workbook (snd (get_driver (St := St) browser)) = false.
Proof.
unfold get_driver.
destruct (String.eqb (lower browser) "chrome"); simpl.
{ destruct (launch "chrome"); reflexivity. }
destruct (String.eqb (lower browser) "firefox"); simpl.
{ destruct (launch "firefox"); reflexivity. }
destruct (String.eqb (lower browser) "safari"); simpl.
{ destruct (launch "safari"); reflexivity. }
reflexivity.
Qed.
End OrchestratorFacts.

(** How the exit of the [with] block shows: a run whose sites are all
    skipped ends with [IndexError], the workbook having no sheet; a run whose
    only write fails after the sheet was added ends with the exception of
    the write. *)
Lemma run_scraper_exits :
fst (@run_scraper nat (shop true) web join flaky_api xlsx host_name "out.xlsx"
       [bare_site; ftp_site]) = Raise IndexError
/\ fst (@run_scraper nat (shop true) web join flaky_api xlsx host_name "out.xlsx" [])
   = Raise IndexError
/\ fst (@run_scraper nat (shop true) web join flaky_api bad_title host_name "out.xlsx"
          [example_site]) = Raise ValueError.
Proof.
repeat split; reflexivity.
Qed.

(** C1, as stated, fails: the first site asks for the browser "opera",
    [get_driver] logs and re-raises [ValueError], nothing catches it, the
    exception leaves the loop and the static site after it is never fetched;
    the run itself ends with an exception too ([IndexError], from closing a
    workbook that got no sheet), where the same run without the first site
    ends normally. *)
Lemma C1_driver_failure_ends_run :
@sites_loop nat (shop true) web join flaky_api xlsx host_name "out.xlsx" 0
  [opera_site; example_site]
= (Raise ValueError,
   [EvLog INFO (Scraping "https://shop.test/p1" "dynamic");
    EvLog ERROR (FailedInitDriver "opera")])
/\ @run_scraper nat (shop true) web join flaky_api xlsx host_name "out.xlsx"
     [opera_site; example_site]
   = (Raise IndexError,
      [EvLog INFO (Scraping "https://shop.test/p1" "dynamic");
       EvLog ERROR (FailedInitDriver "opera")])
/\ fst (@run_scraper nat (shop true) web join flaky_api xlsx host_name "out.xlsx"
          [example_site]) = Ok tt.
Proof.
split; [reflexivity|]. split; reflexivity.
Qed.

(** C1, amended: a site without one of the required keys, or of an
    unsupported type, is logged and skipped and the loop goes on with the
    next site; a dynamic site whose browser session cannot be started makes
    [get_driver] log and re-raise, and the exception leaves [scrape_dynamic]
    and the loop: the sites after it are not processed.  The run then ends
    with an exception: that one when an earlier site wrote a sheet,
    [IndexError] from closing the workbook without sheets otherwise. *)
Theorem C1_fatal_to_site {St : Type} {D : Driver St}
  (http_get : nat -> string -> option Soup) (urljoin : string -> string -> string)
  (api_get : nat -> string -> headers -> res json)
  (to_excel : string -> string -> scraped -> saving)
  (host_sheet : string -> nat -> string) (output_file : string)
  (idx : nat) (s : site) (rest : list site) :
let process := process_site http_get urljoin api_get to_excel host_sheet output_file in
let sites := sites_loop http_get urljoin api_get to_excel host_sheet output_file in
let run := run_scraper http_get urljoin api_get to_excel host_sheet output_file in
(has_required s = false ->
 process idx s
 = (Ok tt, [EvLog ERROR (InvalidConfig (get_default (site_name s) "unknown"))])
 /\ sites idx (s :: rest)
    = (fst (sites (S idx) rest),
       [EvLog ERROR (InvalidConfig (get_default (site_name s) "unknown"))]
       ++ snd (sites (S idx) rest)))
/\ (forall u ty sels,
      site_url s = Some u -> site_type s = Some ty -> site_selectors s = Some sels ->
      str_in ty ["static"; "dynamic"; "api"] = false ->
      process idx s
      = (Ok tt, [EvLog INFO (Scraping u ty); EvLog WARNING (UnknownType ty u)])
      /\ sites idx (s :: rest)
         = (fst (sites (S idx) rest),
            [EvLog INFO (Scraping u ty); EvLog WARNING (UnknownType ty u)]
            ++ snd (sites (S idx) rest)))
/\ (forall u sels e log,
      site_url s = Some u -> site_type s = Some "dynamic" ->
      site_selectors s = Some sels ->
      get_driver (get_default (site_browser s) "chrome") = (Raise e, log) ->
      process idx s = (Raise e, EvLog INFO (Scraping u "dynamic") :: log)
      /\ sites idx (s :: rest) = (Raise e, EvLog INFO (Scraping u "dynamic") :: log)
      /\ (forall pre tp,
            sites 0%nat pre = (Ok tt, tp) -> idx = List.length pre ->
            run (pre ++ s :: rest)
            = (Raise (if existsb in_workbook tp then e else IndexError),
               tp ++ EvLog INFO (Scraping u "dynamic") :: log))).
Proof.
intros process sites run. split; [|split].
- intros Hreq.
  assert (Hp : process idx s
               = (Ok tt, [EvLog ERROR (InvalidConfig (get_default (site_name s) "unknown"))])).
  { unfold process, process_site. unfold has_required in Hreq.
    destruct (site_url s); [|reflexivity].
    destruct (site_type s); [|reflexivity].
    destruct (site_selectors s); [discriminate|reflexivity]. }
  split; [exact Hp|]. apply sites_loop_continue. exact Hp.
- intros u ty sels Hu Ht Hs Hty.
  assert (Hp : process idx s
               = (Ok tt, [EvLog INFO (Scraping u ty); EvLog WARNING (UnknownType ty u)])).
  { unfold process, process_site. rewrite Hu, Ht, Hs.
    simpl in Hty. apply orb_false_elim in Hty. destruct Hty as [H1 Hty].
    apply orb_false_elim in Hty. destruct Hty as [H2 Hty].
    apply orb_false_elim in Hty. destruct Hty as [H3 _].
    rewrite H1, H2, H3. reflexivity. }
  split; [exact Hp|]. apply sites_loop_continue. exact Hp.
- intros u sels e log Hu Ht Hs Hg.
  assert (Hp : process idx s = (Raise e, EvLog INFO (Scraping u "dynamic") :: log)).
  { unfold process, process_site. rewrite Hu, Ht, Hs. simpl.
    unfold scrape_dynamic. rewrite Hg. reflexivity. }
  split; [exact Hp|]. split; [apply sites_loop_raise; exact Hp|].
  intros pre tp Hpre Hidx. subst idx.
  pose proof (sites_loop_raise_after http_get urljoin api_get to_excel host_sheet
                output_file pre s rest e _ 0%nat tp tt Hpre Hp) as Hl.
  unfold run.
  rewrite (run_scraper_raise http_get urljoin api_get to_excel host_sheet
             output_file _ _ _ Hl).
  pose proof (get_driver_no_sheet (St := St) (get_default (site_browser s) "chrome"))
    as Hns.
  rewrite Hg in Hns. simpl in Hns.
  rewrite existsb_app. simpl. rewrite Hns, orb_false_r. reflexivity.
Qed.

(** The site without selectors and the site of type ftp are skipped and
    the example site after them is scraped; the site that asks for "opera"
    ends the loop with [ValueError], and the run with [IndexError] when it
    comes first, with [ValueError] when it comes after the example site,
    which wrote its sheet. *)
Lemma C1_fatal_to_site_witness :
fst (@sites_loop nat (shop true) web join flaky_api xlsx host_name "out.xlsx"
       0 [bare_site; example_site])
= fst (@sites_loop nat (shop true) web join flaky_api xlsx host_name "out.xlsx"
         1 [example_site])
/\ fst (@sites_loop nat (shop true) web join flaky_api xlsx host_name "out.xlsx"
          0 [ftp_site; example_site])
   = fst (@sites_loop nat (shop true) web join flaky_api xlsx host_name "out.xlsx"
            1 [example_site])
/\ @run_scraper nat (shop true) web join flaky_api xlsx host_name "out.xlsx"
     [opera_site; example_site]
   = (Raise IndexError,
      [EvLog INFO (Scraping "https://shop.test/p1" "dynamic");
       EvLog ERROR (FailedInitDriver "opera")])
/\ fst (@run_scraper nat (shop true) web join flaky_api xlsx host_name "out.xlsx"
          [example_site; opera_site])
   = Raise ValueError.
Proof.
split; [|split; [|split]].
- rewrite (proj2 (proj1 (@C1_fatal_to_site nat (shop true) web join flaky_api xlsx
                           host_name "out.xlsx" 0%nat bare_site [example_site])
                    eq_refl)).
  reflexivity.
- rewrite (proj2 (proj1 (proj2 (@C1_fatal_to_site nat (shop true) web join flaky_api
                                  xlsx host_name "out.xlsx" 0%nat ftp_site
                                  [example_site]))
                    "ftp://x.test/" "ftp" [] eq_refl eq_refl eq_refl eq_refl)).
  reflexivity.
- apply (proj2 (proj2 (proj2 (proj2 (@C1_fatal_to_site nat (shop true) web join
                                       flaky_api xlsx host_name "out.xlsx" 0%nat
                                       opera_site [example_site]))
                         "https://shop.test/p1" [("title", "h1")] ValueError
                         [EvLog ERROR (FailedInitDriver "opera")]
                         eq_refl eq_refl eq_refl eq_refl))
           [] [] eq_refl eq_refl).
- exact (f_equal fst
           (proj2 (proj2 (proj2 (proj2 (@C1_fatal_to_site nat (shop true) web join
                                          flaky_api xlsx host_name "out.xlsx" 1%nat
                                          opera_site []))
                            "https://shop.test/p1" [("title", "h1")] ValueError
                            [EvLog ERROR (FailedInitDriver "opera")]
                            eq_refl eq_refl eq_refl eq_refl))
              [example_site]
              (snd (@sites_loop nat (shop true) web join flaky_api xlsx host_name
                      "out.xlsx" 0 [example_site]))
              eq_refl eq_refl)).
Defined.

(** C10: the validation looks at [url], [type] and [selectors] only; a
    site of type api that passes it and has no [json_path] raises
    [KeyError] when line 244 reads the key, inside the loop, which ends
    there: the site is not skipped as an invalid one and the sites after it
    are not processed. *)
Theorem C10_api_json_path_keyerror {St : Type} {D : Driver St}
  (http_get : nat -> string -> option Soup) (urljoin : string -> string -> string)
  (api_get : nat -> string -> headers -> res json)
  (to_excel : string -> string -> scraped -> saving)
  (host_sheet : string -> nat -> string) (output_file : string)
  (idx : nat) (s : site) (rest : list site) (u : string)
  (sels : list (string * string)) :
site_url s = Some u ->
site_type s = Some "api" ->
site_selectors s = Some sels ->
site_json_path s = None ->
has_required s = true
/\ process_site http_get urljoin api_get to_excel host_sheet output_file idx s
   = (Raise (KeyError "json_path"), [EvLog INFO (Scraping u "api")])
/\ sites_loop http_get urljoin api_get to_excel host_sheet output_file idx (s :: rest)
   = (Raise (KeyError "json_path"), [EvLog INFO (Scraping u "api")])
/\ (forall s' : site,
      has_required s' = true <->
      site_url s' <> None /\ site_type s' <> None /\ site_selectors s' <> None).
Proof.
intros Hu Ht Hs Hj.
assert (Hp : process_site http_get urljoin api_get to_excel host_sheet output_file idx s
             = (Raise (KeyError "json_path"), [EvLog INFO (Scraping u "api")])).
{ unfold process_site. rewrite Hu, Ht, Hs, Hj. reflexivity. }
split; [|split; [|split]].
- unfold has_required. rewrite Hu, Ht, Hs. reflexivity.
- exact Hp.
- apply sites_loop_raise. exact Hp.
- intros s'. unfold has_required.
  destruct (site_url s'), (site_type s'), (site_selectors s'); split;
    try discriminate; try (intros (A & B & C); congruence);
    intros _; repeat split; discriminate.
Qed.

(** The API site without [json_path], followed by the example site: the
    loop ends at the API site. *)
Lemma C10_api_json_path_keyerror_witness :
@sites_loop nat (shop true) web join flaky_api xlsx host_name "out.xlsx" 0
  [api_site; example_site]
= (Raise (KeyError "json_path"), [EvLog INFO (Scraping "https://api.test/v1" "api")]).
Proof.
exact (proj1 (proj2 (proj2
  (@C10_api_json_path_keyerror nat (shop true) web join flaky_api xlsx host_name
     "out.xlsx" 0%nat api_site [example_site] "https://api.test/v1" []
     eq_refl eq_refl eq_refl eq_refl)))).
Defined.

(** * Further properties *)

(** ** Records of the static walker *)

Lemma dict_set_keys_new (k : string) (v : value) (d : record) :
~ In k (map fst d) -> map fst (dict_set k v d) = map fst d ++ [k].
Proof.
induction d as [|[k0 v0] d IH]; simpl; intros Hk; [reflexivity|].
destruct (String.eqb_spec k0 k) as [E|E]; [tauto|].
simpl. rewrite IH by tauto. reflexivity.
Qed.

Lemma static_field_keys (soup : Soup) (acc : record * bool) (n s : string) :
~ In n (map fst (fst acc)) ->
map fst (fst (static_field soup acc (n, s))) = map fst (fst acc) ++ [n].
Proof.
destruct acc as [data found]. unfold static_field. simpl. intros Hn.
destruct (truthy_list (soup s)); simpl; apply dict_set_keys_new; exact Hn.
Qed.

Lemma static_fold_keys (soup : Soup) (l : list (string * string)) :
forall acc,
  NoDup (map fst l) ->
  (forall k, In k (map fst l) -> ~ In k (map fst (fst acc))) ->
  map fst (fst (fold_left (static_field soup) l acc)) = map fst (fst acc) ++ map fst l.
Proof.
induction l as [|[n s] l IH]; intros acc Hnd Hfresh; simpl.
- rewrite app_nil_r. reflexivity.
- simpl in Hnd. inversion Hnd as [|? ? Hn Hl]; subst.
  rewrite IH; [| exact Hl |].
  + rewrite static_field_keys by (apply Hfresh; left; reflexivity).
    rewrite <- app_assoc. reflexivity.
  + intros k Hk. rewrite static_field_keys by (apply Hfresh; left; reflexivity).
    intros Hin. apply in_app_or in Hin. destruct Hin as [Hin|[E|[]]].
    * apply (Hfresh k); [right; exact Hk|exact Hin].
    * subst k. tauto.
Qed.

(** The keys of a static record are the configured field names, in
    configuration order. *)
Lemma static_extract_keys (selectors : list (string * string)) (soup : Soup) :
NoDup (map fst selectors) ->
map fst (fst (static_extract selectors soup)) = map fst selectors.
Proof.
intros Hnd. unfold static_extract. rewrite static_fold_keys; auto.
Qed.

(** [any_data_found] after the loop over the selectors: some selector
    matched an element. *)
Lemma static_extract_found (selectors : list (string * string)) (soup : Soup) :
snd (static_extract selectors soup)
= existsb (fun ns => truthy_list (soup (snd ns))) selectors.
Proof.
unfold static_extract.
assert (H : forall l data found,
          snd (fold_left (static_field soup) l (data, found))
          = found || existsb (fun ns => truthy_list (soup (snd ns))) l).
{ induction l as [|[n s] l IH]; intros data found; simpl.
  - rewrite orb_false_r. reflexivity.
  - destruct (truthy_list (soup s)); rewrite IH; simpl.
    + rewrite orb_true_r. reflexivity.
    + reflexivity. }
rewrite H. reflexivity.
Qed.

Section StaticInvariants.
Variable http_get : nat -> string -> option Soup.
Variable urljoin : string -> string -> string.
Variable url : string.
Variable selectors : list (string * string).
Variable pagination_selector : option string.
Variable limit : Z.

(** A property of the loop state that every turn keeps holds when the loop
    is left. *)
Lemma static_loop_invariant (P : static_state -> Prop) :
(forall st, static_cond limit st = true -> P st ->
            P (match static_body http_get urljoin url selectors pagination_selector st with
               | Break st' | Next st' => st'
               end)) ->
forall fuel st st',
  P st ->
  static_loop http_get urljoin url selectors pagination_selector limit fuel st
  = Some st' ->
  P st'.
Proof.
intros Hstep. induction fuel as [|fuel IH]; intros st st' HP; simpl.
- destruct (static_cond limit st); [discriminate|].
  intros H. injection H as <-. exact HP.
- destruct (static_cond limit st) eqn:Hc.
  + specialize (Hstep st Hc HP).
    destruct (static_body http_get urljoin url selectors pagination_selector st)
      as [st1|st1].
    * intros H. injection H as <-. exact Hstep.
    * intros H. apply (IH st1 st' Hstep H).
  + intros H. injection H as <-. exact HP.
Qed.

(** What one turn does to the state, case by case. *)
Lemma static_body_cases (st : static_state) :
let st' := match static_body http_get urljoin url selectors pagination_selector st with
           | Break st' | Next st' => st'
           end in
(st' = st)
\/ (exists cur,
      st_url st = Some cur /\
      http_get (Z.to_nat (st_pages st)) cur = None /\
      st_url st' = st_url st /\ st_results st' = st_results st /\
      st_trace st' = st_trace st ++ [EvHttpGet cur; EvLog ERROR (FailedFetch cur)])
\/ (exists cur soup,
      st_url st = Some cur /\
      http_get (Z.to_nat (st_pages st)) cur = Some soup /\
      st_url st' = static_next urljoin url pagination_selector soup /\
      st_results st'
      = (if snd (static_extract selectors soup)
         then st_results st ++ [fst (static_extract selectors soup)]
         else st_results st) /\
      st_trace st'
      = st_trace st ++ [EvHttpGet cur;
                        EvLog INFO (ScrapedStaticPage (st_pages st + 1)
                                      (static_next urljoin url pagination_selector soup))]).
Proof.
cbv zeta. unfold static_body.
destruct (st_url st) as [cur|] eqn:Hu; [|left; reflexivity].
destruct (http_get (Z.to_nat (st_pages st)) cur) as [soup|] eqn:Hg.
- right. right. exists cur, soup.
  destruct (static_extract selectors soup) as [data found]. simpl.
  repeat split; try reflexivity; assumption.
- right. left. exists cur. simpl. repeat split; try reflexivity; assumption.
Qed.
End StaticInvariants.

(** The final state of [scrape_static], which always exists. *)
Lemma scrape_static_final (http_get : nat -> string -> option Soup)
  (urljoin : string -> string -> string) (url : string)
  (selectors : list (string * string)) (pagination_selector : option string)
  (limit : Z) :
exists st,
  static_loop http_get urljoin url selectors pagination_selector limit
    (Z.to_nat limit) (static_init url) = Some st
  /\ scrape_static http_get urljoin url selectors pagination_selector limit
     = (st_results st, st_trace st).
Proof.
destruct (static_loop_total http_get urljoin url selectors pagination_selector
            limit (Z.to_nat limit) (static_init url)) as [st Hst].
{ simpl. lia. }
exists st. split; [exact Hst|]. unfold scrape_static. rewrite Hst. reflexivity.
Qed.

(** X1: every record returned by [scrape_static] has exactly the configured
    field names as keys, in configuration order: a field whose selector
    matched nothing is present with [None], never absent. *)
Theorem static_records_keys (http_get : nat -> string -> option Soup)
  (urljoin : string -> string -> string) (url : string)
  (selectors : list (string * string)) (pagination_selector : option string)
  (limit : Z) :
NoDup (map fst selectors) ->
Forall (fun r => map fst r = map fst selectors)
  (fst (scrape_static http_get urljoin url selectors pagination_selector limit)).
Proof.
intros Hnd.
destruct (scrape_static_final http_get urljoin url selectors pagination_selector limit)
  as (st & Hl & ->). simpl.
apply (static_loop_invariant http_get urljoin url selectors pagination_selector limit
         (fun st => Forall (fun r => map fst r = map fst selectors) (st_results st)))
  with (fuel := Z.to_nat limit) (st := static_init url); [|constructor|exact Hl].
intros s0 _ HP.
destruct (static_body_cases http_get urljoin url selectors pagination_selector s0)
  as [E|[(cur & _ & _ & _ & Hr & _)|(cur & soup & _ & _ & _ & Hr & _)]].
- rewrite E. exact HP.
- rewrite Hr. exact HP.
- rewrite Hr. destruct (snd (static_extract selectors soup)); [|exact HP].
  apply Forall_app. split; [exact HP|]. constructor; [|constructor].
  apply static_extract_keys. exact Hnd.
Qed.

Lemma static_records_keys_witness :
Forall (fun r => map fst r = ["title"; "price"])
  (fst (scrape_static web join "https://x.test/p1"
          [("title", "h1"); ("price", ".price")] (Some "a.next") 5))
/\ fst (scrape_static web join "https://x.test/p1"
          [("title", "h1"); ("price", ".price")] (Some "a.next") 5)
   = [[("title", VStr "A"); ("price", VNone)];
      [("title", VStr "B"); ("price", VNone)]].
Proof.
split; [|reflexivity].
apply (static_records_keys web join "https://x.test/p1"
         [("title", "h1"); ("price", ".price")] (Some "a.next") 5).
repeat constructor; simpl; intuition discriminate.
Defined.

(** X2: every record returned by [scrape_static] is the extraction of a
    page that was fetched and on which at least one selector matched an
    element; when no selector matches on any page, nothing is returned. *)
Theorem static_records_matched (http_get : nat -> string -> option Soup)
  (urljoin : string -> string -> string) (url : string)
  (selectors : list (string * string)) (pagination_selector : option string)
  (limit : Z) :
Forall (fun r =>
          exists n u soup,
            http_get n u = Some soup /\
            existsb (fun ns => truthy_list (soup (snd ns))) selectors = true /\
            r = fst (static_extract selectors soup))
  (fst (scrape_static http_get urljoin url selectors pagination_selector limit))
/\ ((forall n u soup,
       http_get n u = Some soup ->
       existsb (fun ns => truthy_list (soup (snd ns))) selectors = false) ->
    fst (scrape_static http_get urljoin url selectors pagination_selector limit) = []).
Proof.
assert (Hall : Forall (fun r =>
          exists n u soup,
            http_get n u = Some soup /\
            existsb (fun ns => truthy_list (soup (snd ns))) selectors = true /\
            r = fst (static_extract selectors soup))
  (fst (scrape_static http_get urljoin url selectors pagination_selector limit))).
{ destruct (scrape_static_final http_get urljoin url selectors pagination_selector limit)
    as (st & Hl & ->). simpl.
  apply (static_loop_invariant http_get urljoin url selectors pagination_selector limit
           (fun st => Forall (fun r =>
              exists n u soup,
                http_get n u = Some soup /\
                existsb (fun ns => truthy_list (soup (snd ns))) selectors = true /\
                r = fst (static_extract selectors soup)) (st_results st)))
    with (fuel := Z.to_nat limit) (st := static_init url); [|constructor|exact Hl].
  intros s0 _ HP.
  destruct (static_body_cases http_get urljoin url selectors pagination_selector s0)
    as [E|[(cur & _ & _ & _ & Hr & _)|(cur & soup & _ & Hg & _ & Hr & _)]].
  - rewrite E. exact HP.
  - rewrite Hr. exact HP.
  - rewrite Hr. destruct (snd (static_extract selectors soup)) eqn:Ef; [|exact HP].
    apply Forall_app. split; [exact HP|]. constructor; [|constructor].
    exists (Z.to_nat (st_pages s0)), cur, soup.
    rewrite static_extract_found in Ef. repeat split; assumption. }
split; [exact Hall|].
intros Hnone.
destruct (fst (scrape_static http_get urljoin url selectors pagination_selector limit))
  as [|r rs]; [reflexivity|].
inversion Hall as [|? ? (n & u & soup & Hg & Hm & _) _]; subst.
rewrite (Hnone n u soup Hg) in Hm. discriminate.
Qed.

(** The pages of the example hold no price: with the price as the only
    field nothing is returned, though both pages are fetched. *)
Lemma static_records_matched_witness :
scrape_static web join "https://x.test/p1" [("price", ".price")] (Some "a.next") 5
= ([], [EvHttpGet "https://x.test/p1";
        EvLog INFO (ScrapedStaticPage 1 (Some "https://x.test/p2"));
        EvHttpGet "https://x.test/p2";
        EvLog INFO (ScrapedStaticPage 2 None)]).
Proof.
apply injective_projections; [|reflexivity].
apply (proj2 (static_records_matched web join "https://x.test/p1"
                [("price", ".price")] (Some "a.next") 5)).
intros n u soup. unfold web.
destruct (String.eqb u "https://x.test/p1");
  [intros H; injection H as <-; reflexivity|].
destruct (String.eqb u "https://x.test/p2");
  [intros H; injection H as <-; reflexivity|].
destruct (String.eqb u "https://x.test/blank");
  [intros H; injection H as <-; reflexivity|].
destruct (String.eqb u "https://x.test/list");
  [intros H; injection H as <-; reflexivity|discriminate].
Defined.

(** X3: [scrape_static] returns at most one record per request it made,
    hence at most [limit] records. *)
Theorem static_records_bound (http_get : nat -> string -> option Soup)
  (urljoin : string -> string -> string) (url : string)
  (selectors : list (string * string)) (pagination_selector : option string)
  (limit : Z) :
(List.length (fst (scrape_static http_get urljoin url selectors pagination_selector limit))
 <= count is_http_get
      (snd (scrape_static http_get urljoin url selectors pagination_selector limit)))%nat
/\ (List.length (fst (scrape_static http_get urljoin url selectors pagination_selector limit))
    <= Z.to_nat limit)%nat.
Proof.
destruct (scrape_static_final http_get urljoin url selectors pagination_selector limit)
  as (st & Hl & ->). simpl.
assert (H1 : (List.length (st_results st) <= count is_http_get (st_trace st))%nat).
{ apply (static_loop_invariant http_get urljoin url selectors pagination_selector limit
           (fun st => (List.length (st_results st)
                       <= count is_http_get (st_trace st))%nat))
    with (fuel := Z.to_nat limit) (st := static_init url); [|simpl; lia|exact Hl].
  intros s0 _ HP.
  destruct (static_body_cases http_get urljoin url selectors pagination_selector s0)
    as [E|[(cur & _ & _ & _ & Hr & Ht)|(cur & soup & _ & _ & _ & Hr & Ht)]].
  - rewrite E. exact HP.
  - rewrite Hr, Ht, count_app. lia.
  - rewrite Hr, Ht, count_app. unfold count at 2. simpl.
    destruct (snd (static_extract selectors soup)); [rewrite length_app; simpl|]; lia. }
split; [exact H1|].
apply static_loop_gets in Hl. simpl in Hl.
replace (limit - 0)%Z with limit in Hl by lia.
assert (H0 : count is_http_get [] = 0%nat) by reflexivity. lia.
Qed.

(** X4: with an empty start URL, or a limit that is zero or negative,
    [scrape_static] returns the empty list without any request or log
    line. *)
Theorem static_nothing_to_do (http_get : nat -> string -> option Soup)
  (urljoin : string -> string -> string) (url : string)
  (selectors : list (string * string)) (pagination_selector : option string)
  (limit : Z) :
truthy_str url = false \/ (limit <= 0)%Z ->
scrape_static http_get urljoin url selectors pagination_selector limit = ([], []).
Proof.
intros H. unfold scrape_static.
assert (Hc : static_cond limit (static_init url) = false).
{ unfold static_cond. simpl. destruct H as [H|H].
  - rewrite H. reflexivity.
  - apply andb_false_iff. right. apply Z.ltb_ge. exact H. }
destruct (Z.to_nat limit); simpl; rewrite Hc; reflexivity.
Qed.

Lemma static_nothing_to_do_witness :
scrape_static web join "" [("title", "h1")] None 5 = ([], [])
/\ scrape_static web join "https://x.test/p1" [("title", "h1")] None 0 = ([], []).
Proof.
split; apply static_nothing_to_do; [left; reflexivity|right; lia].
Defined.

Section StaticFailure.
Variable http_get : nat -> string -> option Soup.
Variable urljoin : string -> string -> string.
Variable url : string.
Variable selectors : list (string * string).
Variable pagination_selector : option string.
Variable limit : Z.

Lemma static_loop_failure (fuel : nat) :
forall st st',
  count is_error (st_trace st) = 0%nat ->
  static_loop http_get urljoin url selectors pagination_selector limit fuel st
  = Some st' ->
  count is_error (st_trace st') = 0%nat
  \/ exists t cur,
       st_trace st' = t ++ [EvHttpGet cur; EvLog ERROR (FailedFetch cur)]
       /\ count is_error t = 0%nat.
Proof.
induction fuel as [|fuel IH]; intros st st' H0; simpl.
- destruct (static_cond limit st); [discriminate|].
  intros H. injection H as <-. left. exact H0.
- destruct (static_cond limit st); [|intros H; injection H as <-; left; exact H0].
  pose proof (static_body_cases http_get urljoin url selectors pagination_selector st)
    as Hc. cbv zeta in Hc.
  destruct (static_body http_get urljoin url selectors pagination_selector st)
    as [st1|st1] eqn:Eb.
  + intros H. injection H as <-.
    destruct Hc as [E|[(cur & _ & _ & _ & _ & Ht)|(cur & soup & Hu & Hg & _)]].
    * left. rewrite E. exact H0.
    * right. exists (st_trace st), cur. split; [exact Ht|exact H0].
    * exfalso. unfold static_body in Eb. rewrite Hu, Hg in Eb.
      destruct (static_extract selectors soup); discriminate.
  + intros H. apply (IH st1 st'); [|exact H].
    destruct Hc as [E|[(cur & Hu & Hg & _)|(cur & soup & _ & _ & _ & _ & Ht)]].
    * rewrite E. exact H0.
    * exfalso. unfold static_body in Eb. rewrite Hu, Hg in Eb. discriminate.
    * rewrite Ht, count_app, H0. reflexivity.
Qed.
End StaticFailure.

(** X5: [scrape_static] never retries and never goes on after a failed
    request: either its log holds no error, or the failed request and its
    error line are the last two events of the call. *)
Theorem static_failure_is_last (http_get : nat -> string -> option Soup)
  (urljoin : string -> string -> string) (url : string)
  (selectors : list (string * string)) (pagination_selector : option string)
  (limit : Z) :
count is_error
  (snd (scrape_static http_get urljoin url selectors pagination_selector limit))
= 0%nat
\/ exists t cur,
     snd (scrape_static http_get urljoin url selectors pagination_selector limit)
     = t ++ [EvHttpGet cur; EvLog ERROR (FailedFetch cur)]
     /\ count is_error t = 0%nat.
Proof.
destruct (scrape_static_final http_get urljoin url selectors pagination_selector limit)
  as (st & Hl & ->). simpl.
apply (static_loop_failure http_get urljoin url selectors pagination_selector limit
         (Z.to_nat limit) (static_init url) st); [reflexivity|exact Hl].
Qed.

(** X6: every request of [scrape_static] goes to the start URL or to a
    next link resolved against the start URL, whatever page the link was
    found on. *)
Theorem static_requests_base (http_get : nat -> string -> option Soup)
  (urljoin : string -> string -> string) (url : string)
  (selectors : list (string * string)) (pagination_selector : option string)
  (limit : Z) :
Forall (fun e => forall u, e = EvHttpGet u ->
                           u = url \/ exists href, u = urljoin url href)
  (snd (scrape_static http_get urljoin url selectors pagination_selector limit)).
Proof.
destruct (scrape_static_final http_get urljoin url selectors pagination_selector limit)
  as (st & Hl & ->). simpl.
apply (static_loop_invariant http_get urljoin url selectors pagination_selector limit
         (fun st =>
            (forall u, st_url st = Some u ->
                       u = url \/ exists href, u = urljoin url href)
            /\ Forall (fun e => forall u, e = EvHttpGet u ->
                                          u = url \/ exists href, u = urljoin url href)
                 (st_trace st)))
  with (fuel := Z.to_nat limit) (st := static_init url) in Hl.
- exact (proj2 Hl).
- intros s0 _ [Hu Ht].
  destruct (static_body_cases http_get urljoin url selectors pagination_selector s0)
    as [E|[(cur & Hc & _ & Hu' & _ & Ht')|(cur & soup & Hc & _ & Hu' & _ & Ht')]].
  + rewrite E. split; assumption.
  + rewrite Hu', Ht'. split; [exact Hu|].
    apply Forall_app. split; [exact Ht|].
    constructor; [|constructor; [|constructor]].
    * intros u E. injection E as <-. apply Hu. exact Hc.
    * intros u E. discriminate.
  + rewrite Hu', Ht'. split.
    * unfold static_next.
      destruct (truthy_opt pagination_selector); [|discriminate].
      destruct pagination_selector as [sel|]; [|discriminate].
      destruct (select_one soup sel) as [t|]; [|discriminate].
      destruct (truthy_opt (tag_get "href" t)); [|discriminate].
      destruct (tag_get "href" t) as [h|]; [|discriminate].
      simpl. intros u E. injection E as <-. right. exists h. reflexivity.
    * apply Forall_app. split; [exact Ht|].
      constructor; [|constructor; [|constructor]].
      -- intros u E. injection E as <-. apply Hu. exact Hc.
      -- intros u E. discriminate.
- split.
  + simpl. intros u E. injection E as <-. left. reflexivity.
  + constructor.
Qed.

(** X7: under a field named images, colors or sizes, in any letter case,
    a static record holds a list with one entry per matched element, in
    match order and without dropping empty ones: the [src] attribute or
    [None] for images, the trimmed text for colors and sizes. *)
Theorem static_reserved_list (soup : Soup) (selectors : list (string * string))
  (name sel : string) :
NoDup (map fst selectors) ->
In (name, sel) selectors ->
reserved_static name = true ->
soup sel <> [] ->
dict_get name (fst (static_extract selectors soup))
= Some (VList (map (fun el =>
                      if String.eqb (lower name) "images"
                      then opt_value (tag_get "src" el)
                      else VStr (get_text_strip el)) (soup sel))).
Proof.
intros Hnd Hin Hres Hne.
rewrite (static_extract_get soup selectors name sel Hnd Hin).
unfold static_stored, static_value. rewrite Hres.
destruct (soup sel); [congruence|reflexivity].
Qed.

Lemma static_reserved_list_witness :
dict_get "Images"
  (fst (static_extract [("Images", "img"); ("sizes", ".size")] gallery_page))
= Some (VList [VStr "a.png"; VNone])
/\ dict_get "sizes"
     (fst (static_extract [("Images", "img"); ("sizes", ".size")] gallery_page))
   = Some (VList [VStr "S"; VStr ""]).
Proof.
assert (Hnd : NoDup (map fst [("Images", "img"); ("sizes", ".size")])).
{ repeat constructor; simpl; intuition discriminate. }
split.
- apply (static_reserved_list gallery_page [("Images", "img"); ("sizes", ".size")]
           "Images" "img" Hnd (or_introl eq_refl) eq_refl).
  discriminate.
- apply (static_reserved_list gallery_page [("Images", "img"); ("sizes", ".size")]
           "sizes" ".size" Hnd (or_intror (or_introl eq_refl)) eq_refl).
  discriminate.
Defined.

(** ** The browser session *)

(** X8: [get_driver] accepts chrome, firefox and safari in any letter case
    and starts exactly that browser: it returns the session when the start
    succeeds, and logs an error line naming the requested browser and
    re-raises when the start fails; for any other name it raises
    [ValueError] without starting a browser, after the same error line;
    whenever it raises, that line is the last thing it logs. *)
Theorem get_driver_kinds {St : Type} {D : Driver St} (browser : string) :
(In (lower browser) ["chrome"; "firefox"; "safari"] ->
 get_driver (St := St) browser
 = match launch (lower browser) with
   | Ok d => (Ok d, [EvLaunch (lower browser)])
   | Raise e =>
       (Raise e, [EvLaunch (lower browser); EvLog ERROR (FailedInitDriver browser)])
   end)
/\ (~ In (lower browser) ["chrome"; "firefox"; "safari"] ->
    get_driver (St := St) browser
    = (Raise ValueError, [EvLog ERROR (FailedInitDriver browser)]))
/\ (forall e log,
      get_driver (St := St) browser = (Raise e, log) ->
      exists l, log = l ++ [EvLog ERROR (FailedInitDriver browser)]).
Proof.
unfold get_driver.
destruct (String.eqb_spec (lower browser) "chrome") as [E1|E1].
{ rewrite E1. simpl. split; [|split].
  - intros _. destruct (launch "chrome"); reflexivity.
  - intros H. exfalso. apply H. auto.
  - intros e log. destruct (launch "chrome"); [discriminate|].
    intros H. injection H as <- <-. exists [EvLaunch "chrome"]. reflexivity. }
destruct (String.eqb_spec (lower browser) "firefox") as [E2|E2].
{ rewrite E2. simpl. split; [|split].
  - intros _. destruct (launch "firefox"); reflexivity.
  - intros H. exfalso. apply H. auto.
  - intros e log. destruct (launch "firefox"); [discriminate|].
    intros H. injection H as <- <-. exists [EvLaunch "firefox"]. reflexivity. }
destruct (String.eqb_spec (lower browser) "safari") as [E3|E3].
{ rewrite E3. simpl. split; [|split].
  - intros _. destruct (launch "safari"); reflexivity.
  - intros H. exfalso. apply H. auto.
  - intros e log. destruct (launch "safari"); [discriminate|].
    intros H. injection H as <- <-. exists [EvLaunch "safari"]. reflexivity. }
simpl. split; [|split].
- intros [H|[H|[H|[]]]]; congruence.
- intros _. reflexivity.
- intros e log H. injection H as <- <-. exists []. reflexivity.
Qed.

(** On the shop session firefox and safari start, whatever the letter
    case of the request; edge is refused before any start. *)
Lemma get_driver_kinds_witness :
@get_driver nat (shop true) "FireFox" = (Ok 0%nat, [EvLaunch "firefox"])
/\ @get_driver nat (shop true) "SAFARI" = (Ok 0%nat, [EvLaunch "safari"])
/\ @get_driver nat (shop true) "edge"
   = (Raise ValueError, [EvLog ERROR (FailedInitDriver "edge")]).
Proof.
split; [|split].
- apply (proj1 (@get_driver_kinds nat (shop true) "FireFox")).
  right. left. reflexivity.
- apply (proj1 (@get_driver_kinds nat (shop true) "SAFARI")).
  right. right. left. reflexivity.
- apply (proj1 (proj2 (@get_driver_kinds nat (shop true) "edge"))).
  intros [H|[H|[H|[]]]]; discriminate H.
Defined.

(** X9: with an empty start URL, or a limit that is zero or negative,
    [scrape_dynamic] still starts the browser and quits it, loads no page,
    and returns the empty list. *)
Theorem dynamic_nothing_to_do {St : Type} {D : Driver St}
  (url : string) (selectors : list (string * string))
  (pagination_selector : option string) (limit : Z) (browser : string)
  (driver : St) (log : list event) :
get_driver browser = (Ok driver, log) ->
quit driver = None ->
truthy_str url = false \/ (limit <= 0)%Z ->
scrape_dynamic url selectors pagination_selector limit browser
= (Ok [], log ++ [EvQuit]).
Proof.
intros Hg Hq H. unfold scrape_dynamic. rewrite Hg.
assert (Hc : dynamic_cond limit (mkDyn driver (Some url) 0 [] log) = false).
{ unfold dynamic_cond. simpl. destruct H as [H|H].
  - rewrite H. reflexivity.
  - apply andb_false_iff. right. apply Z.ltb_ge. exact H. }
destruct (Z.to_nat limit); simpl; rewrite Hc; unfold dynamic_finally; simpl;
  rewrite Hq; reflexivity.
Qed.

Lemma dynamic_nothing_to_do_witness :
@scrape_dynamic nat (shop true) "https://shop.test/p1" shop_selectors None 0 "chrome"
= (Ok [], [EvLaunch "chrome"; EvQuit])
/\ @scrape_dynamic nat (shop true) "" shop_selectors None 5 "chrome"
   = (Ok [], [EvLaunch "chrome"; EvQuit]).
Proof.
split.
- apply (@dynamic_nothing_to_do nat (shop true) "https://shop.test/p1" shop_selectors
           None 0 "chrome" 0%nat [EvLaunch "chrome"]); [reflexivity|reflexivity|].
  right. lia.
- apply (@dynamic_nothing_to_do nat (shop true) "" shop_selectors
           None 5 "chrome" 0%nat [EvLaunch "chrome"]); [reflexivity|reflexivity|].
  left. reflexivity.
Defined.

(** ** Records of the dynamic walker *)

Section DynamicRecords.
Context {St : Type} {D : Driver St}.

Lemma dynamic_field_keys (st : St) (warn : string -> logmsg)
  (acc : record * bool * list event) (n s : string) :
~ In n (map fst (fst (fst acc))) ->
map fst (fst (fst (dynamic_field st warn acc (n, s))))
= map fst (fst (fst acc)) ++ (if is_trigger n then [] else [n]).
Proof.
destruct acc as [[data found] log]. unfold dynamic_field, is_trigger.
intros Hn. simpl in Hn.
destruct (str_in n ["color_variation"; "size_variation"]).
- simpl. rewrite app_nil_r. reflexivity.
- destruct (find_elements st s) as [els|e]; simpl;
    [|apply dict_set_keys_new; exact Hn].
  destruct (truthy_list els); simpl; [|apply dict_set_keys_new; exact Hn].
  destruct (dynamic_value st n els); simpl; apply dict_set_keys_new; exact Hn.
Qed.

Lemma dynamic_fold_keys (st : St) (warn : string -> logmsg)
  (l : list (string * string)) :
forall acc,
  NoDup (map fst l) ->
  (forall k, In k (map fst l) -> ~ In k (map fst (fst (fst acc)))) ->
  map fst (fst (fst (fold_left (dynamic_field st warn) l acc)))
  = map fst (fst (fst acc)) ++ filter (fun n => negb (is_trigger n)) (map fst l).
Proof.
induction l as [|[n s] l IH]; intros acc Hnd Hfresh; simpl.
- rewrite app_nil_r. reflexivity.
- simpl in Hnd. inversion Hnd as [|? ? Hn Hl]; subst.
  assert (Hn0 : ~ In n (map fst (fst (fst acc)))) by (apply Hfresh; left; reflexivity).
  rewrite IH; [| exact Hl |].
  + rewrite dynamic_field_keys by exact Hn0.
    destruct (is_trigger n); simpl; rewrite <- app_assoc; reflexivity.
  + intros k Hk. rewrite dynamic_field_keys by exact Hn0.
    intros Hin. apply in_app_or in Hin. destruct Hin as [Hin|Hin].
    * apply (Hfresh k); [right; exact Hk|exact Hin].
    * destruct (is_trigger n); [destruct Hin|].
      destruct Hin as [E|[]]. subst k. tauto.
Qed.

Lemma dynamic_fold_present (st : St) (warn : string -> logmsg) (k : string)
  (l : list (string * string)) :
forall acc,
  dict_get k (fst (fst acc)) <> None ->
  dict_get k (fst (fst (fold_left (dynamic_field st warn) l acc))) <> None.
Proof.
induction l as [|[n s] l IH]; intros acc Hk; simpl; [exact Hk|].
apply IH. destruct acc as [[data found] log]. simpl in Hk.
unfold dynamic_field.
destruct (str_in n ["color_variation"; "size_variation"]); [exact Hk|].
assert (Hset : forall v, dict_get k (dict_set n v data) <> None).
{ intros v. rewrite dict_get_set. destruct (String.eqb n k); [discriminate|exact Hk]. }
destruct (find_elements st s) as [els|e]; simpl; [|apply Hset].
destruct (truthy_list els); simpl; [|apply Hset].
destruct (dynamic_value st n els); simpl; apply Hset.
Qed.
End DynamicRecords.

Section VariationBounds.
Context {St : Type} {D : Driver St}.
Variable selectors : list (string * string).
Variable cur : string.

Lemma trigger_results (el : option elem) (warn : logmsg) (w w1 : dyn_state St)
  (ok : bool) :
trigger el warn w = (w1, ok) -> dy_results w1 = dy_results w.
Proof.
unfold trigger. destruct el as [e|].
- destruct (click_and_wait (dy_browser w) e) as [st1 [u|x]];
    intros H; injection H as <- _; reflexivity.
- intros H. injection H as <- _. reflexivity.
Qed.

Lemma size_loop_bound (ci : nat) (c : option elem) (sizes : list (option elem)) :
forall si w w' r,
  size_loop selectors cur ci c si sizes w = (w', r) ->
  exists vs, dy_results w' = dy_results w ++ vs
             /\ (List.length vs <= List.length sizes)%nat
             /\ Forall has_labels vs.
Proof.
induction sizes as [|s sizes IH]; intros si w w' r; simpl.
- intros H. injection H as <- _. exists []. rewrite app_nil_r. auto.
- destruct (trigger s (ErrorClickingSize si cur) w) as [w1 ok] eqn:Et.
  apply trigger_results in Et.
  assert (Hstop : (w1, r) = (w', r) ->
            exists vs, dy_results w' = dy_results w ++ vs
                       /\ (List.length vs <= S (List.length sizes))%nat
                       /\ Forall has_labels vs).
  { intros H. injection H as <-. exists []. rewrite app_nil_r, Et. simpl.
    repeat split; [lia|constructor]. }
  destruct ok.
  + destruct (label (dy_browser w1) c) as [vc|e].
    * destruct (label (dy_browser w1) s) as [vs0|e].
      -- destruct (dynamic_extract selectors (dy_browser w1) _ _)
           as [[var_data found] log] eqn:Ex.
         intros H. apply IH in H. destruct H as (vs & Hr & Hlen & Hlab).
         simpl in Hr. rewrite Et in Hr.
         assert (Hvar : has_labels var_data).
         { replace var_data with
             (fst (fst (dynamic_extract selectors (dy_browser w1)
                          (fun name => ErrorScrapingVariation name ci si cur)
                          [("variation_color", VStr vc); ("variation_size", VStr vs0)])))
             by (rewrite Ex; reflexivity).
           unfold dynamic_extract.
           split; apply dynamic_fold_present; simpl; discriminate. }
         destruct found.
         ++ exists (var_data :: vs). rewrite Hr, <- app_assoc. simpl.
            repeat split; [lia|constructor; assumption].
         ++ exists vs. rewrite Hr. repeat split; [lia|assumption].
      -- intros H. injection H as <- <-. apply Hstop. reflexivity.
    * intros H. injection H as <- <-. apply Hstop. reflexivity.
  + intros H. apply IH in H. destruct H as (vs & Hr & Hlen & Hlab).
    exists vs. rewrite Hr, Et. repeat split; [lia|assumption].
Qed.

Lemma color_loop_bound (sizes colors : list (option elem)) :
forall ci w w' r,
  color_loop selectors cur sizes ci colors w = (w', r) ->
  exists vs, dy_results w' = dy_results w ++ vs
             /\ (List.length vs <= List.length colors * List.length sizes)%nat
             /\ Forall has_labels vs.
Proof.
induction colors as [|c colors IH]; intros ci w w' r; simpl.
- intros H. injection H as <- _. exists []. rewrite app_nil_r. auto.
- destruct (trigger c (ErrorClickingColor ci cur) w) as [w1 ok] eqn:Et.
  apply trigger_results in Et.
  destruct ok.
  + destruct (size_loop selectors cur ci c 0 sizes w1) as [w2 [e|]] eqn:Es;
      apply size_loop_bound in Es; destruct Es as (vs & Hr & Hlen & Hlab).
    * intros H. injection H as <- _. exists vs. rewrite Hr, Et.
      repeat split; [lia|assumption].
    * intros H. apply IH in H. destruct H as (vs' & Hr' & Hlen' & Hlab').
      exists (vs ++ vs'). rewrite Hr', Hr, Et, app_assoc, length_app.
      repeat split; [lia|apply Forall_app; split; assumption].
  + intros H. apply IH in H. destruct H as (vs & Hr & Hlen & Hlab).
    exists vs. rewrite Hr, Et. repeat split; [lia|assumption].
Qed.
End VariationBounds.

(** What the variation enumeration of a page appends. *)
Lemma variations_appends {St : Type} {D : Driver St}
  (selectors : list (string * string)) (cur : string) (w w' : dyn_state St)
  (r : option exn) :
variations selectors cur w = (w', r) ->
exists vs,
  dy_results w' = dy_results w ++ vs
  /\ Forall has_labels vs
  /\ (forall colors sizes,
        axis (dy_browser w) (assoc "color_variation" selectors) = Ok colors ->
        axis (dy_browser w) (assoc "size_variation" selectors) = Ok sizes ->
        (List.length vs <= List.length colors * List.length sizes)%nat)
  /\ (truthy_opt (assoc "color_variation" selectors) = false ->
      truthy_opt (assoc "size_variation" selectors) = false ->
      vs = []).
Proof.
unfold variations.
destruct (truthy_opt (assoc "color_variation" selectors)
          || truthy_opt (assoc "size_variation" selectors)) eqn:Ecfg.
- destruct (axis (dy_browser w) (assoc "color_variation" selectors)) as [cs|e] eqn:Ec.
  + destruct (axis (dy_browser w) (assoc "size_variation" selectors)) as [ss|e] eqn:Es.
    * intros H. apply color_loop_bound in H. destruct H as (vs & Hr & Hlen & Hlab).
      exists vs. split; [exact Hr|]. split; [exact Hlab|]. split.
      -- intros colors sizes Hc' Hs'. injection Hc' as <-. injection Hs' as <-.
         exact Hlen.
      -- intros H1 H2. rewrite H1, H2 in Ecfg. discriminate.
    * intros H. injection H as <- _. exists []. rewrite app_nil_r.
      split; [reflexivity|]. split; [constructor|].
      split; [intros; discriminate|reflexivity].
  + intros H. injection H as <- _. exists []. rewrite app_nil_r.
    split; [reflexivity|]. split; [constructor|].
    split; [intros; discriminate|reflexivity].
- intros H. injection H as <- _. exists []. rewrite app_nil_r.
  split; [reflexivity|]. split; [constructor|].
  split; [intros; simpl; lia|reflexivity].
Qed.

(** X11: whatever fails on the way, the variation enumeration of a page
    only appends to the results, appends at most one record per pair of a
    color and a size element (the placeholder counting for one when an axis
    is not configured), and every record it appends carries both labels; a
    page without variation selectors gets no variation record. *)
Theorem variations_bound {St : Type} {D : Driver St}
  (selectors : list (string * string)) (cur : string) (w w' : dyn_state St)
  (r : option exn) :
variations selectors cur w = (w', r) ->
exists vs,
  dy_results w' = dy_results w ++ vs
  /\ Forall has_labels vs
  /\ (forall colors sizes,
        axis (dy_browser w) (assoc "color_variation" selectors) = Ok colors ->
        axis (dy_browser w) (assoc "size_variation" selectors) = Ok sizes ->
        (List.length vs <= List.length colors * List.length sizes)%nat)
  /\ (truthy_opt (assoc "color_variation" selectors) = false ->
      truthy_opt (assoc "size_variation" selectors) = false ->
      vs = []).
Proof.
exact (variations_appends selectors cur w w' r).
Qed.

(** The shop page, two colors and three sizes: at most six variation
    records, each with both labels. *)
Lemma variations_bound_witness :
exists vs,
  dy_results (fst (@variations nat (shop true) shop_selectors "u"
                     (mkDyn 0%nat (Some "u") 0 [] []))) = vs
  /\ Forall has_labels vs
  /\ (List.length vs <= 2 * 3)%nat.
Proof.
destruct (@variations_bound nat (shop true) shop_selectors "u"
            (mkDyn 0%nat (Some "u") 0 [] [])
            (fst (@variations nat (shop true) shop_selectors "u"
                    (mkDyn 0%nat (Some "u") 0 [] [])))
            (snd (@variations nat (shop true) shop_selectors "u"
                    (mkDyn 0%nat (Some "u") 0 [] [])))
            (surjective_pairing _))
  as (vs & Hr & Hlab & Hlen & _).
exists vs. split; [exact Hr|]. split; [exact Hlab|].
apply (Hlen [Some 1; Some 2]%nat [Some 3; Some 4; Some 5]%nat); reflexivity.
Defined.

Section AxisEnumeration.
Context {St : Type} {D : Driver St}.
Variable selectors : list (string * string).
Variable cur : string.
Variable s0 : St.
Variables colors sizes : list (option elem).

Hypothesis clicks_ok :
  forall st el, after s0 st -> In (Some el) (colors ++ sizes) ->
                snd (click_and_wait st el) = Ok tt.
Hypothesis texts_ok :
  forall st el, after s0 st -> In (Some el) (colors ++ sizes) ->
                exists t, text st el = Ok t.
Hypothesis data_found :
  forall st warn seed, after s0 st ->
                       snd (fst (dynamic_extract selectors st warn seed)) = true.

Lemma trigger_opt (el : option elem) (warn : logmsg) (w : dyn_state St) :
after s0 (dy_browser w) -> In el (colors ++ sizes) ->
exists w1, trigger el warn w = (w1, true) /\
           after s0 (dy_browser w1) /\ dy_results w1 = dy_results w.
Proof.
intros Hw Hel. unfold trigger. destruct el as [e|].
- pose proof (clicks_ok _ e Hw Hel) as Hc.
  pose proof (after_click_and_wait s0 _ e Hw) as Ha.
  destruct (click_and_wait (dy_browser w) e) as [st1 r]. simpl in *. subst r.
  eexists. split; [reflexivity|]. split; [exact Ha|reflexivity].
- exists w. auto.
Qed.

Lemma label_opt (st : St) (el : option elem) :
after s0 st -> In el (colors ++ sizes) -> exists l, label st el = Ok l.
Proof.
intros Hst Hel. destruct el as [e|]; simpl.
- destruct (texts_ok st e Hst Hel) as [t Ht]. rewrite Ht. eauto.
- eauto.
Qed.

Lemma size_loop_opt (ci : nat) (c : option elem) (Hc : In c colors) :
forall sizes' si w,
  incl sizes' sizes -> after s0 (dy_browser w) ->
  exists w' vs,
    size_loop selectors cur ci c si sizes' w = (w', None) /\
    after s0 (dy_browser w') /\
    dy_results w' = dy_results w ++ vs /\
    Forall2 (seeded_opt selectors cur s0) vs (map (pair c) sizes').
Proof.
induction sizes' as [|s sizes' IH]; intros si w Hincl Hw.
- exists w, []. simpl. rewrite app_nil_r. repeat split; auto.
- assert (Hs : In s (colors ++ sizes)).
  { apply in_or_app. right. apply Hincl. left. reflexivity. }
  assert (Hc' : In c (colors ++ sizes)) by (apply in_or_app; left; exact Hc).
  destruct (trigger_opt s (ErrorClickingSize si cur) w Hw Hs) as (w1 & Et & H1 & R1).
  destruct (label_opt _ c H1 Hc') as [lc Hlc].
  destruct (label_opt _ s H1 Hs) as [ls Hls].
  cbn [size_loop map]. rewrite Et, Hlc, Hls.
  pose proof (data_found (dy_browser w1)
    (fun name => ErrorScrapingVariation name ci si cur)
    [("variation_color", VStr lc); ("variation_size", VStr ls)] H1) as Hf.
  pose proof (dynamic_extract_warn (dy_browser w1)
    (fun name => ErrorScrapingVariation name ci si cur)
    (fun name => ErrorScraping name cur)
    [("variation_color", VStr lc); ("variation_size", VStr ls)] selectors) as Hwarn.
  destruct (dynamic_extract selectors (dy_browser w1) _ _) as [[var_data found] log].
  simpl in Hf. subst found.
  destruct (IH (S si) (add_result w1 true var_data log)) as (w' & vs & El & H' & R' & F').
  { intros x Hx. apply Hincl. right. exact Hx. }
  { exact H1. }
  exists w', (var_data :: vs). split; [exact El|]. split; [exact H'|]. split.
  + rewrite R'. simpl. rewrite R1, <- app_assoc. reflexivity.
  + constructor; [|exact F'].
    exists (dy_browser w1), lc, ls. simpl. repeat split; try assumption.
    unfold labelled. rewrite <- Hwarn. reflexivity.
Qed.

Lemma color_loop_opt :
forall colors' ci w,
  incl colors' colors -> after s0 (dy_browser w) ->
  exists w' vs,
    color_loop selectors cur sizes ci colors' w = (w', None) /\
    after s0 (dy_browser w') /\
    dy_results w' = dy_results w ++ vs /\
    Forall2 (seeded_opt selectors cur s0) vs (list_prod colors' sizes).
Proof.
induction colors' as [|c colors' IH]; intros ci w Hincl Hw.
- exists w, []. simpl. rewrite app_nil_r. repeat split; auto.
- assert (Hc : In c colors) by (apply Hincl; left; reflexivity).
  assert (Hc' : In c (colors ++ sizes)) by (apply in_or_app; left; exact Hc).
  destruct (trigger_opt c (ErrorClickingColor ci cur) w Hw Hc') as (w1 & Et & H1 & R1).
  destruct (size_loop_opt ci c Hc sizes 0%nat w1 (incl_refl _) H1)
    as (w2 & vs & Es & H2 & R2 & F2).
  destruct (IH (S ci) w2) as (w3 & vs' & Ec & H3 & R3 & F3).
  { intros x Hx. apply Hincl. right. exact Hx. }
  { exact H2. }
  exists w3, (vs ++ vs'). cbn [color_loop list_prod]. rewrite Et, Es.
  split; [exact Ec|]. split; [exact H3|]. split.
  + rewrite R3, R2, R1, app_assoc. reflexivity.
  + apply Forall2_app; assumption.
Qed.
End AxisEnumeration.

Lemma Forall2_map_right {A B C : Type} (R : A -> C -> Prop) (f : B -> C)
  (l : list A) (l' : list B) :
Forall2 R l (map f l') -> Forall2 (fun a b => R a (f b)) l l'.
Proof.
revert l. induction l' as [|b l' IH]; intros l H; simpl in H.
- inversion H. constructor.
- inversion H; subst. constructor; [assumption|]. apply IH. assumption.
Qed.

Lemma list_prod_placeholder_r {A B : Type} (l : list A) (b : B) :
list_prod l [b] = map (fun a => (a, b)) l.
Proof.
induction l as [|a l IH]; simpl; [reflexivity|]. rewrite IH. reflexivity.
Qed.

Lemma labelled_labels {St : Type} {D : Driver St}
  (selectors : list (string * string)) (cur : string) (st : St) (lc ls : string) :
(~ In "variation_color" (map fst selectors) ->
 dict_get "variation_color" (labelled selectors cur st lc ls) = Some (VStr lc))
/\ (~ In "variation_size" (map fst selectors) ->
    dict_get "variation_size" (labelled selectors cur st lc ls) = Some (VStr ls)).
Proof.
unfold labelled, dynamic_extract.
split; intros H; rewrite dynamic_fold_other by exact H; reflexivity.
Qed.

(** X12: with only one variation selector configured and nothing failing,
    the enumeration appends one variation record per element of that axis,
    in the order of the matched elements, and the label of the other axis
    is the literal "N/A". *)
Theorem variations_single_axis {St : Type} {D : Driver St}
  (selectors : list (string * string)) (cur : string) (w : dyn_state St)
  (sel : string) (els : list elem) :
truthy_str sel = true ->
find_elements (dy_browser w) sel = Ok els ->
(forall st el, after (dy_browser w) st -> In el els ->
               snd (click_and_wait st el) = Ok tt) ->
(forall st el, after (dy_browser w) st -> In el els -> exists t, text st el = Ok t) ->
(forall st warn seed, after (dy_browser w) st ->
                      snd (fst (dynamic_extract selectors st warn seed)) = true) ->
(assoc "color_variation" selectors = Some sel ->
 truthy_opt (assoc "size_variation" selectors) = false ->
 exists w' vs,
   variations selectors cur w = (w', None)
   /\ dy_results w' = dy_results w ++ vs
   /\ Forall2 (fun r c =>
                 exists st tc,
                   after (dy_browser w) st /\ text st c = Ok tc /\
                   r = labelled selectors cur st (strip tc) "N/A") vs els)
/\ (assoc "size_variation" selectors = Some sel ->
    truthy_opt (assoc "color_variation" selectors) = false ->
    exists w' vs,
      variations selectors cur w = (w', None)
      /\ dy_results w' = dy_results w ++ vs
      /\ Forall2 (fun r s =>
                    exists st ts,
                      after (dy_browser w) st /\ text st s = Ok ts /\
                      r = labelled selectors cur st "N/A" (strip ts)) vs els).
Proof.
intros Hsel Hfind Hclick Htext Hfound.
assert (Hin : forall (other : list (option elem)) el,
          (forall e, ~ In (Some e) other) ->
          In (Some el) (map Some els ++ other) \/ In (Some el) (other ++ map Some els) ->
          In el els).
{ intros other el Hother [H|H]; apply in_app_or in H; destruct H as [H|H];
    try (exfalso; exact (Hother _ H));
    apply in_map_iff in H; destruct H as (x & E & Hx); injection E as ->; exact Hx. }
assert (Hnone : forall e : elem, ~ In (Some e) [None]).
{ intros e [E|[]]. discriminate. }
split.
- intros Hc Hs.
  destruct (color_loop_opt selectors cur (dy_browser w) (map Some els) [None])
    with (colors' := map Some els) (ci := 0%nat) (w := w)
    as (w' & vs & El & _ & Hr & Hall).
  + intros st el Hst H. apply Hclick; [exact Hst|].
    apply (Hin [None] el Hnone). left. exact H.
  + intros st el Hst H. apply Htext; [exact Hst|].
    apply (Hin [None] el Hnone). left. exact H.
  + exact Hfound.
  + apply incl_refl.
  + constructor.
  + exists w', vs. split; [|split; [exact Hr|]].
    * unfold variations. rewrite Hc. simpl truthy_opt at 1. rewrite Hsel. simpl orb.
      unfold axis. simpl truthy_opt at 1. rewrite Hsel, Hfind, Hs. exact El.
    * rewrite list_prod_placeholder_r in Hall. apply Forall2_map_right in Hall.
      apply Forall2_map_right in Hall.
      eapply Forall2_impl; [|exact Hall].
      intros r c (st & lc & ls & Hst & Hlc & Hls & ->). simpl in Hlc, Hls.
      destruct (text st c) as [tc|] eqn:Et; [|discriminate].
      injection Hlc as <-. injection Hls as <-.
      exists st, tc. auto.
- intros Hs Hc.
  destruct (color_loop_opt selectors cur (dy_browser w) [None] (map Some els))
    with (colors' := [@None elem]) (ci := 0%nat) (w := w)
    as (w' & vs & El & _ & Hr & Hall).
  + intros st el Hst H. apply Hclick; [exact Hst|].
    apply (Hin [None] el Hnone). right. exact H.
  + intros st el Hst H. apply Htext; [exact Hst|].
    apply (Hin [None] el Hnone). right. exact H.
  + exact Hfound.
  + apply incl_refl.
  + constructor.
  + exists w', vs. split; [|split; [exact Hr|]].
    * unfold variations. rewrite Hs, Hc. simpl truthy_opt. rewrite Hsel. simpl orb.
      unfold axis. rewrite Hc. simpl truthy_opt. rewrite Hsel, Hfind. exact El.
    * simpl in Hall. rewrite app_nil_r in Hall. apply Forall2_map_right in Hall.
      apply Forall2_map_right in Hall.
      eapply Forall2_impl; [|exact Hall].
      intros r s (st & lc & ls & Hst & Hlc & Hls & ->). simpl in Hlc, Hls.
      destruct (text st s) as [ts|] eqn:Et; [|discriminate].
      injection Hlc as <-. injection Hls as <-.
      exists st, ts. auto.
Qed.

(** The shop page with the color trigger only: one record per color, the
    size label being "N/A". *)
Lemma variations_single_axis_witness :
exists w' vs,
  @variations nat (shop true) color_only "u" (mkDyn 0%nat (Some "u") 0 [] [])
  = (w', None)
  /\ dy_results w' = vs
  /\ map labels vs = [(Some (VStr "Red"), Some (VStr "N/A"));
                      (Some (VStr "Blue"), Some (VStr "N/A"))].
Proof.
destruct (proj1 (@variations_single_axis nat (shop true) color_only "u"
                   (mkDyn 0%nat (Some "u") 0 [] []) ".color" [1; 2]%nat
                   eq_refl eq_refl
                   (fun st el _ _ => eq_refl)
                   (fun st el _ _ => ex_intro _ (shop_text el) eq_refl)
                   (fun st warn seed _ => eq_refl))
            eq_refl eq_refl) as (w' & vs & Hv & Hr & _).
exists w', vs. split; [exact Hv|]. split; [exact Hr|].
vm_compute in Hv. injection Hv as <-. simpl in Hr. subst vs. reflexivity.
Defined.

(** ** The dynamic walk as a whole *)

Section DynamicInvariants.
Context {St : Type} {D : Driver St}.
Variable selectors : list (string * string).
Variable pagination_selector : option string.
Variable limit : Z.

(** A property of the loop state that every turn keeps holds when the loop
    is left, however it is left. *)
Lemma dynamic_loop_invariant (P : dyn_state St -> Prop) :
(forall w, dynamic_cond limit w = true -> P w ->
           P (dstep_state (dynamic_body selectors pagination_selector w))) ->
forall fuel w w' r,
  P w ->
  dynamic_loop selectors pagination_selector limit fuel w = Some (w', r) ->
  P w'.
Proof.
intros Hstep. induction fuel as [|fuel IH]; intros w w' r HP; simpl.
- destruct (dynamic_cond limit w); [discriminate|].
  intros H. injection H as <- _. exact HP.
- destruct (dynamic_cond limit w) eqn:Hc.
  + specialize (Hstep w Hc HP).
    destruct (dynamic_body selectors pagination_selector w) as [w1|w1|w1 e];
      simpl in Hstep.
    * intros H. injection H as <- _. exact Hstep.
    * intros H. apply (IH w1 w' r Hstep H).
    * intros H. injection H as <- _. exact Hstep.
  + intros H. injection H as <- _. exact HP.
Qed.

(** A turn navigates exactly once, and appends to the results the base
    record, if data was found, and the variation records. *)
Lemma dynamic_body_appends (w : dyn_state St) (cur : string) :
dy_url w = Some cur ->
count is_navigate (dy_trace (dstep_state (dynamic_body selectors pagination_selector w)))
= S (count is_navigate (dy_trace w))
/\ exists rs,
     dy_results (dstep_state (dynamic_body selectors pagination_selector w))
     = dy_results w ++ rs
     /\ (truthy_opt (assoc "color_variation" selectors) = false ->
         truthy_opt (assoc "size_variation" selectors) = false ->
         (List.length rs <= 1)%nat).
Proof.
intros Hu. unfold dynamic_body. rewrite Hu.
assert (H1 : count is_navigate [EvNavigate cur] = 1%nat) by reflexivity.
assert (H3 : count is_navigate (@nil event) = 0%nat) by reflexivity.
destruct (navigate (dy_browser w) cur) as [st1 [e|]].
{ simpl. rewrite count_app. split; [lia|]. exists []. rewrite app_nil_r.
  split; [reflexivity|simpl; lia]. }
destruct (until (polls 10) (presence_of_element_located READY) st1) as [st2 [u|e]].
2:{ simpl. rewrite !count_app. split; [unfold count at 3; simpl; lia|].
    exists []. rewrite app_nil_r. split; [reflexivity|simpl; lia]. }
destruct (base_extract selectors cur st2) as [[base found] log] eqn:Eb.
assert (Hlog : forallb page_event log = true).
{ pose proof (extract_log_page selectors st2 (fun name => ErrorScraping name cur) [])
    as H. unfold base_extract in Eb. rewrite Eb in H. exact H. }
apply page_events_count in Hlog.
destruct (variations selectors cur _) as [w3 r] eqn:Ev.
pose proof (same_page_counts _ _ (same_page_variations selectors cur _ _ _ Ev))
  as [Hn _].
simpl in Hn. rewrite !count_app in Hn.
destruct (variations_appends selectors cur _ _ _ Ev) as (vs & Hr & _ & _ & Hnone).
simpl in Hr.
assert (Hres : exists rs, dy_results w3 = dy_results w ++ rs
               /\ (truthy_opt (assoc "color_variation" selectors) = false ->
                   truthy_opt (assoc "size_variation" selectors) = false ->
                   (List.length rs <= 1)%nat)).
{ destruct found.
  - exists (base :: vs). rewrite Hr, <- app_assoc. split; [reflexivity|].
    intros A B. rewrite (Hnone A B). simpl. lia.
  - exists vs. split; [exact Hr|]. intros A B. rewrite (Hnone A B). simpl. lia. }
destruct r as [e|]; simpl.
{ split; [lia|exact Hres]. }
destruct (paginate pagination_selector cur (dy_browser w3)) as [[st4 next] evs] eqn:Ep.
pose proof (paginate_events selectors pagination_selector limit cur (dy_browser w3))
  as Hp.
rewrite Ep in Hp. apply page_events_count in Hp. simpl in Hp.
simpl. rewrite !count_app.
assert (H5 : forall n, count is_navigate [EvLog INFO (ScrapedDynamicPage n next)] = 0%nat)
  by reflexivity.
rewrite H5. split; [lia|exact Hres].
Qed.
End DynamicInvariants.

(** X13: without variation selectors [scrape_dynamic] returns at most one
    record per page it navigated to, hence at most [limit] records. *)
Theorem dynamic_records_bound {St : Type} {D : Driver St}
  (url : string) (selectors : list (string * string))
  (pagination_selector : option string) (limit : Z) (browser : string)
  (rs : list record) :
truthy_opt (assoc "color_variation" selectors) = false ->
truthy_opt (assoc "size_variation" selectors) = false ->
fst (scrape_dynamic url selectors pagination_selector limit browser) = Ok rs ->
(List.length rs
 <= count is_navigate
      (snd (scrape_dynamic url selectors pagination_selector limit browser)))%nat
/\ (List.length rs <= Z.to_nat limit)%nat.
Proof.
intros Hc Hs. unfold scrape_dynamic.
pose proof (get_driver_no_quit (St := St) browser) as [_ Hn0].
destruct (get_driver browser) as [[d|e] log]; [|discriminate]. simpl in Hn0.
destruct (dynamic_loop_total selectors pagination_selector limit (Z.to_nat limit)
            (mkDyn d (Some url) 0 [] log)) as [[w r] Hl].
{ simpl. lia. }
rewrite Hl.
assert (HP : (List.length (dy_results w) <= count is_navigate (dy_trace w))%nat).
{ apply (dynamic_loop_invariant selectors pagination_selector limit
           (fun w => (List.length (dy_results w)
                      <= count is_navigate (dy_trace w))%nat))
    with (fuel := Z.to_nat limit) (w := mkDyn d (Some url) 0 [] log) (r := r);
    [|simpl; lia|exact Hl].
  intros w0 Hcond HP0. unfold dynamic_cond in Hcond.
  destruct (dy_url w0) as [cur|] eqn:Hu; [|discriminate].
  destruct (dynamic_body_appends selectors pagination_selector limit w0 cur Hu)
    as (Hnav & rs0 & Hr & Hlen).
  rewrite Hnav, Hr, length_app. specialize (Hlen Hc Hs). lia. }
pose proof (dynamic_loop_counts selectors pagination_selector limit _ _ _ _ Hl)
  as [Hcnt _].
simpl in Hcnt. replace (limit - 0)%Z with limit in Hcnt by lia.
unfold dynamic_finally.
assert (Hq : count is_navigate (dy_trace w ++ [EvQuit])
             = count is_navigate (dy_trace w)).
{ rewrite count_app. unfold count. simpl. lia. }
destruct (quit (dy_browser w)); [discriminate|].
destruct r; [discriminate|]. simpl. intros H. injection H as <-. lia.
Qed.

Lemma dynamic_records_bound_witness :
exists rs,
  fst (@scrape_dynamic nat (shop true) "https://shop.test/p1"
         [("title", "h1"); ("price", ".price")] None 5 "chrome") = Ok rs
  /\ (List.length rs <= 5)%nat.
Proof.
eexists. split; [reflexivity|].
apply (@dynamic_records_bound nat (shop true) "https://shop.test/p1"
         [("title", "h1"); ("price", ".price")] None 5 "chrome" _
         eq_refl eq_refl eq_refl).
Defined.

(** ** The records that the dynamic walker appends *)

Section WalkRecords.
Context {St : Type} {D : Driver St}.
Variable selectors : list (string * string).
Variables Pb Pv : record -> Prop.

Hypothesis base_ok :
  forall cur st, Pb (fst (fst (base_extract selectors cur st))).
Hypothesis var_ok :
  forall st warn lc ls,
    Pv (fst (fst (dynamic_extract selectors st warn
                    [("variation_color", VStr lc); ("variation_size", VStr ls)]))).

(** Every record that the loop over the size elements appends is a seeded
    extraction. *)
Lemma size_loop_records (cur : string) (ci : nat) (c : option elem)
  (sizes : list (option elem)) :
forall si w w' r,
  size_loop selectors cur ci c si sizes w = (w', r) ->
  exists vs, dy_results w' = dy_results w ++ vs /\ Forall Pv vs.
Proof.
induction sizes as [|s sizes IH]; intros si w w' r; simpl.
- intros H. injection H as <- _. exists []. rewrite app_nil_r. auto.
- destruct (trigger s (ErrorClickingSize si cur) w) as [w1 ok] eqn:Et.
  apply trigger_results in Et.
  assert (Hstop : forall r0, (w1, r0) = (w', r) ->
            exists vs, dy_results w' = dy_results w ++ vs /\ Forall Pv vs).
  { intros r0 H. injection H as <- _. exists []. rewrite app_nil_r, Et. auto. }
  destruct ok.
  + destruct (label (dy_browser w1) c) as [vc|e]; [|apply Hstop].
    destruct (label (dy_browser w1) s) as [vs0|e]; [|apply Hstop].
    pose proof (var_ok (dy_browser w1)
                  (fun name => ErrorScrapingVariation name ci si cur) vc vs0) as Hvar.
    destruct (dynamic_extract selectors (dy_browser w1) _ _)
      as [[var_data found] log].
    simpl in Hvar.
    intros H. apply IH in H. destruct H as (vs & Hr & Hvs).
    simpl in Hr. rewrite Et in Hr.
    destruct found.
    * exists (var_data :: vs). rewrite Hr, <- app_assoc.
      split; [reflexivity|constructor; assumption].
    * exists vs. split; assumption.
  + intros H. apply IH in H. destruct H as (vs & Hr & Hvs).
    exists vs. rewrite Hr, Et. split; [reflexivity|assumption].
Qed.

Lemma color_loop_records (cur : string) (sizes colors : list (option elem)) :
forall ci w w' r,
  color_loop selectors cur sizes ci colors w = (w', r) ->
  exists vs, dy_results w' = dy_results w ++ vs /\ Forall Pv vs.
Proof.
induction colors as [|c colors IH]; intros ci w w' r; simpl.
- intros H. injection H as <- _. exists []. rewrite app_nil_r. auto.
- destruct (trigger c (ErrorClickingColor ci cur) w) as [w1 ok] eqn:Et.
  apply trigger_results in Et.
  destruct ok.
  + destruct (size_loop selectors cur ci c 0 sizes w1) as [w2 [e|]] eqn:Es;
      apply size_loop_records in Es; destruct Es as (vs & Hr & Hvs).
    * intros H. injection H as <- _. exists vs. rewrite Hr, Et.
      split; [reflexivity|assumption].
    * intros H. apply IH in H. destruct H as (vs' & Hr' & Hvs').
      exists (vs ++ vs'). rewrite Hr', Hr, Et, app_assoc.
      split; [reflexivity|apply Forall_app; split; assumption].
  + intros H. apply IH in H. destruct H as (vs & Hr & Hvs).
    exists vs. rewrite Hr, Et. split; [reflexivity|assumption].
Qed.

Lemma variations_records (cur : string) (w w' : dyn_state St) (r : option exn) :
variations selectors cur w = (w', r) ->
exists vs, dy_results w' = dy_results w ++ vs /\ Forall Pv vs.
Proof.
unfold variations.
assert (Hstop : forall r0, (w, r0) = (w', r) ->
          exists vs, dy_results w' = dy_results w ++ vs /\ Forall Pv vs).
{ intros r0 H. injection H as <- _. exists []. rewrite app_nil_r. auto. }
destruct (truthy_opt (assoc "color_variation" selectors)
          || truthy_opt (assoc "size_variation" selectors)); [|apply Hstop].
destruct (axis (dy_browser w) (assoc "color_variation" selectors)) as [cs|e];
  [|apply Hstop].
destruct (axis (dy_browser w) (assoc "size_variation" selectors)) as [ss|e];
  [|apply Hstop].
apply color_loop_records.
Qed.

(** What one turn of the page loop appends: the base record, if data was
    found, and then the variation records. *)
Lemma dynamic_body_records (pagination_selector : option string)
  (w : dyn_state St) :
exists bs vs,
  dy_results (dstep_state (dynamic_body selectors pagination_selector w))
  = dy_results w ++ bs ++ vs
  /\ (List.length bs <= 1)%nat /\ Forall Pb bs /\ Forall Pv vs.
Proof.
assert (Hnone : forall rs : list record,
          rs = dy_results w ->
          exists bs vs, rs = dy_results w ++ bs ++ vs
                        /\ (List.length bs <= 1)%nat /\ Forall Pb bs /\ Forall Pv vs).
{ intros rs E. exists [], []. simpl. rewrite app_nil_r. auto. }
unfold dynamic_body.
destruct (dy_url w) as [cur|]; [|apply Hnone; reflexivity].
destruct (navigate (dy_browser w) cur) as [st1 [e|]]; [apply Hnone; reflexivity|].
destruct (until (polls 10) (presence_of_element_located READY) st1) as [st2 [u|e]];
  [|apply Hnone; reflexivity].
pose proof (base_ok cur st2) as Hb.
destruct (base_extract selectors cur st2) as [[base found] log].
simpl in Hb.
destruct (variations selectors cur _) as [w3 r] eqn:Ev.
apply variations_records in Ev. destruct Ev as (vs & Hr & Hvs). simpl in Hr.
assert (Hres : exists bs vs0,
          dy_results w3 = dy_results w ++ bs ++ vs0
          /\ (List.length bs <= 1)%nat /\ Forall Pb bs /\ Forall Pv vs0).
{ destruct found.
  - exists [base], vs. rewrite Hr, <- app_assoc.
    split; [reflexivity|]. split; [simpl; lia|]. split; [|exact Hvs].
    constructor; [exact Hb|constructor].
  - exists [], vs. split; [exact Hr|]. split; [simpl; lia|].
    split; [constructor|exact Hvs]. }
destruct r as [e|]; simpl; [exact Hres|].
destruct (paginate pagination_selector cur (dy_browser w3)) as [[st4 next] evs].
simpl. exact Hres.
Qed.

(** Every record that [scrape_dynamic] returns is a base record or a
    variation record. *)
Lemma scrape_dynamic_records (url : string) (pagination_selector : option string)
  (limit : Z) (browser : string) (rs : list record) :
fst (scrape_dynamic url selectors pagination_selector limit browser) = Ok rs ->
Forall (fun r => Pb r \/ Pv r) rs.
Proof.
unfold scrape_dynamic.
destruct (get_driver browser) as [[d|e] log]; [|discriminate].
destruct (dynamic_loop_total selectors pagination_selector limit (Z.to_nat limit)
            (mkDyn d (Some url) 0 [] log)) as [[w r] Hl].
{ simpl. lia. }
rewrite Hl.
assert (HP : Forall (fun r => Pb r \/ Pv r) (dy_results w)).
{ apply (dynamic_loop_invariant selectors pagination_selector limit
           (fun w => Forall (fun r => Pb r \/ Pv r) (dy_results w)))
    with (fuel := Z.to_nat limit) (w := mkDyn d (Some url) 0 [] log) (r := r);
    [|constructor|exact Hl].
  intros w0 _ HP0.
  destruct (dynamic_body_records pagination_selector w0) as (bs & vs & Hr & _ & Hb & Hv).
  rewrite Hr. apply Forall_app. split; [exact HP0|]. apply Forall_app. split.
  - apply (Forall_impl _ (fun r H => or_introl H) Hb).
  - apply (Forall_impl _ (fun r H => or_intror H) Hv). }
unfold dynamic_finally.
destruct (quit (dy_browser w)); [discriminate|].
destruct r; [discriminate|]. simpl. intros H. injection H as <-. exact HP.
Qed.
End WalkRecords.

(** X10: the keys of a base record of [scrape_dynamic] are the configured
    field names without the two variation triggers, in configuration order;
    a variation record has the two labels first and then the same keys
    (no field being named like a label).  A turn of the page loop appends
    at most one record of the first kind and then records of the second
    kind, and every record that [scrape_dynamic] returns is of one of the
    two kinds. *)
Theorem dynamic_record_keys {St : Type} {D : Driver St}
  (url : string) (selectors : list (string * string))
  (pagination_selector : option string) (limit : Z) (browser : string) :
NoDup (map fst selectors) ->
~ In "variation_color" (map fst selectors) ->
~ In "variation_size" (map fst selectors) ->
(forall w : dyn_state St,
   exists bs vs,
     dy_results (dstep_state (dynamic_body selectors pagination_selector w))
     = dy_results w ++ bs ++ vs
     /\ (List.length bs <= 1)%nat
     /\ Forall (fun r => map fst r
                         = filter (fun n => negb (is_trigger n)) (map fst selectors))
          bs
     /\ Forall (fun r => map fst r
                         = "variation_color" :: "variation_size"
                             :: filter (fun n => negb (is_trigger n))
                                  (map fst selectors))
          vs)
/\ (forall rs,
      fst (scrape_dynamic (St := St) url selectors pagination_selector limit browser)
      = Ok rs ->
      Forall (fun r =>
                map fst r = filter (fun n => negb (is_trigger n)) (map fst selectors)
                \/ map fst r
                   = "variation_color" :: "variation_size"
                       :: filter (fun n => negb (is_trigger n)) (map fst selectors))
        rs).
Proof.
intros Hnd Hc Hs.
assert (Hb : forall cur (st : St),
          map fst (fst (fst (base_extract selectors cur st)))
          = filter (fun n => negb (is_trigger n)) (map fst selectors)).
{ intros cur st. unfold base_extract, dynamic_extract.
  rewrite dynamic_fold_keys; auto. }
assert (Hv : forall (st : St) warn lc ls,
          map fst (fst (fst (dynamic_extract selectors st warn
                               [("variation_color", VStr lc);
                                ("variation_size", VStr ls)])))
          = "variation_color" :: "variation_size"
              :: filter (fun n => negb (is_trigger n)) (map fst selectors)).
{ intros st warn lc ls. unfold dynamic_extract.
  rewrite dynamic_fold_keys; [reflexivity|exact Hnd|].
  intros k Hk [E|[E|[]]]; simpl in E; subst k; tauto. }
split.
- intros w. apply (dynamic_body_records selectors _ _ Hb Hv).
- intros rs. apply (scrape_dynamic_records selectors _ _ Hb Hv).
Qed.

(** The shop page with a note field: the base record and the variation
    records that the walker returns. *)
Lemma dynamic_record_keys_witness :
exists rs,
  fst (@scrape_dynamic nat (shop true) "https://shop.test/p1"
         (("note", ".note") :: shop_selectors) None 5 "chrome") = Ok rs
  /\ (2 <= List.length rs)%nat
  /\ Forall (fun r => map fst r = ["note"; "title"]
                      \/ map fst r
                         = ["variation_color"; "variation_size"; "note"; "title"])
       rs.
Proof.
assert (Hnd : NoDup (map fst (("note", ".note") :: shop_selectors))).
{ repeat constructor; simpl; intuition discriminate. }
eexists. split; [reflexivity|]. split; [simpl; lia|].
apply (proj2 (@dynamic_record_keys nat (shop true) "https://shop.test/p1"
                (("note", ".note") :: shop_selectors) None 5 "chrome" Hnd
                ltac:(simpl; intuition discriminate)
                ltac:(simpl; intuition discriminate))).
reflexivity.
Defined.

(** ** The JSON descent of the API fetcher *)

Lemma descend_empty (json_path : list string) :
descend (JDict []) json_path = Ok (JDict []).
Proof.
induction json_path as [|key rest IH]; simpl; [reflexivity|exact IH].
Qed.

(** X14: a key of [json_path] that is missing never raises: the descent
    goes on from an empty mapping, so the fetcher returns a list holding one
    empty mapping, whatever keys follow. *)
Theorem api_missing_key (api_get : nat -> string -> headers -> res json)
  (url : string) (before : list string) (key : string) (rest : list string)
  (hdrs : option headers) (retries : Z) (body : json)
  (d : list (string * json)) :
(0 < retries)%Z ->
api_get 0%nat url (match hdrs with Some ((_ :: _) as h) => h | _ => [] end) = Ok body ->
descend body before = Ok (JDict d) ->
jassoc key d = None ->
descend body (before ++ key :: rest) = Ok (JDict [])
/\ scrape_api api_get url (before ++ key :: rest) hdrs retries
   = (Ok (JList [JDict []]), [EvHttpGet url; EvLog INFO (ApiSuccess url)]).
Proof.
intros Hpos Hget Hbefore Hmiss.
assert (Hd : descend body (before ++ key :: rest) = Ok (JDict [])).
{ clear Hget. revert body Hbefore.
  induction before as [|k before IH]; intros body Hbefore; simpl in *.
  - injection Hbefore as ->. rewrite Hmiss. apply descend_empty.
  - destruct body; try discriminate. apply IH. exact Hbefore. }
split; [exact Hd|].
unfold scrape_api. destruct (Z.to_nat retries) as [|n] eqn:En; [lia|].
simpl. unfold api_try. simpl Z.to_nat. rewrite Hget, Hd. reflexivity.
Qed.

Lemma api_missing_key_witness :
scrape_api flaky_api "https://api.test/v1" ["data"; "pages"; "first"] None 3
= (Ok (JList [JDict []]),
   failed_attempts "https://api.test/v1" 0 2
   ++ [EvHttpGet "https://api.test/v1"; EvLog INFO (ApiSuccess "https://api.test/v1")])
/\ descend (JDict [("data", JDict [("items", JList [JNum 1; JNum 2])])])
     (["data"] ++ "pages" :: ["first"]) = Ok (JDict []).
Proof.
split; [reflexivity|].
apply (proj1 (api_missing_key
                (fun _ _ _ => Ok (JDict [("data", JDict [("items", JList [JNum 1; JNum 2])])]))
                "u" ["data"] "pages" ["first"] None 1
                (JDict [("data", JDict [("items", JList [JNum 1; JNum 2])])])
                [("items", JList [JNum 1; JNum 2])]
                ltac:(lia) eq_refl eq_refl eq_refl)).
Defined.

(** X15: descending a path is descending its first part and then the rest
    from where that ended; the only exception the descent raises is
    [AttributeError], on a value that is not a mapping. *)
Theorem descend_app (data : json) (p q : list string) :
descend data (p ++ q)
= match descend data p with
  | Ok data' => descend data' q
  | Raise e => Raise e
  end
/\ (forall e, descend data p = Raise e -> e = AttributeError).
Proof.
revert data. induction p as [|k p IH]; intros data; simpl.
- split; [reflexivity|discriminate].
- destruct data; try (split; [reflexivity|intros e H; injection H as <-; reflexivity]).
  apply IH.
Qed.

Section ApiResults.
Variable api_get : nat -> string -> headers -> res json.
Variable url : string.
Variable json_path : list string.
Variable hdrs : option headers.
Variable retries : Z.

Lemma api_attempts_no_dict (todo : nat) :
forall a trace data,
  fst (api_attempts api_get url json_path hdrs retries todo a trace) = Ok data ->
  forall d, data <> JDict d.
Proof.
induction todo as [|todo IH]; intros a trace data; simpl.
- intros H. injection H as <-. discriminate.
- unfold api_try.
  destruct (api_get (Z.to_nat a) url _) as [body|e].
  + destruct (descend body json_path) as [x|e]; simpl.
    * intros H. injection H as <-. destruct x; simpl; discriminate.
    * destruct e; simpl; try discriminate.
      destruct (a =? retries - 1)%Z; simpl.
      -- intros H. injection H as <-. discriminate.
      -- apply IH.
  + destruct e; simpl; try discriminate.
    destruct (a =? retries - 1)%Z; simpl.
    * intros H. injection H as <-. discriminate.
    * apply IH.
Qed.

Lemma api_attempts_escape (k : nat) (e : exn) :
forall todo a trace,
  (a + Z.of_nat todo = retries)%Z ->
  (k < todo)%nat ->
  (forall i, (i < k)%nat ->
     api_try api_get url json_path hdrs (a + Z.of_nat i)%Z = Raise RequestException) ->
  api_try api_get url json_path hdrs (a + Z.of_nat k)%Z = Raise e ->
  e <> RequestException ->
  api_attempts api_get url json_path hdrs retries todo a trace
  = (Raise e, trace ++ failed_attempts url a k ++ [EvHttpGet url]).
Proof.
intros todo a trace Hsum Hk Hfail He Hne.
rewrite (api_attempts_failures api_get url json_path hdrs retries k todo a trace
           Hsum Hk Hfail).
destruct (todo - k)%nat as [|m] eqn:Em; [lia|].
simpl. rewrite He. rewrite <- app_assoc.
destruct e; try reflexivity. congruence.
Qed.
End ApiResults.

(** X16: [scrape_api] never returns a bare mapping: what it returns is
    [None], a list, or a scalar; a mapping reached by the descent comes back
    as a one-element list. *)
Theorem api_never_bare_dict (api_get : nat -> string -> headers -> res json)
  (url : string) (json_path : list string) (hdrs : option headers) (retries : Z)
  (data : json) :
fst (scrape_api api_get url json_path hdrs retries) = Ok data ->
forall d, data <> JDict d.
Proof.
unfold scrape_api. apply api_attempts_no_dict.
Qed.

Lemma api_never_bare_dict_witness :
fst (scrape_api flaky_api "https://api.test/v1" ["data"] None 3)
= Ok (JList [JDict [("items", JList [JNum 1; JNum 2])]])
/\ JList [JDict [("items", JList [JNum 1; JNum 2])]]
   <> JDict [("items", JList [JNum 1; JNum 2])].
Proof.
split; [reflexivity|].
apply (api_never_bare_dict flaky_api "https://api.test/v1" ["data"] None 3).
reflexivity.
Defined.

(** X17: an exception other than [RequestException] raised by an attempt
    (a body that is not a mapping where a key is looked up, for one) is not
    caught: after the failed attempts before it, the fetcher makes that one
    request and the exception leaves it, with no log line, no wait and no
    further attempt. *)
Theorem api_other_exception_escapes
  (api_get : nat -> string -> headers -> res json)
  (url : string) (json_path : list string) (hdrs : option headers) (retries : Z)
  (k : nat) (e : exn) :
(k < Z.to_nat retries)%nat ->
(forall i, (i < k)%nat ->
   api_try api_get url json_path hdrs (Z.of_nat i) = Raise RequestException) ->
api_try api_get url json_path hdrs (Z.of_nat k) = Raise e ->
e <> RequestException ->
scrape_api api_get url json_path hdrs retries
= (Raise e, failed_attempts url 0 k ++ [EvHttpGet url]).
Proof.
intros Hk Hfail He Hne. unfold scrape_api.
rewrite (api_attempts_escape api_get url json_path hdrs retries k e
           (Z.to_nat retries) 0 []); try assumption; try reflexivity.
lia.
Qed.

(** The flaky endpoint answers a mapping whose [items] are a list: a path
    that goes on below [items] raises [AttributeError] at the third
    attempt. *)
Lemma api_other_exception_escapes_witness :
scrape_api flaky_api "https://api.test/v1" ["data"; "items"; "first"] None 3
= (Raise AttributeError,
   failed_attempts "https://api.test/v1" 0 2 ++ [EvHttpGet "https://api.test/v1"]).
Proof.
apply (api_other_exception_escapes flaky_api "https://api.test/v1"
         ["data"; "items"; "first"] None 3 2%nat AttributeError).
- simpl. lia.
- intros i Hi. destruct i as [|[|i]]; [reflexivity|reflexivity|lia].
- reflexivity.
- discriminate.
Defined.

(** ** What each walker does and does not do *)

Lemma forallb_count_zero (allowed p : event -> bool) (t : list event) :
forallb allowed t = true ->
(forall e, allowed e = true -> p e = false) ->
count p t = 0%nat.
Proof.
intros Ht Hp. unfold count. induction t as [|e t IH]; [reflexivity|].
simpl in *. apply andb_prop in Ht. destruct Ht as [He Ht].
rewrite (Hp e He). apply IH. exact Ht.
Qed.

Lemma page_event_dynamic (evs : list event) :
forallb page_event evs = true -> forallb dynamic_event evs = true.
Proof.
induction evs as [|e evs IH]; [reflexivity|]. simpl. intros H.
apply andb_prop in H. destruct H as [He H]. rewrite (IH H).
destruct e; try discriminate; reflexivity.
Qed.

Section WalkerEvents.
Context {St : Type} {D : Driver St}.

Lemma static_trace_events (http_get : nat -> string -> option Soup)
  (urljoin : string -> string -> string) (url : string)
  (selectors : list (string * string)) (pagination_selector : option string)
  (limit : Z) :
forallb static_event
  (snd (scrape_static http_get urljoin url selectors pagination_selector limit))
= true.
Proof.
destruct (scrape_static_final http_get urljoin url selectors pagination_selector limit)
  as (st & Hl & ->). simpl.
apply (static_loop_invariant http_get urljoin url selectors pagination_selector limit
         (fun st => forallb static_event (st_trace st) = true))
  with (fuel := Z.to_nat limit) (st := static_init url); [|reflexivity|exact Hl].
intros s0 _ HP.
destruct (static_body_cases http_get urljoin url selectors pagination_selector s0)
  as [E|[(cur & _ & _ & _ & _ & Ht)|(cur & soup & _ & _ & _ & _ & Ht)]].
- rewrite E. exact HP.
- rewrite Ht, forallb_app, HP. reflexivity.
- rewrite Ht, forallb_app, HP. reflexivity.
Qed.

Lemma api_trace_events (api_get : nat -> string -> headers -> res json)
  (url : string) (json_path : list string) (hdrs : option headers) (retries : Z)
  (todo : nat) :
forall a trace,
  forallb api_event trace = true ->
  forallb api_event
    (snd (api_attempts api_get url json_path hdrs retries todo a trace)) = true.
Proof.
induction todo as [|todo IH]; intros a trace Ht; simpl; [exact Ht|].
destruct (api_try api_get url json_path hdrs a) as [data|e]; simpl.
- rewrite forallb_app, Ht. reflexivity.
- assert (Hget : forallb api_event (trace ++ [EvHttpGet url]) = true)
    by (rewrite forallb_app, Ht; reflexivity).
  destruct e; simpl; try exact Hget.
  destruct (a =? retries - 1)%Z; simpl.
  + rewrite !forallb_app, Ht. reflexivity.
  + apply IH. rewrite !forallb_app, Ht. reflexivity.
Qed.

(** The waits of the API fetcher: one fewer than the attempts left. *)
Lemma api_trace_sleeps (api_get : nat -> string -> headers -> res json)
  (url : string) (json_path : list string) (hdrs : option headers) (retries : Z)
  (todo : nat) :
forall a trace,
  (a + Z.of_nat todo = retries)%Z ->
  (count is_sleep (snd (api_attempts api_get url json_path hdrs retries todo a trace))
   <= count is_sleep trace + (todo - 1))%nat.
Proof.
induction todo as [|todo IH]; intros a trace Hsum; simpl; [lia|].
destruct (api_try api_get url json_path hdrs a) as [data|e]; simpl.
- rewrite count_app. unfold count at 2. simpl. lia.
- assert (Hget : (count is_sleep (trace ++ [EvHttpGet url])
                  <= count is_sleep trace + (todo - 0))%nat).
  { rewrite count_app. unfold count at 2. simpl. lia. }
  destruct e; simpl; try exact Hget.
  destruct (Z.eqb_spec a (retries - 1)) as [E|E]; simpl.
  + rewrite !count_app. unfold count at 2 3. simpl. lia.
  + etransitivity; [apply IH; lia|].
    rewrite !count_app. unfold count at 2 3. simpl. lia.
Qed.

Lemma dynamic_body_events (selectors : list (string * string))
  (pagination_selector : option string) (w : dyn_state St) :
forallb dynamic_event (dy_trace w) = true ->
forallb dynamic_event
  (dy_trace (dstep_state (dynamic_body selectors pagination_selector w))) = true.
Proof.
intros HP. unfold dynamic_body.
destruct (dy_url w) as [cur|]; [|exact HP].
destruct (navigate (dy_browser w) cur) as [st1 [e|]].
{ simpl. rewrite forallb_app, HP. reflexivity. }
destruct (until (polls 10) (presence_of_element_located READY) st1) as [st2 [u|e]].
2:{ simpl. rewrite !forallb_app, HP. reflexivity. }
destruct (base_extract selectors cur st2) as [[base found] log] eqn:Eb.
assert (Hlog : forallb page_event log = true).
{ pose proof (extract_log_page selectors st2 (fun name => ErrorScraping name cur) [])
    as H. unfold base_extract in Eb. rewrite Eb in H. exact H. }
apply page_event_dynamic in Hlog.
destruct (variations selectors cur _) as [w3 r] eqn:Ev.
destruct (same_page_variations selectors cur _ _ _ Ev) as (_ & _ & evs & Ht & Hevs).
simpl in Ht. apply page_event_dynamic in Hevs.
assert (H3 : forallb dynamic_event (dy_trace w3) = true).
{ rewrite Ht, !forallb_app, HP, Hlog, Hevs. reflexivity. }
destruct r as [e|]; [exact H3|].
destruct (paginate pagination_selector cur (dy_browser w3)) as [[st4 next] evs'] eqn:Ep.
pose proof (paginate_events selectors pagination_selector 0 cur (dy_browser w3)) as Hp.
rewrite Ep in Hp. simpl in Hp. apply page_event_dynamic in Hp.
simpl. rewrite !forallb_app, H3, Hp. reflexivity.
Qed.

Lemma dynamic_trace_events (url : string) (selectors : list (string * string))
  (pagination_selector : option string) (limit : Z) (browser : string) :
forallb dynamic_event
  (snd (scrape_dynamic url selectors pagination_selector limit browser)) = true.
Proof.
unfold scrape_dynamic.
assert (Hlog : forallb dynamic_event (snd (get_driver (St := St) browser)) = true).
{ unfold get_driver.
  destruct (String.eqb (lower browser) "chrome"); simpl.
  { destruct (launch "chrome"); reflexivity. }
  destruct (String.eqb (lower browser) "firefox"); simpl.
  { destruct (launch "firefox"); reflexivity. }
  destruct (String.eqb (lower browser) "safari"); simpl.
  { destruct (launch "safari"); reflexivity. }
  reflexivity. }
destruct (get_driver browser) as [[d|e] log]; simpl in Hlog; [|exact Hlog].
destruct (dynamic_loop_total selectors pagination_selector limit (Z.to_nat limit)
            (mkDyn d (Some url) 0 [] log)) as [[w r] Hl].
{ simpl. lia. }
rewrite Hl.
assert (HP : forallb dynamic_event (dy_trace w) = true).
{ apply (dynamic_loop_invariant selectors pagination_selector limit
           (fun w => forallb dynamic_event (dy_trace w) = true))
    with (fuel := Z.to_nat limit) (w := mkDyn d (Some url) 0 [] log) (r := r);
    [|exact Hlog|exact Hl].
  intros w0 _. apply dynamic_body_events. }
unfold dynamic_finally.
assert (Hq : forallb dynamic_event (dy_trace w ++ [EvQuit]) = true)
  by (rewrite forallb_app, HP; reflexivity).
destruct (quit (dy_browser w)); [exact Hq|]. destruct r; exact Hq.
Qed.
End WalkerEvents.

(** X18: of the effects that the trace records, the static walker only
    makes HTTP requests and writes log lines; the API fetcher only makes
    HTTP requests, calls [time.sleep] and writes log lines; the dynamic
    walker only drives the browser (start, navigate, click, quit) and writes
    log lines: it has no call of [requests.get] and no call of [time.sleep]
    of its own (the waiting it does goes on inside [WebDriverWait.until],
    which the trace does not record); none of them writes a sheet. *)
Theorem walkers_events {St : Type} {D : Driver St}
  (http_get : nat -> string -> option Soup) (urljoin : string -> string -> string)
  (api_get : nat -> string -> headers -> res json)
  (url : string) (selectors : list (string * string))
  (pagination_selector : option string) (limit : Z) (browser : string)
  (json_path : list string) (hdrs : option headers) (retries : Z) :
forallb static_event
  (snd (scrape_static http_get urljoin url selectors pagination_selector limit))
= true
/\ forallb api_event (snd (scrape_api api_get url json_path hdrs retries)) = true
/\ forallb dynamic_event
     (snd (scrape_dynamic url selectors pagination_selector limit browser)) = true.
Proof.
split; [apply static_trace_events|]. split; [|apply dynamic_trace_events].
unfold scrape_api. apply api_trace_events. reflexivity.
Qed.

(** ** One site in the orchestrator *)

Lemma take_chars_length (s : string) :
forall n, (char_length (take_chars n s) <= n)%nat.
Proof.
induction s as [|c s IH]; intros n; simpl; [lia|].
destruct (is_continuation c) eqn:E.
- simpl. rewrite E. apply IH.
- destruct n as [|n]; simpl; [lia|]. rewrite E. specialize (IH n). lia.
Qed.

Section SiteFacts.
Context {St : Type} {D : Driver St}.
Variable http_get : nat -> string -> option Soup.
Variable urljoin : string -> string -> string.
Variable api_get : nat -> string -> headers -> res json.
Variable to_excel : string -> string -> scraped -> saving.
Variable host_sheet : string -> nat -> string.
Variable output_file : string.

Lemma saved_ok_log (l : level) (m : logmsg) : saved_ok [EvLog l m].
Proof.
repeat split; try (unfold count; simpl; lia).
constructor; [discriminate|constructor].
Qed.

Lemma saved_ok_nil : saved_ok [].
Proof.
repeat split; try (unfold count; simpl; lia). constructor.
Qed.

Lemma save_ok (idx : nat) (s : site) (u : string) (data : scraped) :
saved_ok (snd (save to_excel host_sheet output_file idx s u data)).
Proof.
unfold save. destruct (truthy_scraped data); [|apply saved_ok_log].
destruct (to_excel _ u data) as [| |e [|]]; simpl.
- repeat split; try (unfold count; simpl; lia).
  constructor; [|constructor; [discriminate|constructor]].
  intros n E. injection E as <-. apply take_chars_length.
- apply saved_ok_log.
- repeat split; try (unfold count; simpl; lia).
  constructor; [discriminate|constructor].
- apply saved_ok_nil.
Qed.

Lemma then_save_shape (idx : nat) (s : site) (u : string)
  (walked : res scraped) (walk : list event) :
exists saved,
  snd (then_save to_excel host_sheet output_file idx s u (walked, walk))
  = walk ++ saved
  /\ saved_ok saved.
Proof.
unfold then_save. destruct walked as [data|e].
- pose proof (save_ok idx s u data) as H.
  destruct (save to_excel host_sheet output_file idx s u data) as [r tr'].
  exists tr'. split; [reflexivity|exact H].
- exists []. rewrite app_nil_r. split; [reflexivity|apply saved_ok_nil].
Qed.

Lemma scrape_static_walk (s : site) (u : string)
  (selectors : list (string * string)) :
site_url s = Some u ->
site_selectors s = Some selectors ->
site_type s = Some "static" ->
walk_ok s (snd (scrape_static http_get urljoin u selectors (site_pagination s)
                  (get_default (site_limit s) 5%Z))).
Proof.
intros Hu Hs Hty.
pose proof (static_trace_events http_get urljoin u selectors (site_pagination s)
              (get_default (site_limit s) 5%Z)) as Hev.
destruct (scrape_static_final http_get urljoin u selectors (site_pagination s)
            (get_default (site_limit s) 5%Z)) as (st & Hl & E).
rewrite E in *. simpl in *.
apply static_loop_gets in Hl. simpl in Hl.
assert (H0 : count is_http_get [] = 0%nat) by reflexivity.
unfold walk_ok, site_budget. rewrite Hu, Hs, Hty. simpl.
rewrite (forallb_count_zero static_event is_sheet _ Hev)
  by (intros e; destruct e; simpl; congruence).
rewrite (forallb_count_zero static_event is_sleep _ Hev)
  by (intros e; destruct e; simpl; congruence).
rewrite (forallb_count_zero static_event is_navigate _ Hev)
  by (intros e; destruct e; simpl; congruence).
repeat split; lia.
Qed.

Lemma scrape_dynamic_walk (s : site) (u : string)
  (selectors : list (string * string)) :
site_url s = Some u ->
site_selectors s = Some selectors ->
site_type s = Some "dynamic" ->
walk_ok s (snd (scrape_dynamic u selectors (site_pagination s)
                  (get_default (site_limit s) 5%Z)
                  (get_default (site_browser s) "chrome"))).
Proof.
intros Hu Hs Hty.
pose proof (dynamic_trace_events u selectors (site_pagination s)
              (get_default (site_limit s) 5%Z)
              (get_default (site_browser s) "chrome")) as Hev.
assert (Hnav : (count is_navigate
                  (snd (scrape_dynamic u selectors (site_pagination s)
                          (get_default (site_limit s) 5%Z)
                          (get_default (site_browser s) "chrome")))
                <= Z.to_nat (get_default (site_limit s) 5%Z))%nat).
{ unfold scrape_dynamic.
  pose proof (get_driver_no_quit (St := St) (get_default (site_browser s) "chrome"))
    as [_ Hn].
  destruct (get_driver _) as [[d|e] log]; simpl in Hn; [|simpl; lia].
  destruct (dynamic_loop _ _ _ _ _) as [[w r]|] eqn:E; [|simpl; lia].
  apply dynamic_loop_counts in E. simpl in E. destruct E as [E _].
  unfold dynamic_finally.
  assert (Hq : count is_navigate (dy_trace w ++ [EvQuit])
               = count is_navigate (dy_trace w)).
  { rewrite count_app. unfold count. simpl. lia. }
  destruct (quit (dy_browser w)); [simpl; lia|].
  destruct r; simpl; lia. }
unfold walk_ok, site_budget. rewrite Hu, Hs, Hty. simpl.
rewrite (forallb_count_zero dynamic_event is_sheet _ Hev)
  by (intros e; destruct e; simpl; congruence).
rewrite (forallb_count_zero dynamic_event is_sleep _ Hev)
  by (intros e; destruct e; simpl; congruence).
rewrite (forallb_count_zero dynamic_event is_http_get _ Hev)
  by (intros e; destruct e; simpl; congruence).
repeat split; lia.
Qed.

Lemma scrape_api_walk (s : site) (u : string)
  (selectors : list (string * string)) (json_path : list string)
  (hdrs : option headers) :
site_url s = Some u ->
site_selectors s = Some selectors ->
site_json_path s = Some json_path ->
site_type s = Some "api" ->
walk_ok s (snd (scrape_api api_get u json_path hdrs 3)).
Proof.
intros Hu Hs Hj Hty. unfold scrape_api.
pose proof (api_trace_events api_get u json_path hdrs 3 (Z.to_nat 3) 0 [] eq_refl)
  as Hev.
pose proof (api_trace_sleeps api_get u json_path hdrs 3 (Z.to_nat 3) 0 [] eq_refl)
  as Hsl.
pose proof (api_attempts_gets api_get u json_path hdrs 3 (Z.to_nat 3) 0 []) as Hg.
assert (H0 : count is_http_get [] = 0%nat) by reflexivity.
assert (H1 : count is_sleep [] = 0%nat) by reflexivity.
unfold walk_ok, site_budget. rewrite Hu, Hs, Hj, Hty. simpl String.eqb. cbv iota.
rewrite (forallb_count_zero api_event is_sheet _ Hev)
  by (intros e; destruct e; simpl; congruence).
rewrite (forallb_count_zero api_event is_navigate _ Hev)
  by (intros e; destruct e; simpl; congruence).
simpl Z.to_nat in *. repeat split; lia.
Qed.

Ltac site_shape :=
  split; [reflexivity|split; [reflexivity|split;
    [assumption|first [assumption | apply saved_ok_nil]]]].

(** The trace of one site: log lines, the walker's part, the part of the
    sink. *)
Lemma process_site_shape (idx : nat) (s : site) :
exists pre walk saved,
  snd (process_site http_get urljoin api_get to_excel host_sheet output_file idx s)
  = pre ++ walk ++ saved
  /\ forallb is_log_line pre = true
  /\ walk_ok s walk
  /\ saved_ok saved.
Proof.
assert (Hnil : walk_ok s []).
{ repeat split; unfold count; simpl; lia. }
unfold process_site.
destruct (site_url s) as [u|] eqn:Hu;
  [|exists [EvLog ERROR (InvalidConfig (get_default (site_name s) "unknown"))], [], [];
    site_shape].
destruct (site_type s) as [ty|] eqn:Hty;
  [|exists [EvLog ERROR (InvalidConfig (get_default (site_name s) "unknown"))], [], [];
    site_shape].
destruct (site_selectors s) as [selectors|] eqn:Hsel;
  [|exists [EvLog ERROR (InvalidConfig (get_default (site_name s) "unknown"))], [], [];
    site_shape].
destruct (String.eqb_spec ty "static") as [E|_].
{ subst ty.
  pose proof (scrape_static_walk s u selectors Hu Hsel Hty) as Hw.
  destruct (scrape_static http_get urljoin u selectors (site_pagination s)
              (get_default (site_limit s) 5%Z)) as [data tr].
  destruct (then_save_shape idx s u (Ok (Records data)) tr) as (saved & Hs & Hok).
  destruct (then_save _ _ _ _ _ _ _) as [r tr'].
  simpl in *. subst tr'.
  exists [EvLog INFO (Scraping u "static")], tr, saved. site_shape. }
destruct (String.eqb_spec ty "dynamic") as [E|_].
{ subst ty.
  pose proof (scrape_dynamic_walk s u selectors Hu Hsel Hty) as Hw.
  destruct (scrape_dynamic u selectors (site_pagination s)
              (get_default (site_limit s) 5%Z)
              (get_default (site_browser s) "chrome")) as [[data|e] tr].
  - destruct (then_save_shape idx s u (Ok (Records data)) tr) as (saved & Hs & Hok).
    destruct (then_save _ _ _ _ _ _ _) as [r tr'].
    simpl in *. subst tr'.
    exists [EvLog INFO (Scraping u "dynamic")], tr, saved. site_shape.
  - exists [EvLog INFO (Scraping u "dynamic")], tr, []. simpl in *.
    rewrite app_nil_r. site_shape. }
destruct (String.eqb_spec ty "api") as [E|_].
{ subst ty.
  destruct (site_json_path s) as [json_path|] eqn:Hj.
  2:{ exists [EvLog INFO (Scraping u "api")], [], [].
      site_shape. }
  pose proof (scrape_api_walk s u selectors json_path
                (Some match site_api_key s with
                      | Some k => [("Authorization", ("Bearer " ++ k)%string)]
                      | None => []
                      end) Hu Hsel Hj Hty) as Hw.
  destruct (scrape_api api_get u json_path _ 3) as [[data|e] tr].
  - destruct (then_save_shape idx s u (Ok (ApiData data)) tr) as (saved & Hs & Hok).
    destruct (then_save _ _ _ _ _ _ _) as [r tr'].
    simpl in *. subst tr'.
    exists [EvLog INFO (Scraping u "api")], tr, saved. site_shape.
  - exists [EvLog INFO (Scraping u "api")], tr, []. simpl in *.
    rewrite app_nil_r. site_shape. }
exists [EvLog INFO (Scraping u ty); EvLog WARNING (UnknownType ty u)], [], [].
site_shape.
Qed.
End SiteFacts.

(** ** The run as a whole *)

Section RunFacts.
Context {St : Type} {D : Driver St}.
Variable http_get : nat -> string -> option Soup.
Variable urljoin : string -> string -> string.
Variable api_get : nat -> string -> headers -> res json.
Variable to_excel : string -> string -> scraped -> saving.
Variable host_sheet : string -> nat -> string.
Variable output_file : string.

Let process := process_site http_get urljoin api_get to_excel host_sheet output_file.
Let sites := sites_loop http_get urljoin api_get to_excel host_sheet output_file.

Lemma log_lines_count (p : event -> bool) (pre : list event) :
forallb is_log_line pre = true ->
(forall l m, p (EvLog l m) = false) ->
count p pre = 0%nat.
Proof.
intros Hpre Hp. apply (forallb_count_zero is_log_line p pre Hpre).
intros e He. destruct e; try discriminate. apply Hp.
Qed.

Lemma process_site_counts (idx : nat) (s : site) :
(count is_http_get (snd (process idx s)) + count is_navigate (snd (process idx s))
 <= site_budget s)%nat
/\ (count is_sleep (snd (process idx s)) <= 2)%nat
/\ (count is_sheet (snd (process idx s)) <= 1)%nat
/\ Forall (fun e => forall n, e = EvSheet n -> (char_length n <= 31)%nat)
     (snd (process idx s)).
Proof.
destruct (process_site_shape http_get urljoin api_get to_excel host_sheet output_file
            idx s) as (pre & walk & saved & E & Hpre & Hw & Hs).
fold process in E. rewrite E. clear E.
destruct Hw as (W1 & W2 & W3). destruct Hs as (S1 & S2 & S3 & S4 & S5).
rewrite !count_app.
rewrite (log_lines_count is_http_get pre Hpre) by reflexivity.
rewrite (log_lines_count is_navigate pre Hpre) by reflexivity.
rewrite (log_lines_count is_sleep pre Hpre) by reflexivity.
rewrite (log_lines_count is_sheet pre Hpre) by reflexivity.
repeat split; try lia.
apply Forall_app. split.
- clear - Hpre. induction pre as [|e pre IH]; constructor.
  + simpl in Hpre. apply andb_prop in Hpre. destruct Hpre as [He _].
    intros n En. subst e. discriminate.
  + apply IH. simpl in Hpre. apply andb_prop in Hpre. tauto.
- apply Forall_app. split; [|exact S5].
  clear - W1. unfold count in W1. induction walk as [|e walk IH]; constructor.
  + intros n En. subst e. simpl in W1. discriminate.
  + apply IH. simpl in W1. destruct (is_sheet e); [discriminate|exact W1].
Qed.

Lemma sites_loop_counts (l : list site) :
forall idx,
  (count is_http_get (snd (sites idx l)) + count is_navigate (snd (sites idx l))
   <= list_sum (map site_budget l))%nat
  /\ (count is_sleep (snd (sites idx l)) <= 2 * List.length l)%nat
  /\ (count is_sheet (snd (sites idx l)) <= List.length l)%nat
  /\ Forall (fun e => forall n, e = EvSheet n -> (char_length n <= 31)%nat)
       (snd (sites idx l)).
Proof.
induction l as [|s l IH]; intros idx.
- simpl. repeat split; try (unfold count; simpl; lia). constructor.
- unfold sites. simpl. fold process. fold sites.
  pose proof (process_site_counts idx s) as (P1 & P2 & P3 & P4).
  destruct (process idx s) as [[u|e] tr]; simpl in *.
  + specialize (IH (S idx)). destruct IH as (I1 & I2 & I3 & I4).
    destruct (sites (S idx) l) as [r tr']. simpl in *.
    rewrite !count_app. repeat split; try lia.
    apply Forall_app. split; assumption.
  + repeat split; try lia. exact P4.
Qed.

(** The turns of two lists of sites, one after the other. *)
Lemma sites_loop_app (l1 l2 : list site) :
forall idx,
  sites idx (l1 ++ l2)
  = match sites idx l1 with
    | (Ok _, t1) =>
        (fst (sites (idx + List.length l1) l2),
         t1 ++ snd (sites (idx + List.length l1) l2))
    | (Raise e, t1) => (Raise e, t1)
    end.
Proof.
induction l1 as [|s l1 IH]; intros idx.
- simpl. rewrite Nat.add_0_r. destruct (sites idx l2). reflexivity.
- unfold sites. simpl. fold process. fold sites.
  destruct (process idx s) as [[u|e] tr]; [|reflexivity].
  rewrite IH. replace (idx + S (List.length l1))%nat with (S idx + List.length l1)%nat
    by lia.
  destruct (sites (S idx) l1) as [[u1|e1] t1]; [|reflexivity].
  simpl. rewrite app_assoc. reflexivity.
Qed.

(** The trace of a run is the trace of its loop, followed by the last log
    line when nothing was raised. *)
Lemma run_scraper_trace (l : list site) :
snd (run_scraper http_get urljoin api_get to_excel host_sheet output_file l)
= snd (sites 0%nat l)
\/ snd (run_scraper http_get urljoin api_get to_excel host_sheet output_file l)
   = snd (sites 0%nat l) ++ [EvLog INFO (Completed output_file)].
Proof.
unfold run_scraper. fold sites.
destruct (sites 0%nat l) as [[u|e] tr]; destruct (writer_close tr); simpl; auto.
Qed.
End RunFacts.

(** X19: a run makes at most as many HTTP requests and page navigations as
    the budgets of its sites add up to (three attempts for an API site,
    [limit] pages, 5 by default, for a static or dynamic one, none for a
    site that is skipped or that lacks its [json_path]), and calls
    [time.sleep] at most twice per site. *)
Theorem run_budget {St : Type} {D : Driver St}
  (http_get : nat -> string -> option Soup) (urljoin : string -> string -> string)
  (api_get : nat -> string -> headers -> res json)
  (to_excel : string -> string -> scraped -> saving)
  (host_sheet : string -> nat -> string) (output_file : string)
  (websites : list site) :
(count is_http_get
   (snd (run_scraper http_get urljoin api_get to_excel host_sheet output_file websites))
 + count is_navigate
     (snd (run_scraper http_get urljoin api_get to_excel host_sheet output_file websites))
 <= list_sum (map site_budget websites))%nat
/\ (count is_sleep
      (snd (run_scraper http_get urljoin api_get to_excel host_sheet output_file websites))
    <= 2 * List.length websites)%nat.
Proof.
pose proof (sites_loop_counts http_get urljoin api_get to_excel host_sheet output_file
              websites 0%nat) as (H1 & H2 & _).
destruct (run_scraper_trace http_get urljoin api_get to_excel host_sheet output_file
            websites) as [E|E]; rewrite E.
- lia.
- rewrite !count_app. unfold count at 2 4 6. simpl. lia.
Qed.

(** X20: a run writes at most one sheet per configured site, and the name
    of every sheet it writes has at most 31 characters. *)
Theorem run_sheets {St : Type} {D : Driver St}
  (http_get : nat -> string -> option Soup) (urljoin : string -> string -> string)
  (api_get : nat -> string -> headers -> res json)
  (to_excel : string -> string -> scraped -> saving)
  (host_sheet : string -> nat -> string) (output_file : string)
  (websites : list site) :
(count is_sheet
   (snd (run_scraper http_get urljoin api_get to_excel host_sheet output_file websites))
 <= List.length websites)%nat
/\ Forall (fun e => forall n, e = EvSheet n -> (char_length n <= 31)%nat)
     (snd (run_scraper http_get urljoin api_get to_excel host_sheet output_file websites)).
Proof.
pose proof (sites_loop_counts http_get urljoin api_get to_excel host_sheet output_file
              websites 0%nat) as (_ & _ & H3 & H4).
destruct (run_scraper_trace http_get urljoin api_get to_excel host_sheet output_file
            websites) as [E|E]; rewrite E.
- split; [lia|exact H4].
- rewrite count_app. unfold count at 2. simpl. split; [lia|].
  apply Forall_app. split; [exact H4|]. constructor; [discriminate|constructor].
Qed.

(** X21: the sites of a run are processed in order and independently: the
    run of two lists of sites, one after the other, is the run of the first
    list followed, when that did not raise, by the turns of the second list
    with the indexes shifted; when the first list raises, the second is
    never touched. *)
Theorem sites_in_sequence {St : Type} {D : Driver St}
  (http_get : nat -> string -> option Soup) (urljoin : string -> string -> string)
  (api_get : nat -> string -> headers -> res json)
  (to_excel : string -> string -> scraped -> saving)
  (host_sheet : string -> nat -> string) (output_file : string)
  (l1 l2 : list site) (idx : nat) :
sites_loop http_get urljoin api_get to_excel host_sheet output_file idx (l1 ++ l2)
= match sites_loop http_get urljoin api_get to_excel host_sheet output_file idx l1 with
  | (Ok _, t1) =>
      (fst (sites_loop http_get urljoin api_get to_excel host_sheet output_file
              (idx + List.length l1) l2),
       t1 ++ snd (sites_loop http_get urljoin api_get to_excel host_sheet output_file
                    (idx + List.length l1) l2))
  | (Raise e, t1) => (Raise e, t1)
  end.
Proof.
apply sites_loop_app.
Qed.

(** X22: an API site whose three attempts all fail is not fatal: the
    fetcher hands back [None], the orchestrator logs that no data was
    scraped, writes no sheet and returns normally, so the loop goes on with
    the next site. *)
Theorem api_exhaustion_not_fatal {St : Type} {D : Driver St}
  (http_get : nat -> string -> option Soup) (urljoin : string -> string -> string)
  (api_get : nat -> string -> headers -> res json)
  (to_excel : string -> string -> scraped -> saving)
  (host_sheet : string -> nat -> string) (output_file : string)
  (idx : nat) (s : site) (u : string) (sels : list (string * string))
  (json_path : list string) :
site_url s = Some u ->
site_type s = Some "api" ->
site_selectors s = Some sels ->
site_json_path s = Some json_path ->
(forall n h, (n < 3)%nat -> api_get n u h = Raise RequestException) ->
process_site http_get urljoin api_get to_excel host_sheet output_file idx s
= (Ok tt,
   EvLog INFO (Scraping u "api")
   :: failed_attempts u 0 2
   ++ [EvHttpGet u; EvLog WARNING (ApiAttemptFailed 3 u);
       EvLog ERROR (ApiFailedAfter 3 u); EvLog WARNING (NoDataScraped u)]).
Proof.
intros Hu Hty Hs Hj Hfail. unfold process_site. rewrite Hu, Hty, Hs, Hj. simpl.
unfold scrape_api. simpl. unfold api_try. simpl.
rewrite !Hfail by lia. simpl. reflexivity.
Qed.

Lemma api_exhaustion_not_fatal_witness :
fst (@sites_loop nat (shop true) web join dead_api xlsx host_name "out.xlsx" 0
       [keyed_api_site; example_site])
= Ok tt
/\ count is_sheet
     (snd (@process_site nat (shop true) web join dead_api xlsx host_name "out.xlsx" 0
             keyed_api_site))
   = 0%nat.
Proof.
split; [reflexivity|].
rewrite (@api_exhaustion_not_fatal nat (shop true) web join dead_api xlsx host_name
           "out.xlsx" 0%nat keyed_api_site "https://api.test/v1" [] ["data"]
           eq_refl eq_refl eq_refl eq_refl (fun n h _ => eq_refl)).
reflexivity.
Defined.

(** ** Cells *)

Lemma strs_of_map (texts : list string) : strs_of (map VStr texts) = Some texts.
Proof.
induction texts as [|t texts IH]; simpl; [reflexivity|]. rewrite IH. reflexivity.
Qed.

Lemma flattens_texts (texts : list string) : flattens (VList (map VStr texts)).
Proof.
exists (VStr (String.concat ", " texts)). simpl. rewrite strs_of_map.
split; [reflexivity|discriminate].
Qed.

Lemma flattens_scalar (o : option string) : flattens (opt_value o).
Proof.
exists (opt_value o). destruct o; simpl; split; try reflexivity; discriminate.
Qed.

Lemma strs_of_srcs (srcs : list (option string)) :
strs_of (map opt_value (filter truthy_opt srcs))
= Some (map (fun o => match o with Some s => s | None => "" end)
          (filter truthy_opt srcs)).
Proof.
induction srcs as [|[s|] srcs IH]; simpl; [reflexivity| |exact IH].
destruct (truthy_str s); simpl; [|exact IH]. rewrite IH. reflexivity.
Qed.

Section DynamicCells.
Context {St : Type} {D : Driver St}.

Lemma dynamic_value_flattens (st : St) (name : string) (elements : list elem)
  (v : value) :
dynamic_value st name elements = Ok v -> flattens v.
Proof.
unfold dynamic_value.
destruct (str_in (lower name) ["images"]).
{ unfold dyn_images. destruct (mapM (img_src st) elements) as [srcs|e]; [|discriminate].
  intros H. injection H as <-. eexists. simpl. rewrite strs_of_srcs. simpl.
  split; [reflexivity|discriminate]. }
destruct (str_in (lower name) ["colors"; "sizes"]).
{ destruct (dyn_texts st elements) as [texts|e]; [|discriminate].
  intros H. injection H as <-. apply flattens_texts. }
destruct (dyn_texts st elements) as [texts|e]; [|discriminate].
intros H. injection H as <-.
destruct texts as [|t texts]; [apply (flattens_scalar None)|apply (flattens_scalar (Some t))].
Qed.

Lemma dict_set_flattens (k : string) (v : value) (d : record) :
flattens v -> Forall (fun kv => flattens (snd kv)) d ->
Forall (fun kv => flattens (snd kv)) (dict_set k v d).
Proof.
intros Hv Hd. induction d as [|[k0 v0] d IH]; simpl.
- constructor; [exact Hv|constructor].
- inversion Hd; subst. destruct (String.eqb k0 k); constructor; auto.
Qed.

Lemma dynamic_field_flattens (st : St) (warn : string -> logmsg)
  (acc : record * bool * list event) (ns : string * string) :
Forall (fun kv => flattens (snd kv)) (fst (fst acc)) ->
Forall (fun kv => flattens (snd kv)) (fst (fst (dynamic_field st warn acc ns))).
Proof.
destruct acc as [[data found] log], ns as [n s]. intros Hacc. simpl in Hacc.
unfold dynamic_field.
destruct (str_in n ["color_variation"; "size_variation"]); [exact Hacc|].
destruct (find_elements st s) as [els|e]; simpl.
- destruct (truthy_list els); simpl.
  + destruct (dynamic_value st n els) as [v|e] eqn:Ev; simpl.
    * apply dict_set_flattens; [|exact Hacc].
      apply (dynamic_value_flattens st n els v Ev).
    * apply dict_set_flattens; [apply (flattens_scalar None)|exact Hacc].
  + apply dict_set_flattens; [apply (flattens_scalar None)|exact Hacc].
- apply dict_set_flattens; [apply (flattens_scalar None)|exact Hacc].
Qed.

Lemma dynamic_extract_flattens (selectors : list (string * string)) (st : St)
  (warn : string -> logmsg) (seed : record) :
Forall (fun kv => flattens (snd kv)) seed ->
Forall (fun kv => flattens (snd kv)) (fst (fst (dynamic_extract selectors st warn seed))).
Proof.
intros Hseed. unfold dynamic_extract.
assert (H : forall l acc,
          Forall (fun kv => flattens (snd kv)) (fst (fst acc)) ->
          Forall (fun kv => flattens (snd kv))
            (fst (fst (fold_left (dynamic_field st warn) l acc)))).
{ induction l as [|ns l IH]; intros acc Hacc; simpl; [exact Hacc|].
  apply IH. apply dynamic_field_flattens. exact Hacc. }
apply H. exact Hseed.
Qed.
End DynamicCells.

(** X23: every cell of a record of the dynamic walker, base or variation,
    passes the flattening of line 255 and comes out as a string or [None]:
    its lists hold strings only.  This holds of the records that a turn of
    the page loop appends, and so of every record that [scrape_dynamic]
    returns. *)
Theorem dynamic_cells_flatten {St : Type} {D : Driver St}
  (url : string) (selectors : list (string * string))
  (pagination_selector : option string) (limit : Z) (browser : string) :
(forall w : dyn_state St,
   Forall (fun r => Forall (fun kv => flattens (snd kv)) r) (dy_results w) ->
   Forall (fun r => Forall (fun kv => flattens (snd kv)) r)
     (dy_results (dstep_state (dynamic_body selectors pagination_selector w))))
/\ (forall rs,
      fst (scrape_dynamic (St := St) url selectors pagination_selector limit browser)
      = Ok rs ->
      Forall (fun r => Forall (fun kv => flattens (snd kv)) r) rs).
Proof.
assert (Hb : forall cur (st : St),
          Forall (fun kv => flattens (snd kv))
            (fst (fst (base_extract selectors cur st)))).
{ intros cur st. apply dynamic_extract_flattens. constructor. }
assert (Hv : forall (st : St) warn lc ls,
          Forall (fun kv => flattens (snd kv))
            (fst (fst (dynamic_extract selectors st warn
                         [("variation_color", VStr lc);
                          ("variation_size", VStr ls)])))).
{ intros st warn lc ls. apply dynamic_extract_flattens.
  repeat constructor; apply (flattens_scalar (Some _)). }
split.
- intros w Hw.
  destruct (dynamic_body_records selectors _ _ Hb Hv pagination_selector w)
    as (bs & vs & Hr & _ & Hbs & Hvs).
  rewrite Hr. apply Forall_app. split; [exact Hw|].
  apply Forall_app. split; assumption.
- intros rs Hrs.
  pose proof (scrape_dynamic_records selectors _ _ Hb Hv url pagination_selector
                limit browser rs Hrs) as H.
  apply (Forall_impl _ (fun r Hr => match Hr with or_introl A => A | or_intror B => B end) H).
Qed.

(** The seven records of the shop page with its two prices and its empty
    note. *)
Lemma dynamic_cells_flatten_witness :
exists rs,
  fst (@scrape_dynamic nat (shop true) "https://shop.test/p1"
         (("note", ".note") :: ("price", ".price") :: shop_selectors) None 5 "chrome")
  = Ok rs
  /\ List.length rs = 7%nat
  /\ Forall (fun r => Forall (fun kv => flattens (snd kv)) r) rs.
Proof.
eexists. split; [reflexivity|]. split; [reflexivity|].
apply (proj2 (@dynamic_cells_flatten nat (shop true) "https://shop.test/p1"
                (("note", ".note") :: ("price", ".price") :: shop_selectors)
                None 5 "chrome")).
reflexivity.
Defined.

(** X24: a cell of a static record passes the flattening of line 255
    unless its field is named images (in any letter case); under images the
    flattening raises [TypeError] as soon as one matched element has no [src]
    attribute, and joins the sources when they all have one. *)
Theorem static_cells_flatten (name : string) (elements : list Tag) :
(String.eqb (lower name) "images" = false -> flattens (static_value name elements))
/\ (String.eqb (lower name) "images" = true ->
    (exists el, In el elements /\ tag_get "src" el = None) ->
    flatten_cell (static_value name elements) = None)
/\ (String.eqb (lower name) "images" = true ->
    forall srcs, map (tag_get "src") elements = map Some srcs ->
    flatten_cell (static_value name elements) = Some (VStr (String.concat ", " srcs))).
Proof.
unfold static_value, reserved_static. simpl str_in.
split; [|split].
- intros Hn. rewrite Hn. simpl.
  destruct ((lower name =? "colors") || ((lower name =? "sizes") || false))%string.
  + rewrite <- (map_map get_text_strip VStr). apply flattens_texts.
  + destruct (filter truthy_str (map get_text_strip elements)) as [|t [|t' ts]] eqn:E;
      simpl.
    * apply (flattens_scalar None).
    * apply (flattens_scalar (Some t)).
    * apply (flattens_texts (t :: t' :: ts)).
- intros Hn (el & Hin & Hsrc). rewrite Hn. simpl.
  induction elements as [|a elements IH]; [destruct Hin|].
  simpl. destruct Hin as [->|Hin].
  + rewrite Hsrc. reflexivity.
  + destruct (opt_value (tag_get "src" a)); try reflexivity.
    specialize (IH Hin). simpl in IH.
    destruct (strs_of _); [discriminate|reflexivity].
- intros Hn srcs Hs. rewrite Hn. simpl.
  assert (E : strs_of (map (fun el => opt_value (tag_get "src" el)) elements)
              = Some srcs).
  { rewrite <- (map_map (tag_get "src") opt_value), Hs, map_map.
    apply (strs_of_map srcs). }
  rewrite E. reflexivity.
Qed.

Lemma static_cells_flatten_witness :
flatten_cell (static_value "Images" (gallery_page "img")) = None
/\ flatten_cell (static_value "images" [mkTag [] [("src", "a.png")];
                                         mkTag [] [("src", "b.png")]])
   = Some (VStr "a.png, b.png")
/\ flattens (static_value "sizes" (gallery_page ".size")).
Proof.
split; [|split].
- apply (proj1 (proj2 (static_cells_flatten "Images" (gallery_page "img"))) eq_refl).
  exists (mkTag [] [("alt", "b")]). split; [right; left; reflexivity|reflexivity].
- apply (proj2 (proj2 (static_cells_flatten "images"
                         [mkTag [] [("src", "a.png")]; mkTag [] [("src", "b.png")]]))
           eq_refl ["a.png"; "b.png"] eq_refl).
- apply (proj1 (static_cells_flatten "sizes" (gallery_page ".size")) eq_refl).
Defined.

(** ** Sheet names *)

Lemma has_char_app (c : ascii) (a b : string) :
has_char c (a ++ b)%string = has_char c a || has_char c b.
Proof.
induction a as [|x a IH]; simpl; [reflexivity|]. rewrite IH, orb_assoc. reflexivity.
Qed.

Lemma before_no_sep (sep : ascii) (s : string) : has_char sep (before sep s) = false.
Proof.
induction s as [|c s IH]; simpl; [reflexivity|].
destruct (Ascii.eqb c sep) eqn:E; simpl; [reflexivity|]. rewrite E. exact IH.
Qed.

Lemma decimal_no_slash (n : nat) : has_char "/" (decimal n) = false.
Proof.
unfold decimal. generalize (Nat.to_uint n). intros d.
induction d; simpl; auto.
Qed.

Lemma take_chars_no_char (c : ascii) (s : string) :
forall n, has_char c s = false -> has_char c (take_chars n s) = false.
Proof.
induction s as [|a s IH]; intros n H; simpl in *; [reflexivity|].
apply orb_false_elim in H. destruct H as [Ha Hs].
destruct (is_continuation a); [|destruct n as [|n]; [reflexivity|]];
  simpl; rewrite Ha; simpl; apply IH; exact Hs.
Qed.

Lemma prefix_has_char (c : ascii) (old : string) :
forall s, prefix old s = true -> has_char c old = true -> has_char c s = true.
Proof.
induction old as [|a old IH]; intros s Hp Hc; simpl in Hc; [discriminate Hc|].
destruct s as [|b s]; simpl in Hp; [discriminate Hp|].
destruct (ascii_dec a b) as [E|E]; [|discriminate Hp]. subst b. simpl.
destruct (Ascii.eqb a c); [reflexivity|]. simpl in *. apply IH; assumption.
Qed.

Lemma prefix_empty (s : string) : prefix "" s = true.
Proof. destruct s; reflexivity. Qed.

(** Nothing is replaced in a string that lacks a character of [old]. *)
Lemma replace_no_char (c : ascii) (old new : string) :
has_char c old = true ->
forall s, has_char c s = false -> replace_from old new 0 s = s.
Proof.
intros Hold. induction s as [|a s IH]; intros Hs; [reflexivity|].
cbn [replace_from].
destruct (prefix old (String a s)) eqn:Hp.
- rewrite (prefix_has_char c old _ Hp Hold) in Hs. discriminate.
- simpl in Hs. apply orb_false_elim in Hs. rewrite IH by tauto. reflexivity.
Qed.

(** X25: the sheet name derived from the URL never holds a slash; for an
    https or http URL without any other colon it is the host (what precedes
    the first slash), an underscore and the index of the site; and the name
    used when the site has no [name] is that one cut to 31 characters,
    still without a slash. *)
Theorem host_sheet_name_host (rest : string) (idx : nat) :
(forall u, has_char "/" (host_sheet_name u idx) = false)
/\ (forall u, has_char "/" (take_chars 31 (host_sheet_name u idx)) = false
              /\ (char_length (take_chars 31 (host_sheet_name u idx)) <= 31)%nat)
/\ (has_char ":" rest = false ->
    host_sheet_name ("https://" ++ rest) idx
    = (before "/" rest ++ "_" ++ decimal idx)%string
    /\ host_sheet_name ("http://" ++ rest) idx
       = (before "/" rest ++ "_" ++ decimal idx)%string).
Proof.
assert (Hslash : forall u, has_char "/" (host_sheet_name u idx) = false).
{ intros u. unfold host_sheet_name. rewrite !has_char_app, before_no_sep.
  simpl. apply decimal_no_slash. }
split; [exact Hslash|]. split.
- intros u. split; [apply take_chars_no_char; apply Hslash|apply take_chars_length].
- intros Hrest. unfold host_sheet_name, str_replace.
  assert (H1 : replace_from "https://" "" 0 rest = rest)
    by (apply (replace_no_char ":"); [reflexivity|exact Hrest]).
  assert (H2 : replace_from "http://" "" 0 rest = rest)
    by (apply (replace_no_char ":"); [reflexivity|exact Hrest]).
  split.
  + assert (E : replace_from "https://" "" 0 ("https://" ++ rest) = rest).
    { simpl. rewrite prefix_empty. exact H1. }
    rewrite E, H2. reflexivity.
  + assert (E : replace_from "https://" "" 0 ("http://" ++ rest)
                = ("http://" ++ rest)%string).
    { simpl. rewrite H1. reflexivity. }
    rewrite E.
    assert (E' : replace_from "http://" "" 0 ("http://" ++ rest) = rest).
    { simpl. rewrite prefix_empty. exact H2. }
    rewrite E'. reflexivity.
Qed.

Lemma host_sheet_name_host_witness :
host_sheet_name "https://shop.example.com/products/1" 3 = "shop.example.com_3"
/\ host_sheet_name "http://x.test" 12 = "x.test_12".
Proof.
split.
- apply (proj1 (proj2 (proj2 (host_sheet_name_host "shop.example.com/products/1" 3))
                 eq_refl)).
- apply (proj2 (proj2 (proj2 (host_sheet_name_host "x.test" 12)) eq_refl)).
Defined.

(** ** Waiting and paging in the browser *)

Section Waits.
Context {St : Type} {D : Driver St}.

(** A wait that succeeds ends on a page state where the condition holds. *)
Lemma until_success (cond : St -> res bool) (extra : nat) :
forall st st', until extra cond st = (st', Ok tt) -> cond st' = Ok true.
Proof.
induction extra as [|extra IH]; intros st st'; simpl.
- destruct (cond st) as [[|]|e] eqn:E.
  + intros H. injection H as <-. exact E.
  + discriminate.
  + destruct e; discriminate.
- destruct (cond st) as [[|]|e] eqn:E.
  + intros H. injection H as <-. exact E.
  + apply IH.
  + destruct e; try discriminate. apply IH.
Qed.
End Waits.

(** X26: when the pagination of the dynamic walker finds a next page, the
    next URL is the browser's location after the wait and differs from the
    URL of the page just processed; in every other case (no selector, no
    button, a failing click, a location that never changes) there is no
    next URL. *)
Theorem paginate_moves {St : Type} {D : Driver St}
  (pagination_selector : option string) (cur : string) (st : St) :
(forall u,
   snd (fst (paginate pagination_selector cur st)) = Some u ->
   u <> cur
   /\ u = current_url (fst (fst (paginate pagination_selector cur st)))
   /\ exists sel btn,
        pagination_selector = Some sel /\ find_element st sel = Ok btn
        /\ snd (click st btn) = None)
/\ (snd (fst (paginate pagination_selector cur st)) = None ->
    forall sel btn,
      pagination_selector = Some sel -> truthy_str sel = true ->
      find_element st sel = Ok btn -> snd (click st btn) = None ->
      snd (until (polls 5) (url_changes cur) (fst (click st btn))) <> Ok tt).
Proof.
unfold paginate. split.
- intros u.
  destruct (truthy_opt pagination_selector); [|discriminate].
  destruct pagination_selector as [sel|]; [|discriminate].
  destruct (find_element st sel) as [btn|e] eqn:Ef; [|discriminate].
  destruct (click st btn) as [st1 [e|]] eqn:Ec; [discriminate|].
  destruct (until (polls 5) (url_changes cur) st1) as [st2 [[]|e]] eqn:Eu;
    [|discriminate].
  simpl. intros H. injection H as <-.
  apply until_success in Eu. unfold url_changes in Eu. injection Eu as Eu.
  split.
  + intros E. rewrite E, String.eqb_refl in Eu. discriminate.
  + split; [reflexivity|]. exists sel, btn. rewrite Ec. auto.
- intros Hnone sel btn Hsel Ht Hf Hc. rewrite Hsel in Hnone. simpl in Hnone.
  rewrite Ht, Hf in Hnone.
  destruct (click st btn) as [st1 [e|]]; simpl in *; [discriminate|].
  destruct (until (polls 5) (url_changes cur) st1) as [st2 [[]|e]];
    simpl in *; [discriminate|]. discriminate.
Qed.

(** In the catalogue the next button leads from page 1 to page 2, and
    nowhere from page 2. *)
Lemma paginate_moves_witness :
snd (fst (@paginate nat pager (Some "a.next") "https://shop.test/p1" 0%nat))
= Some "https://shop.test/p2"
/\ "https://shop.test/p2" <> "https://shop.test/p1"
/\ snd (fst (@paginate nat pager (Some "a.next") "https://shop.test/p2" 1%nat)) = None.
Proof.
split; [reflexivity|]. split; [|reflexivity].
apply (proj1 (@paginate_moves nat pager (Some "a.next") "https://shop.test/p1" 0%nat)
         "https://shop.test/p2" eq_refl).
Defined.
